(** * wild_meta_telegram: a shallow embedding of the two Telegram bots and
      of their manager, with the properties of the specification.

    Sources embedded:
    - [rss_macro_crypto_bot.py]   (module [Rss]),
    - [wildmeta_x_feed_bot.py]    (module [XBot]),
    - [wildmeta_bot_manager.py]   (module [Manager]).

    Conventions of the embedding.
    - A Python [str] is the [string] of the bytes of its UTF-8 encoding; its
      characters are the UTF-8 sequences ([Py.chars]), which [len], slices,
      [strip] and [split] count and test as Python does.
    - Python [float] and [int] are [Q] and [Z]; floating-point rounding is not
      modelled.
    - [None] is the [None] of an [option], or [JNull] for a value decoded
      from JSON.
    - A function that may raise returns an [outcome]; a SQLite file is the
      list of the rows of its table, in insertion order.
    - The collaborators the repository imports (the [re] engine on the
      keyword tables, dateutil, the page extractors, the sentiment models,
      strftime and number formatting) are the fields of a record [Env]. *)

From Stdlib Require Import ZArith QArith Qround List String Ascii Bool Lia Lqa.
From Stdlib Require Import DecimalString.
Import ListNotations.

Set Warnings "-register-all".
Close Scope Q_scope.
Open Scope string_scope.
Open Scope list_scope.
Open Scope Z_scope.

(* ------------------------------------------------------------------ *)
(** ** Python built-ins used by the bots *)

Module Py.

(** *** Characters

    A byte of the form [10xxxxxx] continues the character the bytes before
    it began. *)
Definition is_cont (c : ascii) : bool :=
  let n := nat_of_ascii c in ((128 <=? n)%nat && (n <=? 191)%nat).

Fixpoint all_cont (s : string) : bool :=
  match s with
  | EmptyString => true
  | String c r => is_cont c && all_cont r
  end.

Definition starts_cont (s : string) : bool :=
  match s with
  | String d _ => is_cont d
  | EmptyString => false
  end.

(** The characters of a string, in order: [list(s)]. *)
Fixpoint chars (s : string) : list string :=
  match s with
  | EmptyString => []
  | String c r =>
      match chars r with
      | ch :: rest =>
          if starts_cont r then String c ch :: rest
          else String c EmptyString :: ch :: rest
      | [] => [String c EmptyString]
      end
  end.

(** A character, and a character that does not begin with a continuation
    byte; the lists of characters that [chars] gives. *)
Definition is_char (ch : string) : bool :=
  match ch with
  | String _ t => all_cont t
  | EmptyString => false
  end.

Definition is_lead_char (ch : string) : bool :=
  match ch with
  | String c t => negb (is_cont c) && all_cont t
  | EmptyString => false
  end.

Definition well_formed (l : list string) : bool :=
  match l with
  | [] => true
  | ch :: rest => is_char ch && forallb is_lead_char rest
  end.

(** [''.join(l)] *)
Definition cat (l : list string) : string := fold_right append EmptyString l.

(** [len(s)] *)
Definition len (s : string) : nat := List.length (chars s).

(** [ord(ch)]: the code point a character encodes. *)
Fixpoint ord_tail (acc : N) (t : string) : N :=
  match t with
  | EmptyString => acc
  | String d r => ord_tail (acc * 64 + (N_of_ascii d - 128))%N r
  end.

Definition ord (ch : string) : N :=
  match ch with
  | EmptyString => 0%N
  | String c t =>
      let b := N_of_ascii c in
      ord_tail (if (b <? 128)%N then b
                else if (b <? 224)%N then (b - 192)%N
                else if (b <? 240)%N then (b - 224)%N
                else (b - 240)%N) t
  end.

(** [ch.isspace()], the white space [strip] and [split] remove: TAB to CR,
    FS to US, the space, U+0085, U+00A0, U+1680, U+2000 to U+200A, U+2028,
    U+2029, U+202F, U+205F and U+3000. *)
Definition isspace (ch : string) : bool :=
  let n := ord ch in
  ((9 <=? n)%N && (n <=? 13)%N) || ((28 <=? n)%N && (n <=? 32)%N)
  || (n =? 133)%N || (n =? 160)%N || (n =? 5760)%N
  || ((8192 <=? n)%N && (n <=? 8202)%N)
  || (n =? 8232)%N || (n =? 8233)%N || (n =? 8239)%N || (n =? 8287)%N
  || (n =? 12288)%N.

Fixpoint drop_while {A : Type} (p : A -> bool) (l : list A) : list A :=
  match l with
  | [] => []
  | x :: r => if p x then drop_while p r else l
  end.

(** [s.lstrip()] *)
Definition lstrip (s : string) : string := cat (drop_while isspace (chars s)).

(** [s.rstrip()] *)
Definition rstrip (s : string) : string :=
  cat (rev (drop_while isspace (rev (chars s)))).

(** [s.strip()] *)
Definition strip (s : string) : string := rstrip (lstrip s).

Definition lower_char (c : ascii) : ascii :=
  let n := nat_of_ascii c in
  if ((65 <=? n)%nat && (n <=? 90)%nat)%bool then ascii_of_nat (n + 32) else c.

(** [s.lower()] *)
Fixpoint lower (s : string) : string :=
  match s with
  | EmptyString => EmptyString
  | String c r => String (lower_char c) (lower r)
  end.

(** [s.startswith(p)], and below [sub in s]: a test on the bytes, which in
    UTF-8 is the test on the characters. *)
Fixpoint startswith (p s : string) : bool :=
  match p, s with
  | EmptyString, _ => true
  | String a p', String b s' => Ascii.eqb a b && startswith p' s'
  | String _ _, EmptyString => false
  end.

(** [sub in s] *)
Fixpoint contains (sub s : string) : bool :=
  startswith sub s ||
  match s with
  | EmptyString => false
  | String _ r => contains sub r
  end.

(** [s[:n]] for [n >= 0] *)
Definition take (n : nat) (s : string) : string := cat (firstn n (chars s)).

(** [sep.join(l)] *)
Definition join (sep : string) (l : list string) : string := String.concat sep l.

(** [bool(s)] for a string *)
Definition nonempty (s : string) : bool :=
  match s with EmptyString => false | _ => true end.

(** [a or b] on strings *)
Definition or_str (a b : string) : string := if nonempty a then a else b.

(** [s.replace(old, new)], all the occurrences, left to right; [old] is
    not empty at any of the call sites. [drop] removes bytes, those of the
    occurrence found. *)
Fixpoint drop (n : nat) (s : string) : string :=
  match n, s with
  | S n', String _ r => drop n' r
  | _, _ => s
  end.

Fixpoint replace_fuel (fuel : nat) (old new s : string) : string :=
  match fuel with
  | O => s
  | S fuel' =>
      match s with
      | EmptyString => EmptyString
      | String c r =>
          if (nonempty old && startswith old s)%bool
          then new ++ replace_fuel fuel' old new (drop (String.length old) s)
          else String c (replace_fuel fuel' old new r)
      end
  end.

Definition replace (old new s : string) : string :=
  replace_fuel (String.length s) old new s.

(** [s.split()]: the maximal runs of characters that are not white space. *)
Fixpoint split_ws_aux (cur : string) (l : list string) : list string :=
  match l with
  | [] => if nonempty cur then [cur] else []
  | ch :: r =>
      if isspace ch
      then (if nonempty cur then [cur] else []) ++ split_ws_aux EmptyString r
      else split_ws_aux (cur ++ ch) r
  end.

Definition split_ws (s : string) : list string := split_ws_aux EmptyString (chars s).

(** [html.escape(s, quote=False)]: [&], [<] and [>] are replaced, the two
    quote characters are left as they are. *)
Fixpoint html_escape_noquote (s : string) : string :=
  match s with
  | EmptyString => EmptyString
  | String c r =>
      (if Ascii.eqb c "&" then "&amp;"
       else if Ascii.eqb c "<" then "&lt;"
       else if Ascii.eqb c ">" then "&gt;"
       else String c EmptyString) ++ html_escape_noquote r
  end.

(** The line feed and the double quote. *)
Definition nl : string := String (ascii_of_nat 10) EmptyString.
Definition dq : string := String (ascii_of_nat 34) EmptyString.

(** [html.escape(s)], with its default [quote=True]. *)
Fixpoint html_escape (s : string) : string :=
  match s with
  | EmptyString => EmptyString
  | String c r =>
      (if Ascii.eqb c "&" then "&amp;"
       else if Ascii.eqb c "<" then "&lt;"
       else if Ascii.eqb c ">" then "&gt;"
       else if Ascii.eqb c (ascii_of_nat 34) then "&quot;"
       else if Ascii.eqb c "'" then "&#x27;"
       else String c EmptyString) ++ html_escape r
  end.

(** [max(a, b)] and [min(a, b)] on floats: the first argument wins a tie. *)
Definition fmax (a b : Q) : Q := if Qle_bool b a then a else b.
Definition fmin (a b : Q) : Q := if Qle_bool a b then a else b.

(** [str(n)] for an integer *)
Definition str_of_Z (z : Z) : string :=
  match z with
  | Z0 => "0"
  | Zpos p => NilEmpty.string_of_uint (Pos.to_uint p)
  | Zneg p => "-" ++ NilEmpty.string_of_uint (Pos.to_uint p)
  end.

Definition is_digit (c : ascii) : bool :=
  let n := nat_of_ascii c in ((48 <=? n)%nat && (n <=? 57)%nat)%bool.

(** The digits of a decimal literal accepted by [int(str)]: digits, with
    single underscores between two digits. [prev] tells that the previous
    character was a digit. *)
Fixpoint int_digits (acc : Z) (prev : bool) (s : string) : option Z :=
  match s with
  | EmptyString => if prev then Some acc else None
  | String c r =>
      if is_digit c
      then int_digits (10 * acc + (Z.of_nat (nat_of_ascii c) - 48)) true r
      else if (Ascii.eqb c "_" && prev)%bool then
        match r with
        | String d _ => if is_digit d then int_digits acc false r else None
        | EmptyString => None
        end
      else None
  end.

(** [int(s)] for a string, in base 10; [None] is [ValueError]. *)
Definition int_of_str (s : string) : option Z :=
  match strip s with
  | String "+" r => int_digits 0 false r
  | String "-" r => option_map Z.opp (int_digits 0 false r)
  | t => int_digits 0 false t
  end.

(** [int(x)] for a float: truncation towards zero. *)
Definition int_of_float (q : Q) : Z :=
  if Qle_bool 0%Q q then Qfloor q else Qceiling q.

(** A [datetime] with a time zone, held as [int(d.timestamp())], the
    seconds from the epoch to it. The type holds the years 1 to 9999 and
    offsets from UTC of less than a day, so the seconds lie between
    0001-01-01 00:00:00 and 9999-12-31 23:59:59, less or plus 86399. *)
Definition is_timestamp (ts : Z) : bool :=
  (-62135683199 <=? ts) && (ts <=? 253402387198).

Record datetime := {
  timestamp : Z;
  timestamp_range : is_timestamp timestamp = true
}.

(** A value decoded from JSON by [response.json()]. *)
Inductive json : Type :=
| JNull
| JBool (b : bool)
| JInt (z : Z)
| JFloat (q : Q)
| JStr (s : string)
| JList (l : list json)
| JObj (fields : list (string * json)).

(** [bool(v)] *)
Definition truthy (v : json) : bool :=
  match v with
  | JNull => false
  | JBool b => b
  | JInt z => negb (z =? 0)
  | JFloat q => negb (Qeq_bool q 0%Q)
  | JStr s => nonempty s
  | JList l => match l with [] => false | _ => true end
  | JObj l => match l with [] => false | _ => true end
  end.

Fixpoint assoc (k : string) (l : list (string * json)) : option json :=
  match l with
  | [] => None
  | (k', v) :: r => if String.eqb k k' then Some v else assoc k r
  end.

(** [d.get(k, default)]; [None] is the [AttributeError] of a value that is
    not a dict. A decoded object keeps the last value of a repeated key,
    so its field list is searched from the end. *)
Definition dict_get (d : json) (k : string) (default : json) : option json :=
  match d with
  | JObj l => Some (match assoc k (rev l) with Some v => v | None => default end)
  | _ => None
  end.

(** [int(v)]; [None] is [ValueError] or [TypeError]. *)
Definition int_of (v : json) : option Z :=
  match v with
  | JInt z => Some z
  | JBool b => Some (if b then 1 else 0)
  | JFloat q => Some (int_of_float q)
  | JStr s => int_of_str s
  | JNull | JList _ | JObj _ => None
  end.

End Py.

(* ------------------------------------------------------------------ *)
(** ** Outcomes of effectful calls *)

(** What a call does: it returns, it raises a Python [Exception], or it is
    still waiting when the scripted replies of the network are used up. *)
Inductive outcome (A : Type) : Type :=
| Ret (a : A)
| Raised
| Blocked.
Arguments Ret {A} a.
Arguments Raised {A}.
Arguments Blocked {A}.

(* ------------------------------------------------------------------ *)
(** ** SQLite tables with a primary key *)

Module Sql.

(** The integers [sqlite3] binds to a parameter: a Python [int] outside
    the signed 64-bit range raises [OverflowError]. *)
Definition int_fits (z : Z) : bool := (- 2 ^ 63 <=? z) && (z <? 2 ^ 63).

Definition opt_int_fits (o : option Z) : bool :=
  match o with
  | Some z => int_fits z
  | None => true
  end.

(** The conflict clause of an [INSERT]. *)
Inductive conflict := OrAbort | OrIgnore | OrReplace.

Section Table.
Context {Row Key : Type}.
Variable key_of : Row -> Key.
Variable key_eqb : Key -> Key -> bool.

Definition has_key (k : Key) (r : Row) : bool := key_eqb (key_of r) k.

(** [SELECT ... WHERE pk = k] *)
Definition select (t : list Row) (k : Key) : list Row :=
  filter (has_key k) t.

(** The number of rows stored under [k]. *)
Definition count (t : list Row) (k : Key) : nat :=
  List.length (select t k).

(** [SELECT 1 ... LIMIT 1] followed by [fetchone() is not None] *)
Definition exists_key (t : list Row) (k : Key) : bool :=
  existsb (has_key k) t.

(** [INSERT [OR IGNORE | OR REPLACE] INTO t VALUES r]; [None] is
    [sqlite3.IntegrityError]. *)
Definition insert (c : conflict) (r : Row) (t : list Row) : option (list Row) :=
  if exists_key t (key_of r) then
    match c with
    | OrAbort => None
    | OrIgnore => Some t
    | OrReplace => Some (filter (fun r' => negb (has_key (key_of r) r')) t ++ [r])
    end
  else Some (t ++ [r]).

(** The primary-key constraint: no key is stored twice. *)
Definition pk_unique (t : list Row) : Prop :=
  forall k, (count t k <= 1)%nat.
End Table.

End Sql.

(* ------------------------------------------------------------------ *)
(** ** The HTTP client, as the two bots use it on [sendMessage] *)

(** An HTTP response of the Telegram endpoint: the status, the
    [Retry-After] header when there is one, and the body decoded by
    [r.json()], [None] when the body is not JSON. *)
Record Response := {
  status_code : Z;
  retry_after_header : option string;
  body : option Py.json
}.

(** What [client.post] does: it raises (time-out, connection error) or it
    returns a response. *)
Inductive PostResult :=
| PostRaises
| PostReply (r : Response).

(** [r.raise_for_status()] returns *)
Definition is_success (r : Response) : bool :=
  (200 <=? status_code r) && (status_code r <=? 299).

(* ------------------------------------------------------------------ *)
(** ** rss_macro_crypto_bot.py *)

Module Rss.

(** *** Configuration (the environment variables read at start-up) *)

Record Config := {
  CHAT_ID : string;
  THREAD_ID : string;                  (* empty when not set *)
  POLL_SECONDS : Z;
  POST_ONLY_ON_STRONG_MATCH : bool;
  MAX_AGE_DAYS : Z
}.

(** *** Keyword tables *)

Definition MACRO_TERMS : list string :=
  [ "\bcpi\b"; "\bpce\b"; "\binflation\b"; "\bdeflation\b";
    "\bfomc\b"; "rate hike"; "rate cut"; "\bfed\b"; "\becb\b"; "\bboj\b"; "\bpboc\b";
    "\btreasury\b"; "\byield(s)?\b"; "\bbond(s)?\b"; "\bgdp\b"; "\bpmi\b";
    "\bunemployment\b"; "\bjobs?\b"; "\bnonfarm\b"; "\bmanufacturing\b"; "\bservices\b";
    "\bqe\b"; "\bqt\b"; "\brecession\b"; "soft landing"; "stagflation" ].

Definition CRYPTO_TERMS : list string :=
  [ "\bbitcoin\b"; "\bbtc\b"; "\beth(ereum)?\b"; "\bsol(ana)?\b";
    "layer ?2"; "\brollup(s)?\b"; "\bdefi\b"; "\bstablecoin(s)?\b";
    "\betf\b"; "\bsec\b"; "\bregulation\b"; "\bexchange(s)?\b"; "\bcex\b"; "\bdex\b";
    "\bbinance\b"; "\bcoinbase\b"; "\bstaking\b"; "\brestaking\b"; "\bairdrops?\b";
    "\bperpetual(s)?\b"; "\bonchain\b"; "\btoken(s)?\b"; "\bnft(s)?\b" ].

Definition HYPERLIQUID_TERMS : list string :=
  [ "\bhyper ?liquid\b"; "\bhyperliquid\b"; "\bhl perps?\b"; "hyperliquid exchange" ].

Definition MACRO_REGEX : string := Py.join "|" MACRO_TERMS.
Definition CRYPTO_REGEX : string := Py.join "|" CRYPTO_TERMS.
Definition HYPER_REGEX : string := Py.join "|" HYPERLIQUID_TERMS.

Definition DISPLAY_KEYWORDS : list (string * string) :=
  [ ("cpi", "\bcpi\b"); ("pce", "\bpce\b"); ("inflation", "\binflation\b");
    ("deflation", "\bdeflation\b");
    ("FOMC", "\bfomc\b"); ("rate hike", "rate hike"); ("rate cut", "rate cut");
    ("Fed", "\bfed\b");
    ("ECB", "\becb\b"); ("BOJ", "\bboj\b"); ("PBOC", "\bpboc\b");
    ("yields", "\byield(s)?\b"); ("bonds", "\bbond(s)?\b");
    ("GDP", "\bgdp\b"); ("PMI", "\bpmi\b"); ("jobs", "\bjobs?\b");
    ("unemployment", "\bunemployment\b");
    ("QE", "\bqe\b"); ("QT", "\bqt\b"); ("recession", "\brecession\b");
    ("Bitcoin", "\bbitcoin\b|\bbtc\b"); ("Ethereum", "\beth(ereum)?\b");
    ("Solana", "\bsol(ana)?\b"); ("ETF", "\betf\b"); ("SEC", "\bsec\b");
    ("stablecoin", "\bstablecoin(s)?\b"); ("DeFi", "\bdefi\b");
    ("exchange", "\bexchange(s)?\b|\bcex\b|\bdex\b");
    ("staking", "\bstaking\b|\brestaking\b"); ("perpetuals", "\bperpetual(s)?\b");
    ("token", "\btoken(s)?\b"); ("NFT", "\bnft(s)?\b");
    ("Hyperliquid", "\bhyper ?liquid\b|\bhyperliquid\b|\bhl perps?\b") ].

(** *** Collaborators outside the repository *)

(** What a Hugging Face pipeline returns for a text: a label and a score. *)
Record HFOut := { hf_label : string; hf_score : Q }.

Record Env := {
  (** [re.compile(p, re.IGNORECASE).search(text)] finds a match *)
  re_search : string -> string -> bool;
  (** [re.compile(p, re.IGNORECASE).findall(text)] *)
  re_findall : string -> string -> list string;
  (** [dateutil.parser.parse(s)], in UTC when the date names no zone;
      [None] when it raises *)
  dtparse : string -> option Py.datetime;
  (** [hashlib.sha256(s.encode()).hexdigest()] *)
  sha256_hex : string -> string;
  (** the text of the page behind a URL; [None] on any HTTP failure *)
  http_get_text : string -> option string;
  (** the trafilatura, readability, BeautifulSoup waterfall of
      [extract_fulltext] on a page that is not empty *)
  extract_waterfall : string -> string -> option string;
  (** [VADER.polarity_scores(text)["compound"]] *)
  vader_compound : string -> Q;
  (** [load_hf_models()] returns without raising *)
  hf_load_ok : bool;
  (** [_finbert(t)[0]] and [_rob(t)[0]]; [None] when the call raises *)
  finbert : string -> option HFOut;
  roberta : string -> option HFOut;
  (** [urlparse(url).netloc]; [None] when it raises *)
  urlparse_netloc : string -> option string;
  (** [datetime.fromtimestamp(ts).strftime("%Y-%m-%d %H:%M")]; [None] when it raises *)
  strftime_local : Z -> option string;
  (** the format specification [:.2f] *)
  fmt_2f : Q -> string
}.

(** *** Storage *)

Record SeenRow := {
  feed : string;
  entry_key : string;
  published_ts : option Z;
  first_seen_ts : Z
}.

Definition seen_pk (r : SeenRow) : string * string := (feed r, entry_key r).

Definition pk_eqb (a b : string * string) : bool :=
  String.eqb (fst a) (fst b) && String.eqb (snd a) (snd b).

Definition Table := list SeenRow.

(** [init_db]: [CREATE TABLE IF NOT EXISTS]; the argument is the table of
    the file at [DB_PATH], [None] when there is no such file yet. *)
Definition init_db (file : option Table) : Table :=
  match file with
  | None => []
  | Some t => t
  end.

Definition seen_before (t : Table) (feed key : string) : bool :=
  Sql.exists_key seen_pk pk_eqb t (feed, key).

(** [now] is the value of [time.time()] at the call, the clock of the
    system; [None] is an exception of [sqlite3]: the [OverflowError] of a
    [published_ts] it cannot bind, or an [IntegrityError] of the
    [INSERT]. *)
Definition mark_seen (t : Table) (now : Q) (feed key : string)
           (published_ts : option Z) : option Table :=
  if Sql.opt_int_fits published_ts then
    Sql.insert seen_pk pk_eqb Sql.OrIgnore
      {| feed := feed; entry_key := key;
         published_ts := published_ts; first_seen_ts := Qfloor now |} t
  else None.

(** *** Utilities *)

Section WithEnv.
Variable E : Env.
Variable cfg : Config.

Definition to_unix_ts (dt_str : string) : option Z :=
  if negb (Py.nonempty dt_str) then None
  else option_map Py.timestamp (dtparse E dt_str).

(** A [feedparser] entry; an attribute that is missing is the empty string. *)
Record Entry := {
  e_id : string;
  e_guid : string;
  e_link : string;
  e_title : string;
  e_summary : string;
  e_description : string;
  e_published : string
}.

Definition entry_key_of (entry : Entry) : string :=
  if Py.nonempty (e_id entry) then e_id entry
  else if Py.nonempty (e_guid entry) then e_guid entry
  else if Py.nonempty (e_link entry) then e_link entry
  else sha256_hex E (e_title entry ++ "|" ++ e_published entry).

Fixpoint first_nonempty (vals : list string) : string :=
  match vals with
  | [] => ""
  | v :: r => if Py.nonempty v then v else first_nonempty r
  end.

Definition clip (s : string) (n : nat) : string :=
  if (Py.len s <=? n)%nat then s
  else Py.rstrip (Py.take n s) ++ "…".

Definition h (x : string) : string := Py.html_escape_noquote x.

Definition host_of (url : string) : string :=
  match urlparse_netloc E url with
  | Some netloc => Py.replace "www." "" netloc
  | None => ""
  end.

Definition read_time_minutes (text : string) : Z :=
  let words := Z.max 1 (Z.of_nat (List.length (Py.split_ws text))) in
  Z.max 1 ((words + 219) / 220).

Fixpoint pick_keywords_loop (text : string) (limit : nat)
         (kws : list (string * string)) (seen : list string) : list string :=
  match kws with
  | [] => seen
  | (name, pat) :: rest =>
      let seen' :=
        if re_search E pat text
        then (if existsb (String.eqb name) seen then seen else seen ++ [name])
        else seen in
      if (limit <=? List.length seen')%nat then seen'
      else pick_keywords_loop text limit rest seen'
  end.

Definition pick_keywords (text : string) (limit : nat) : list string :=
  pick_keywords_loop text limit DISPLAY_KEYWORDS [].

Definition why_rules : list (list string * string) :=
  [ (["rate hike"; "hawkish"],
     "Tighter policy; typically risk-off for duration-sensitive assets.");
    (["rate cut"; "dovish"],
     "Easier policy; typically supportive for risk assets and liquidity.");
    (["etf approval"; "spot etf"; "etf launch"],
     "Mainstream access → potential inflows and volatility.");
    (["liquidity crunch"; "funding stress"; "bank run"],
     "Funding stress; spillovers to broader markets possible.");
    (["regulation"; "sec charges"; "lawsuit"],
     "Regulatory overhang; headline risk for tokens/exchanges.");
    (["inflation cools"; "disinflation"],
     "Cooling prices; supports rate-cut odds and risk appetite.");
    (["inflation surges"; "reacceleration"],
     "Hot inflation; pressures yields and weighs on risk assets.") ].

Fixpoint why_loop (t : string) (rules : list (list string * string)) : option string :=
  match rules with
  | [] => None
  | (keys, msg) :: rest =>
      if existsb (fun k => Py.contains k t) keys then Some msg
      else why_loop t rest
  end.

Definition why_it_matters (text : string) : option string :=
  why_loop (Py.lower text) why_rules.

(** [now] is the value of [time.time()] at the call. *)
Definition too_old (now : Q) (pub_ts : option Z) : bool :=
  match pub_ts with
  | None => false
  | Some ts =>
      if ts =? 0 then false
      else negb (Qle_bool (now - inject_Z ts)%Q (inject_Z (MAX_AGE_DAYS cfg * 86400)))
  end.

(** *** Extraction *)

Definition fetch_text (url : string) : option string :=
  if negb (Py.nonempty url) then None else http_get_text E url.

Definition extract_fulltext (html_text : option string) (url : string) : option string :=
  match html_text with
  | None => None
  | Some t => if negb (Py.nonempty t) then None else extract_waterfall E t url
  end.

(** *** Filtering *)

Definition matches_filters (title summary body : string) : bool * bool * bool :=
  let text := Py.join " " [title; summary; body] in
  let hyper := re_search E HYPER_REGEX text in
  let macro_hits := re_findall E MACRO_REGEX text in
  let crypto_hits := re_findall E CRYPTO_REGEX text in
  let macro := negb (Nat.eqb (List.length macro_hits) 0) in
  let crypto := negb (Nat.eqb (List.length crypto_hits) 0) in
  if hyper then (true, true, true)
  else if POST_ONLY_ON_STRONG_MATCH cfg then
    let strong := (macro && crypto)
                  || (2 <=? List.length macro_hits)%nat
                  || (2 <=? List.length crypto_hits)%nat in
    (strong, macro, crypto)
  else (macro || crypto, macro, crypto).

(** *** Sentiment *)

(** The scorers a call of [sentiment_ensemble] invokes, in order. *)
Inductive ScorerCall :=
| CallVader (text : string)
| CallLoadHF
| CallFinbert (t : string)
| CallRoberta (t : string).

Record Sentiment := {
  label : string;
  score : Q;
  compound : Q;
  s_finbert : option (string * Q);
  s_roberta : option (string * Q);
  s_vader : option Q
}.

Definition map_finbert (label : string) : string :=
  let l := Py.lower label in
  if Py.contains "pos" l then "pos"
  else if Py.contains "neg" l then "neg"
  else "neu".

Definition map_roberta (label : string) : string :=
  let l := Py.lower label in
  if Py.contains "pos" l || Py.contains "2" l then "pos"
  else if Py.contains "neu" l || Py.contains "1" l then "neu"
  else "neg".

Definition human_label (l : string) : string :=
  if String.eqb l "pos" then "🟢 Positive"
  else if String.eqb l "neu" then "⚪ Neutral"
  else if String.eqb l "neg" then "🔴 Negative"
  else "⚪ Neutral".

Definition as_num_fin (lab : string) : Z :=
  let m := map_finbert lab in
  if String.eqb m "pos" then 1 else if String.eqb m "neg" then -1 else 0.

Definition as_num_rob (lab : string) : Z :=
  let m := map_roberta lab in
  if String.eqb m "pos" then 1 else if String.eqb m "neg" then -1 else 0.

(** The lexicon scorer, with its thresholds at 0.3. *)
Definition vader_sentiment (text : string) : Sentiment :=
  let comp := vader_compound E text in
  {| label := if Qle_bool (3 # 10)%Q comp then "pos"
              else if Qle_bool comp (- (3 # 10))%Q then "neg" else "neu";
     score := ((comp + 1) / 2)%Q;
     compound := comp;
     s_finbert := None; s_roberta := None; s_vader := Some comp |}.

(** The confidence-weighted fusion of the two classifiers. *)
Definition fused_compound (nf nr : Z) (sf sr : Q) : Q :=
  let wf := ((6 # 10) * sf)%Q in
  let wr := ((4 # 10) * sr)%Q in
  let denom := Py.fmax (1 # 1000000)%Q (wf + wr)%Q in
  ((inject_Z nf * wf + inject_Z nr * wr) / denom)%Q.

(** The two heuristic adjustments on the lower-cased text, then the clamp. *)
Definition nudge_and_clamp (lower : string) (comp : Q) : Q :=
  let comp1 :=
    if Py.contains "rate hike" lower || Py.contains "hawkish" lower
       || Py.contains "liquidity crunch" lower
    then (comp - (5 # 100))%Q else comp in
  let comp2 :=
    if Py.contains "etf approval" lower || Py.contains "rate cut" lower
       || Py.contains "dovish" lower
    then (comp1 + (5 # 100))%Q else comp1 in
  Py.fmax (- (1))%Q (Py.fmin 1%Q comp2).

Definition hf_sentiment (t : string) (f r : HFOut) : Sentiment :=
  let lf := map_finbert (hf_label f) in
  let sf := hf_score f in
  let lr := map_roberta (hf_label r) in
  let sr := hf_score r in
  let nf := as_num_fin lf in
  let nr := as_num_rob lr in
  let comp := nudge_and_clamp (Py.lower t) (fused_compound nf nr sf sr) in
  {| label := if Qle_bool (25 # 100)%Q comp then "pos"
              else if Qle_bool comp (- (25 # 100))%Q then "neg" else "neu";
     score := ((comp + 1) / 2)%Q;
     compound := comp;
     s_finbert := Some (lf, sf); s_roberta := Some (lr, sr); s_vader := None |}.

Definition sentiment_ensemble (text : string) : Sentiment * list ScorerCall :=
  let text := Py.strip text in
  if (Py.len text <? 16)%nat then
    (vader_sentiment text, [CallVader text])
  else if negb (hf_load_ok E) then
    (vader_sentiment text, [CallLoadHF; CallVader text])
  else
    let t := Py.take 1200 text in
    match finbert E t with
    | None => (vader_sentiment text, [CallLoadHF; CallFinbert t; CallVader text])
    | Some f =>
        match roberta E t with
        | None =>
            (vader_sentiment text,
             [CallLoadHF; CallFinbert t; CallRoberta t; CallVader text])
        | Some r =>
            (hf_sentiment t f r, [CallLoadHF; CallFinbert t; CallRoberta t])
        end
    end.

(** *** Telegram *)

(** The stages of the pipeline an item goes through, as they happen. *)
Inductive Stage :=
| Enrich (url : string)
| Classify
| Score (calls : list ScorerCall)
| Format (msg : string)
| Post (text : string) (reply : PostResult)
| Warn
| Sleep (d : Q)
| Commit (row : SeenRow).

(** The wait the code reads from a 429 response:
    [int(r.headers.get("Retry-After")
         or r.json().get("parameters", {}).get("retry_after", 3))],
    and 3 when any of this raises. *)
Definition retry_after_of (r : Response) : Z :=
  let from_body :=
    match body r with
    | None => None
    | Some d =>
        match Py.dict_get d "parameters" (Py.JObj []) with
        | None => None
        | Some p =>
            match Py.dict_get p "retry_after" (Py.JInt 3) with
            | None => None
            | Some v => Py.int_of v
            end
        end
    end in
  let parsed :=
    match retry_after_header r with
    | Some s => if Py.nonempty s then Py.int_of_str s else from_body
    | None => from_body
    end in
  match parsed with
  | Some z => z
  | None => 3
  end.

(** The [while True] loop of [tg_send], one iteration per scripted reply
    of the endpoint. It gives the outcome, the replies left and the
    stages gone through; the value returned is the [None] of a
    function without a [return] value. *)
Fixpoint tg_send_loop (text : string) (script : list PostResult)
  : outcome Py.json * list PostResult * list Stage :=
  match script with
  | [] => (Blocked, [], [])
  | PostRaises :: rest => (Raised, rest, [Post text PostRaises])
  | PostReply r :: rest =>
      if negb (status_code r =? 429) then
        if is_success r then
          match body r with
          | None => (Raised, rest, [Post text (PostReply r)])
          | Some data =>
              match Py.dict_get data "ok" Py.JNull with
              | None => (Raised, rest, [Post text (PostReply r)])
              | Some ok =>
                  (Ret Py.JNull, rest,
                   Post text (PostReply r) :: (if Py.truthy ok then [] else [Warn]))
              end
          end
        else (Raised, rest, [Post text (PostReply r)])
      else
        let retry_after := retry_after_of r in
        let '(o, rest', evs) := tg_send_loop text rest in
        (o, rest', Post text (PostReply r) :: Sleep (inject_Z retry_after) :: evs)
  end.

Definition tg_send (text : string) (script : list PostResult)
  : outcome Py.json * list PostResult * list Stage :=
  if Py.nonempty (THREAD_ID cfg) then
    match Py.int_of_str (THREAD_ID cfg) with
    | None => (Raised, script, [])
    | Some _ => tg_send_loop text script
    end
  else tg_send_loop text script.

(** *** Formatting *)

Definition _to10 (x : Q) : Q := (x * 10)%Q.

Definition format_sentiment_block (s : Sentiment) : string :=
  let badge := human_label (label s) in
  let ens_score10 := _to10 (score s) in
  let comp10 := _to10 ((compound s + 1) / 2)%Q in
  let lines :=
    [ (badge ++ " <b>" ++ fmt_2f E ens_score10 ++ "/10</b>")%string;
      ("<code>Ensemble comp: " ++ fmt_2f E comp10 ++ "/10</code>")%string ]
    ++ match s_finbert s with
       | Some (l, sc) =>
           [ ("<code>FinBERT: " ++ Py.html_escape l ++ " "
              ++ fmt_2f E (_to10 sc) ++ "/10</code>")%string ]
       | None => []
       end
    ++ match s_roberta s with
       | Some (l, sc) =>
           [ ("<code>RoBERTa: " ++ Py.html_escape l ++ " "
              ++ fmt_2f E (_to10 sc) ++ "/10</code>")%string ]
       | None => []
       end
    ++ match s_vader s with
       | Some c =>
           [ ("<code>VADER: comp " ++ fmt_2f E (_to10 ((c + 1) / 2)%Q)
              ++ "/10</code>")%string ]
       | None => []
       end in
  Py.join Py.nl lines.

(** [f"#{k.replace(' ','')}"] *)
Definition hashtag (k : string) : string := "#" ++ Py.replace " " "" k.

Definition format_insights_block (url body title summary : string) : string :=
  let txt := Py.strip (Py.join " " [title; summary; body]) in
  let kw := pick_keywords txt 6 in
  let main := Py.or_str body (Py.or_str summary title) in
  let read_mins := read_time_minutes main in
  let wc := Z.of_nat (List.length (Py.split_ws main)) in
  let host := host_of url in
  let parts :=
    [ ("📊 <i>" ++ host ++ "</i> • ~" ++ Py.str_of_Z read_mins ++ " min • "
       ++ Py.str_of_Z wc ++ " words")%string ]
    ++ match kw with
       | [] => []
       | _ => [ ("🔎 " ++ Py.join ", " (map hashtag kw))%string ]
       end
    ++ match why_it_matters txt with
       | Some w => if Py.nonempty w then [ ("🎯 " ++ h w)%string ] else []
       | None => []
       end in
  Py.join Py.nl parts.

Definition format_message (feed_title title url summary : string) (sent : Sentiment)
           (hyper : bool) (pub_ts : option Z) (tags : list string) (body : string)
  : string :=
  let date_str :=
    match pub_ts with
    | None => ""
    | Some ts =>
        if ts =? 0 then ""
        else match strftime_local E ts with Some d => d | None => "" end
    end in
  let tag_list :=
    if hyper && negb (existsb (String.eqb "Hyperliquid") tags)
    then tags ++ ["Hyperliquid"] else tags in
  let tags_line :=
    match tag_list with
    | [] => ""
    | _ => Py.join " " (map hashtag tag_list)
    end in
  let header :=
    ("<b>📰 " ++ h title ++ "</b>" ++ Py.nl ++ "🗞️ " ++ h feed_title
     ++ (if Py.nonempty date_str then " — " ++ h date_str else ""))%string in
  let senti := format_sentiment_block sent in
  let insights := format_insights_block url body title summary in
  let lines :=
    [ header; senti; ("🧾 " ++ h (clip summary 400))%string ]
    ++ (if Py.nonempty tags_line then [tags_line] else [])
    ++ [ insights ]
    ++ (if Py.nonempty url
        then [ ("🔗 <a href=" ++ Py.dq ++ h url ++ Py.dq ++ ">" ++ h url
                ++ "</a>")%string ]
        else []) in
  Py.join Py.nl lines.

(** *** Feed processing *)

(** What the bot acts on: the [seen] table at [DB_PATH], the replies the
    Telegram endpoint is going to give, and the clock read by
    [time.time()], which the sleeps advance. *)
Record World := {
  db : Table;
  tg : list PostResult;
  clock : Q
}.

(** An event of a run: a stage, for the item [(feed, key)]. *)
Inductive Event := Ev (feed key : string) (s : Stage).

Definition slept (evs : list Stage) : Q :=
  fold_right (fun s acc => match s with Sleep d => (Py.fmax 0 d + acc)%Q | _ => acc end)
             0%Q evs.

(** The feed as [feedparser.parse] gives it: the title of the channel,
    empty when there is none, and the entries. *)
Record Parsed := {
  p_title : string;
  p_entries : list Entry
}.

(** One iteration of the [for entry in entries] loop: [None] when the
    iteration never ends, else whether the entry was posted. *)
Definition process_entry (feed_url feed_title : string) (entry : Entry) (w : World)
  : option bool * World * list Event :=
  let key := entry_key_of entry in
  let ev := Ev feed_url key in
  let on_error w' evs :=
    (Some false,
     {| db := db w'; tg := tg w'; clock := (clock w' + (5 # 10))%Q |},
     map ev (evs ++ [Sleep (5 # 10)%Q])) in
  let commit_skip pub_ts evs :=
    match mark_seen (db w) (clock w) feed_url key pub_ts with
    | Some db' =>
        (Some false, {| db := db'; tg := tg w; clock := clock w |},
         map ev (evs ++ [Commit {| feed := feed_url; entry_key := key;
                                   published_ts := pub_ts;
                                   first_seen_ts := Qfloor (clock w) |}]))
    | None => on_error w evs
    end in
  if seen_before (db w) feed_url key then (Some false, w, [])
  else
    let link := e_link entry in
    let title := e_title entry in
    let summary := first_nonempty [e_summary entry; e_description entry] in
    let pub_ts := to_unix_ts (e_published entry) in
    if too_old (clock w) pub_ts then commit_skip pub_ts []
    else
      let html_text := fetch_text link in
      let body := match extract_fulltext html_text link with
                  | Some b => b
                  | None => ""
                  end in
      let '(include0, macro, crypto) := matches_filters title summary body in
      let hyper := re_search E HYPER_REGEX (Py.join " " [title; summary; body]) in
      let '(include, tmp_evs) :=
        if negb include0 && POST_ONLY_ON_STRONG_MATCH cfg then
          let tmp_text := Py.take 1200 (title ++ Py.nl ++ summary ++ Py.nl ++ body)%string in
          let '(tmp_sent, calls) := sentiment_ensemble tmp_text in
          (if (macro || crypto)
              && (Qle_bool (8 # 10) (score tmp_sent) || Qle_bool (score tmp_sent) (2 # 10))
           then true else include0,
           [Score calls])
        else (include0, []) in
      let pre := [Enrich link; Classify] ++ tmp_evs in
      if negb include then commit_skip pub_ts pre
      else
        let raw_for_sent :=
          Py.take 1600 (title ++ Py.nl ++ summary ++ Py.nl ++ body)%string in
        let '(sent, calls) := sentiment_ensemble raw_for_sent in
        let tags := (if macro then ["Macro"] else []) ++ (if crypto then ["Crypto"] else []) in
        let msg := format_message feed_title title link
                     (first_nonempty [body; summary; title]) sent hyper pub_ts tags body in
        let pre := pre ++ [Score calls; Format msg] in
        let '(o, rest, net) := tg_send msg (tg w) in
        let w1 := {| db := db w; tg := rest; clock := (clock w + slept net)%Q |} in
        match o with
        | Blocked => (None, w1, map ev (pre ++ net))
        | Raised => on_error w1 (pre ++ net)
        | Ret _ =>
            match mark_seen (db w1) (clock w1) feed_url key pub_ts with
            | Some db' =>
                (Some true,
                 {| db := db'; tg := rest; clock := (clock w1 + (6 # 10))%Q |},
                 map ev (pre ++ net
                         ++ [Commit {| feed := feed_url; entry_key := key;
                                       published_ts := pub_ts;
                                       first_seen_ts := Qfloor (clock w1) |};
                             Sleep (6 # 10)%Q]))
            | None =>
                (* [posted += 1] comes before [mark_seen] *)
                let '(_, w2, evs) := on_error w1 (pre ++ net) in (Some true, w2, evs)
            end
        end.

(** The [for entry in entries] loop, with the running count [posted]. *)
Fixpoint process_entries (feed_url feed_title : string) (entries : list Entry)
         (posted : Z) (w : World) : option Z * World * list Event :=
  match entries with
  | [] => (Some posted, w, [])
  | entry :: rest =>
      match process_entry feed_url feed_title entry w with
      | (None, w', evs) => (None, w', evs)
      | (Some p, w', evs) =>
          let '(r, w'', evs') :=
            process_entries feed_url feed_title rest
                            (if p then posted + 1 else posted) w' in
          (r, w'', evs ++ evs')
      end
  end.

(** [fetched] is what the GET of the feed and [feedparser.parse] give
    for this call, [None] when either raises. The result is the number
    of entries posted, [None] when the call never returns. *)
Definition process_feed (feed_url : string) (fetched : option Parsed) (w : World)
  : option Z * World * list Event :=
  match fetched with
  | None => (Some 0, w, [])
  | Some parsed =>
      let feed_title := Py.or_str (p_title parsed) feed_url in
      process_entries feed_url feed_title (p_entries parsed) 0 w
  end.

(** The calls of [process_feed] that [run_loop] makes one after the
    other, over its initial pass and its cycles; the sleeps between two
    cycles only move the clock. *)
Fixpoint run_feeds (calls : list (string * option Parsed)) (w : World)
  : bool * World * list Event :=
  match calls with
  | [] => (true, w, [])
  | (feed_url, fetched) :: rest =>
      match process_feed feed_url fetched w with
      | (None, w', evs) => (false, w', evs)
      | (Some _, w', evs) =>
          let '(fin, w'', evs') := run_feeds rest w' in
          (fin, w'', evs ++ evs')
      end
  end.

(** [run_loop]: [init_db], then the calls of [process_feed]. [file] is
    the database file found at start-up. *)
Definition run_loop (file : option Table) (script : list PostResult) (now : Q)
           (calls : list (string * option Parsed)) : bool * World * list Event :=
  run_feeds calls {| db := init_db file; tg := script; clock := now |}.

End WithEnv.

End Rss.

(* ------------------------------------------------------------------ *)
(** ** wildmeta_x_feed_bot.py *)

Module XBot.

Record Config := {
  CHAT_ID : string;
  X_THREAD_ID : string;
  POLL_SECONDS : Z;
  X_USERNAME : string;
  MAX_POSTS_PER_CYCLE : Z
}.

Record Env := {
  (** [re.sub(pattern, repl, s)] *)
  re_sub : string -> string -> string -> string;
  (** [timestamp.strftime("%Y-%m-%d %H:%M UTC")] of a time given in epoch seconds *)
  strftime_utc : Z -> string
}.

(** *** Database *)

Record XRow := {
  post_id : string;
  username : string;
  content : string;
  posted_at : option Z;
  first_seen_ts : Z;
  telegram_msg_id : Py.json
}.

Definition Table := list XRow.

Definition init_db (file : option Table) : Table :=
  match file with
  | None => []
  | Some t => t
  end.

Definition seen_before (t : Table) (post_id : string) : bool :=
  Sql.exists_key XBot.post_id String.eqb t post_id.

(** The values [sqlite3] binds to a parameter: [None], strings, floats
    and the integers of 64 bits. *)
Definition bindable (v : Py.json) : bool :=
  match v with
  | Py.JList _ | Py.JObj _ => false
  | Py.JInt z => Sql.int_fits z
  | _ => true
  end.

(** [now] is the value of [time.time()] at the call, the clock of the
    system; [None] is an exception of [sqlite3]. *)
Definition mark_seen (t : Table) (now : Q) (post_id username content : string)
           (posted_at : option Z) (telegram_msg_id : Py.json) : option Table :=
  if bindable telegram_msg_id && Sql.opt_int_fits posted_at then
    Sql.insert XBot.post_id String.eqb Sql.OrReplace
      {| post_id := post_id; username := username; content := content;
         posted_at := posted_at; first_seen_ts := Qfloor now;
         telegram_msg_id := telegram_msg_id |} t
  else None.

(** A [telegram_msg_id] of the declared type [Optional[int]]. *)
Definition optional_int (o : option Z) : Py.json :=
  match o with
  | Some z => Py.JInt z
  | None => Py.JNull
  end.

(** *** Posts *)

Record XPost := {
  x_post_id : string;
  x_username : string;
  x_content : string;
  x_timestamp : option Py.datetime;
  x_images : list string;
  x_replies : option string;
  x_retweets : option string;
  x_likes : option string
}.

(** [int(post.timestamp.timestamp()) if post.timestamp else None] *)
Definition posted_at_of (post : XPost) : option Z :=
  option_map Py.timestamp (x_timestamp post).

Definition x_url (post : XPost) : string :=
  "https://x.com/" ++ x_username post ++ "/status/" ++ x_post_id post.

Section WithEnv.
Variable E : Env.
Variable cfg : Config.

(** *** Telegram formatting *)

Definition h (text : string) : string := Py.html_escape_noquote text.

Definition format_x_post_message (post : XPost) : string :=
  let time_str :=
    match x_timestamp post with
    | Some ts => strftime_utc E (Py.timestamp ts)
    | None => ""
    end in
  let metrics_parts :=
    match x_replies post with Some v => [ ("💬 " ++ v)%string ] | None => [] end
    ++ match x_retweets post with Some v => [ ("🔁 " ++ v)%string ] | None => [] end
    ++ match x_likes post with Some v => [ ("❤️ " ++ v)%string ] | None => [] end in
  let lines :=
    [ ("<b>𝕏 @" ++ h (x_username post) ++ "</b>")%string ]
    ++ (if Py.nonempty time_str then [ ("<i>" ++ h time_str ++ "</i>")%string ] else [])
    ++ [ "" ]
    ++ (if Py.nonempty (x_content post) then
          let content := h (x_content post) in
          let content :=
            re_sub E "@(\w+)"
                   ("<a href=" ++ Py.dq ++ "https://x.com/\1" ++ Py.dq ++ ">@\1</a>")
                   content in
          let content :=
            re_sub E "#(\w+)"
                   ("<a href=" ++ Py.dq ++ "https://x.com/hashtag/\1" ++ Py.dq ++ ">#\1</a>")
                   content in
          [ content; "" ]
        else [])
    ++ match metrics_parts with
       | [] => []
       | _ => [ Py.join " • " metrics_parts; "" ]
       end
    ++ [ ("🔗 <a href=" ++ Py.dq ++ h (x_url post) ++ Py.dq ++ ">View on X</a>")%string ] in
  Py.join Py.nl lines.

(** *** Telegram API *)

Inductive Stage :=
| Format (msg : string)
| Post (text : string) (reply : PostResult)
| Warn
| Sleep (d : Q)
| Commit (row : XRow).

Definition max_retries : nat := 3.

(** The wait read from a 429 response,
    [data.get("parameters", {}).get("retry_after", 5)], and 5 when this
    raises. The value is not converted. *)
Definition retry_after_of (r : Response) : Py.json :=
  match body r with
  | None => Py.JInt 5
  | Some data =>
      match Py.dict_get data "parameters" (Py.JObj []) with
      | None => Py.JInt 5
      | Some p =>
          match Py.dict_get p "retry_after" (Py.JInt 5) with
          | None => Py.JInt 5
          | Some v => v
          end
      end
  end.

(** The delay [asyncio.sleep] accepts; [None] is the [TypeError] of a
    value that is not a number. *)
Definition sleep_delay (v : Py.json) : option Q :=
  match v with
  | Py.JInt z => Some (inject_Z z)
  | Py.JFloat q => Some q
  | Py.JBool b => Some (if b then 1%Q else 0%Q)
  | _ => None
  end.

(** The [except Exception] branch of the loop: count the attempt, and
    sleep [2 ** retry_count] when another one follows. *)
Definition backoff (retry_count : nat) : list Stage :=
  if (S retry_count <? max_retries)%nat
  then [Sleep (inject_Z (2 ^ Z.of_nat (S retry_count)))]
  else [].

(** How an iteration of the loop ends: with a [return], or with
    [retry_count += 1] and another turn of the loop. *)
Inductive Attempt :=
| Returns (v : Py.json) (evs : list Stage)
| Retries (evs : list Stage).

(** The body of the loop after the POST, whose result is [reply]; the
    stages are those that follow the POST. The value returned is the
    message id, [JNull] for [None]. *)
Definition attempt (retry_count : nat) (reply : PostResult) : Attempt :=
  match reply with
  | PostRaises => Retries (backoff retry_count)
  | PostReply r =>
      if status_code r =? 429 then
        match sleep_delay (retry_after_of r) with
        | Some d => Retries [Sleep d]
        | None => Retries (backoff retry_count)
        end
      else if negb (is_success r) then Retries (backoff retry_count)
      else
        match body r with
        | None => Retries (backoff retry_count)
        | Some data =>
            match Py.dict_get data "ok" Py.JNull with
            | None => Retries (backoff retry_count)
            | Some ok =>
                if Py.truthy ok then
                  match Py.dict_get data "result" (Py.JObj []) with
                  | None => Retries (backoff retry_count)
                  | Some result =>
                      match Py.dict_get result "message_id" Py.JNull with
                      | None => Retries (backoff retry_count)
                      | Some message_id => Returns message_id []
                      end
                  end
                else Returns Py.JNull [Warn]
            end
        end
  end.

(** The [while retry_count < max_retries] loop, one iteration per
    scripted reply of the endpoint, and the [return None] after it. *)
Fixpoint tg_send_message_loop (text : string) (retry_count : nat)
         (script : list PostResult) {struct script}
  : outcome Py.json * list PostResult * list Stage :=
  if (retry_count <? max_retries)%nat then
    match script with
    | [] => (Blocked, [], [])
    | reply :: rest =>
        match attempt retry_count reply with
        | Returns v evs => (Ret v, rest, Post text reply :: evs)
        | Retries evs =>
            let '(o, rest', evs') := tg_send_message_loop text (S retry_count) rest in
            (o, rest', Post text reply :: evs ++ evs')
        end
    end
  else (Ret Py.JNull, script, []).

Definition tg_send_message (text : string) (script : list PostResult)
  : outcome Py.json * list PostResult * list Stage :=
  match Py.int_of_str (X_THREAD_ID cfg) with
  | None => (Raised, script, [])
  | Some _ => tg_send_message_loop text 0 script
  end.

Definition tg_send_with_preview (post : XPost) (script : list PostResult)
  : outcome Py.json * list PostResult * list Stage :=
  let message := format_x_post_message post in
  let '(o, rest, evs) := tg_send_message message script in
  (o, rest, Format message :: evs).

(** *** Main processing loop *)

Record World := {
  db : Table;
  tg : list PostResult;
  clock : Q
}.

(** An event of a run: a stage, for the post [post_id]. *)
Inductive Event := Ev (post_id : string) (s : Stage).

Definition slept (evs : list Stage) : Q :=
  fold_right (fun s acc => match s with Sleep d => (Py.fmax 0 d + acc)%Q | _ => acc end)
             0%Q evs.

(** One iteration of the [for post in posts] loop: [None] when the
    iteration never ends, else whether the post was sent. *)
Definition process_post (post : XPost) (w : World) : option bool * World * list Event :=
  let ev := Ev (x_post_id post) in
  if seen_before (db w) (x_post_id post) then (Some false, w, [])
  else
    let '(o, rest, net) := tg_send_with_preview post (tg w) in
    let w1 := {| db := db w; tg := rest; clock := (clock w + slept net)%Q |} in
    match o with
    | Blocked => (None, w1, map ev net)
    | Raised => (Some false, w1, map ev net)
    | Ret msg_id =>
        let stored := if Py.truthy msg_id then msg_id else Py.JNull in
        match mark_seen (db w1) (clock w1) (x_post_id post) (x_username post)
                        (x_content post) (posted_at_of post) stored with
        | None => (Some false, w1, map ev net)
        | Some db' =>
            let row := {| post_id := x_post_id post; username := x_username post;
                          content := x_content post; posted_at := posted_at_of post;
                          first_seen_ts := Qfloor (clock w1);
                          telegram_msg_id := stored |} in
            if Py.truthy msg_id then
              (Some true, {| db := db'; tg := rest; clock := (clock w1 + 1)%Q |},
               map ev (net ++ [Commit row; Sleep 1%Q]))
            else
              (Some false, {| db := db'; tg := rest; clock := clock w1 |},
               map ev (net ++ [Warn; Commit row]))
        end
    end.

Fixpoint process_posts (posts : list XPost) (posted_count : Z) (w : World)
  : option Z * World * list Event :=
  match posts with
  | [] => (Some posted_count, w, [])
  | post :: rest =>
      match process_post post w with
      | (None, w', evs) => (None, w', evs)
      | (Some p, w', evs) =>
          let '(r, w'', evs') :=
            process_posts rest (if p then posted_count + 1 else posted_count) w' in
          (r, w'', evs ++ evs')
      end
  end.

(** [fetched] is what [fetch_x_posts] gives for this call, [None] when
    it raises. *)
Definition process_x_feed (fetched : option (list XPost)) (w : World)
  : option Z * World * list Event :=
  match fetched with
  | None => (Some 0, w, [])
  | Some [] => (Some 0, w, [])
  | Some posts => process_posts posts 0 w
  end.

End WithEnv.

End XBot.

(* ------------------------------------------------------------------ *)
(** ** wildmeta_bot_manager.py *)

Module Manager.

(** An [asyncio.Task] running a bot: not done yet, or done because the
    coroutine returned, because it raised an [Exception], or because the
    task was cancelled. *)
Inductive Task :=
| Running
| Returned
| Failed (exc : string)
| Cancelled.

(** [task.done()] *)
Definition done (t : Task) : bool :=
  match t with
  | Running => false
  | _ => true
  end.

(** [task.exception()] of a task that is done: the exception, [None] for
    a task that returned; the call itself raises [CancelledError] for a
    cancelled task. *)
Inductive ExcResult :=
| Exc (e : option string)
| RaisesCancelledError.

Definition exception (t : Task) : ExcResult :=
  match t with
  | Failed e => Exc (Some e)
  | Cancelled => RaisesCancelledError
  | _ => Exc None
  end.

Inductive Bot := RssBot | XFeedBot.

(** The fields of [BotManager] the monitor reads and writes, and the
    monitor task itself. *)
Record BotManager := {
  rss_task : option Task;
  x_task : option Task;
  rss_enabled : bool;
  x_enabled : bool;
  shutdown_event : bool;
  monitor_alive : bool
}.

Inductive Log :=
| LSleep (seconds : Z)
| LDied (b : Bot) (exc : string)
| LRestart (b : Bot).

(** One of the two checks of a sweep, on the task of bot [b]: the task
    the field holds afterwards and what is logged; [None] when
    [task.exception()] raises [CancelledError], which [except Exception]
    does not catch. *)
Definition check (b : Bot) (enabled : bool) (task : option Task)
  : option (option Task * list Log) :=
  match task with
  | Some t =>
      if enabled && done t then
        match exception t with
        | RaisesCancelledError => None
        | Exc (Some e) => Some (Some Running, [LDied b e; LRestart b])
        | Exc None => Some (task, [])
        end
      else Some (task, [])
  | None => Some (task, [])
  end.

(** The body of the [while not self.shutdown_event.is_set()] loop of
    [health_monitor]: the sleep, then the two checks. *)
Definition sweep (m : BotManager) : BotManager * list Log :=
  match check RssBot (rss_enabled m) (rss_task m) with
  | None =>
      ({| rss_task := rss_task m; x_task := x_task m;
          rss_enabled := rss_enabled m; x_enabled := x_enabled m;
          shutdown_event := shutdown_event m; monitor_alive := false |},
       [LSleep 60])
  | Some (rss', l1) =>
      match check XFeedBot (x_enabled m) (x_task m) with
      | None =>
          ({| rss_task := rss'; x_task := x_task m;
              rss_enabled := rss_enabled m; x_enabled := x_enabled m;
              shutdown_event := shutdown_event m; monitor_alive := false |},
           LSleep 60 :: l1)
      | Some (x', l2) =>
          ({| rss_task := rss'; x_task := x';
              rss_enabled := rss_enabled m; x_enabled := x_enabled m;
              shutdown_event := shutdown_event m; monitor_alive := true |},
           LSleep 60 :: l1 ++ l2)
      end
  end.

(** [start(rss_only, x_only)], up to the point where it waits for the
    shutdown event. *)
Definition start (rss_only x_only : bool) : BotManager :=
  let x_en := negb rss_only in
  let rss_en := if rss_only then true else negb x_only in
  {| rss_task := if rss_en then Some Running else None;
     x_task := if x_en then Some Running else None;
     rss_enabled := rss_en; x_enabled := x_en;
     shutdown_event := false; monitor_alive := true |}.

(** [task.cancel()] on a task that is not done. *)
Definition cancel (t : option Task) : option Task :=
  match t with
  | Some Running => Some Cancelled
  | _ => t
  end.

(** How a running task ends by itself. *)
Definition ends (t t' : option Task) : Prop :=
  t = Some Running /\ (t' = Some Returned \/ exists e, t' = Some (Failed e)).

(** The moves of the manager and of its tasks. *)
Inductive step : BotManager -> list Log -> BotManager -> Prop :=
| step_rss_ends m t' :
    ends (rss_task m) t' ->
    step m [] {| rss_task := t'; x_task := x_task m;
                 rss_enabled := rss_enabled m; x_enabled := x_enabled m;
                 shutdown_event := shutdown_event m; monitor_alive := monitor_alive m |}
| step_x_ends m t' :
    ends (x_task m) t' ->
    step m [] {| rss_task := rss_task m; x_task := t';
                 rss_enabled := rss_enabled m; x_enabled := x_enabled m;
                 shutdown_event := shutdown_event m; monitor_alive := monitor_alive m |}
| step_sweep m :
    (* the monitor wakes up from its [sleep(60)] *)
    monitor_alive m = true ->
    step m (snd (sweep m)) (fst (sweep m))
| step_signal m :
    (* [shutdown()] sets the event *)
    step m [] {| rss_task := rss_task m; x_task := x_task m;
                 rss_enabled := rss_enabled m; x_enabled := x_enabled m;
                 shutdown_event := true; monitor_alive := monitor_alive m |}
| step_stop m r x :
    (* [start] resumes after the event and cancels the monitor and, of
       the tasks it scheduled itself, those that are not done; a task the
       monitor rescheduled is not in its list *)
    shutdown_event m = true ->
    r = cancel (rss_task m) \/ r = rss_task m ->
    x = cancel (x_task m) \/ x = x_task m ->
    step m [] {| rss_task := r; x_task := x;
                 rss_enabled := rss_enabled m; x_enabled := x_enabled m;
                 shutdown_event := true; monitor_alive := false |}.

(** The states the manager goes through after [start]. *)
Inductive reachable : BotManager -> Prop :=
| reach_start rss_only x_only : reachable (start rss_only x_only)
| reach_step m l m' : reachable m -> step m l m' -> reachable m'.

(** While the monitor is alive no task has been cancelled. *)
Definition calm (m : BotManager) : Prop :=
  monitor_alive m = true ->
  rss_task m <> Some Cancelled /\ x_task m <> Some Cancelled.

Definition task_of (b : Bot) (m : BotManager) : option Task :=
  match b with RssBot => rss_task m | XFeedBot => x_task m end.

Definition enabled_of (b : Bot) (m : BotManager) : bool :=
  match b with RssBot => rss_enabled m | XFeedBot => x_enabled m end.

End Manager.

(* ------------------------------------------------------------------ *)
(** ** Runs of the feed bot under the manager *)

Module Runs.
Import Rss.

Definition is_post (s : Stage) : bool :=
  match s with Post _ _ => true | _ => false end.

Definition is_enrich (s : Stage) : bool :=
  match s with Enrich _ => true | _ => false end.

Definition is_format (s : Stage) : bool :=
  match s with Format _ => true | _ => false end.

Definition is_commit (s : Stage) : bool :=
  match s with Commit _ => true | _ => false end.

(** A stage that does not write to the table. *)
Definition quiet (s : Stage) : bool := negb (is_commit s).

(** A stage after which nothing is sent and nothing is written. *)
Definition idle (s : Stage) : bool := negb (is_post s) && quiet s.

Definition stage_of (e : Event) : Stage :=
  match e with Ev _ _ s => s end.

(** The event is about the item [(f, k)]. *)
Definition about (f k : string) (e : Event) : bool :=
  match e with Ev f' k' _ => String.eqb f f' && String.eqb k k' end.

(** The number of events of a trace that are a stage [p] of item [(f, k)]. *)
Definition count_stage (p : Stage -> bool) (f k : string) (evs : list Event) : nat :=
  List.length (filter (fun e => about f k e && p (stage_of e)) evs).

(** The table after an event: only a commit writes to it. *)
Definition apply_event (t : Table) (e : Event) : Table :=
  match e with
  | Ev _ _ (Commit row) =>
      match Sql.insert seen_pk pk_eqb Sql.OrIgnore row t with
      | Some t' => t'
      | None => t
      end
  | _ => t
  end.

(** The table after the events of a trace. *)
Definition replay (evs : list Event) (t : Table) : Table :=
  fold_left apply_event evs t.

(** Every POST of the trace is for an item the table does not hold at
    that point, and every commit writes the row of its own item. *)
Fixpoint safe (t : Table) (evs : list Event) : Prop :=
  match evs with
  | [] => True
  | e :: rest =>
      match e with
      | Ev f k (Post _ _) => seen_before t f k = false
      | Ev f k (Commit row) => feed row = f /\ entry_key row = k
      | _ => True
      end /\ safe (apply_event t e) rest
  end.

(** The stages [tg_send] goes through. *)
Definition net_stage (s : Stage) : bool :=
  match s with Post _ _ | Sleep _ | Warn => true | _ => false end.

(** [int(THREAD_ID)] does not raise when the payload is built. *)
Definition thread_id_ok (cfg : Config) : bool :=
  negb (Py.nonempty (THREAD_ID cfg))
  || match Py.int_of_str (THREAD_ID cfg) with Some _ => true | None => false end.

(** What [tg_send] goes through on the rate-limit replies [floods]: a
    POST and the sleep read from its reply, for each of them. *)
Definition flood_stages (text : string) (floods : list Response) : list Stage :=
  flat_map (fun r => [Post text (PostReply r);
                      Sleep (inject_Z (retry_after_of r))]) floods.

(** One life of the task [run_rss_bot]: the replies of the endpoint and
    the clock it meets, the calls of [process_feed] it makes with what
    they fetch, and the number of events after which it crashes, [None]
    when it does not. *)
Record Life := {
  life_script : list PostResult;
  life_now : Q;
  life_calls : list (string * option Parsed);
  life_crash : option nat
}.

(** The events of the successive lives of the task, each one started by
    the manager on the database file the previous one left. *)
Fixpoint history (E : Env) (cfg : Config) (file : option Table) (lives : list Life)
  : list Event :=
  match lives with
  | [] => []
  | l :: rest =>
      let '(_, _, evs) :=
        run_loop E cfg file (life_script l) (life_now l) (life_calls l) in
      let happened :=
        match life_crash l with
        | Some n => firstn n evs
        | None => evs
        end in
      happened ++ history E cfg (Some (replay happened (init_db file))) rest
  end.

End Runs.

(* ------------------------------------------------------------------ *)
(** ** Runs of the X bot *)

Module XRuns.
Import XBot.

Definition is_post (s : Stage) : bool :=
  match s with Post _ _ => true | _ => false end.

Definition stage_of (e : Event) : Stage :=
  match e with Ev _ s => s end.

Definition about (id : string) (e : Event) : bool :=
  match e with Ev id' _ => String.eqb id id' end.

(** The number of POSTs of a trace for the post [id]. *)
Definition count_posts (id : string) (evs : list Event) : nat :=
  List.length (filter (fun e => about id e && is_post (stage_of e)) evs).

(** [int(X_THREAD_ID)] does not raise when the payload is built. *)
Definition thread_id_ok (cfg : Config) : bool :=
  match Py.int_of_str (X_THREAD_ID cfg) with Some _ => true | None => false end.

(** A reply after which [tg_send_message] counts a failed attempt: the
    POST raises, the endpoint rate-limits, or the status is an error. *)
Definition failing (p : PostResult) : bool :=
  match p with
  | PostRaises => true
  | PostReply r => (status_code r =? 429) || negb (is_success r)
  end.

End XRuns.

(* ------------------------------------------------------------------ *)
(** ** wildmeta_bot_manager.py: the log handler and the status snapshot *)

Module LogHandler.

(** What [emit] reads of a [logging.LogRecord]. *)
Record LogRecord := {
levelno : Z;
name : string;
getMessage : string
}.

(** [logging.ERROR] *)
Definition ERROR : Z := 40.

(** An entry of [rss_errors] or [x_errors]: the time of the record, as
    [datetime.now(timezone.utc)] gives it in epoch seconds, and its message. *)
Record ErrorEntry := {
time : Q;
message : string
}.

Record BotLogHandler := {
rss_errors : list ErrorEntry;
x_errors : list ErrorEntry;
rss_last_activity : option Q;
x_last_activity : option Q
}.

(** [BotLogHandler.__init__] *)
Definition init : BotLogHandler :=
{| rss_errors := []; x_errors := []; rss_last_activity := None; x_last_activity := None |}.

(** [l[-10:]] *)
Definition last10 {A : Type} (l : list A) : list A :=
skipn (List.length l - 10) l.

(** [emit(record)], at the time [now]. *)
Definition emit (now : Q) (h : BotLogHandler) (record : LogRecord) : BotLogHandler :=
let entry := {| time := now; message := getMessage record |} in
let h1 :=
  if ERROR <=? levelno record then
    if Py.contains "macro-crypto-bot" (name record) then
      {| rss_errors := last10 (rss_errors h ++ [entry]); x_errors := x_errors h;
         rss_last_activity := rss_last_activity h; x_last_activity := x_last_activity h |}
    else if Py.contains "wildmeta-x-bot" (name record) then
      {| rss_errors := rss_errors h; x_errors := last10 (x_errors h ++ [entry]);
         rss_last_activity := rss_last_activity h; x_last_activity := x_last_activity h |}
    else h
  else h in
if Py.contains "cycle_done" (getMessage record)
   || Py.contains "cycle_complete" (getMessage record) then
  if Py.contains "macro-crypto-bot" (name record) then
    {| rss_errors := rss_errors h1; x_errors := x_errors h1;
       rss_last_activity := Some now; x_last_activity := x_last_activity h1 |}
  else if Py.contains "wildmeta-x-bot" (name record) then
    {| rss_errors := rss_errors h1; x_errors := x_errors h1;
       rss_last_activity := rss_last_activity h1; x_last_activity := Some now |}
  else h1
else h1.

(** The handler after the records of a log, each with the time it is
    emitted at. *)
Definition emit_all (h : BotLogHandler) (log : list (Q * LogRecord)) : BotLogHandler :=
fold_left (fun h r => emit (fst r) h (snd r)) log h.




(** *** [BotManager.get_status], for one bot *)

Record BotStatus := {
st_enabled : bool;
st_running : bool;
st_last_activity : option Q;
st_recent_errors : Z
}.

(** [self.rss_task and not self.rss_task.done() if self.rss_task else False] *)
Definition running (t : option Manager.Task) : bool :=
match t with
| Some t => negb (Manager.done t)
| None => false
end.

Definition get_status (m : Manager.BotManager) (h : BotLogHandler) (b : Manager.Bot)
  : BotStatus :=
match b with
| Manager.RssBot =>
    {| st_enabled := Manager.rss_enabled m;
       st_running := running (Manager.rss_task m);
       st_last_activity := rss_last_activity h;
       st_recent_errors := Z.of_nat (List.length (rss_errors h)) |}
| Manager.XFeedBot =>
    {| st_enabled := Manager.x_enabled m;
       st_running := running (Manager.x_task m);
       st_last_activity := x_last_activity h;
       st_recent_errors := Z.of_nat (List.length (x_errors h)) |}
end.

End LogHandler.

(* ------------------------------------------------------------------ *)
(** ** wildmeta_x_feed_bot.py: the Nitter scraper *)

Module XFetch.

(** [l[:n]] *)
Definition slice_to {A : Type} (n : Z) (l : list A) : list A :=
if 0 <=? n then firstn (Z.to_nat n) l
else firstn (List.length l - Z.to_nat (- n)) l.

(** The digits at the head of a string. *)
Fixpoint digits_prefix (s : string) : string :=
match s with
| String c r => if Py.is_digit c then String c (digits_prefix r) else EmptyString
| EmptyString => EmptyString
end.

(** [re.search(r'/status/(\d+)', s)] and [group(1)]: the digits after the
    first [/status/] that a digit follows; [None] when there is no match. *)
Fixpoint status_id (s : string) : option string :=
match s with
| EmptyString => None
| String _ r =>
    if Py.startswith "/status/" s && Py.nonempty (digits_prefix (Py.drop 8 s))
    then Some (digits_prefix (Py.drop 8 s))
    else status_id r
end.

(** What the selectors find in one [.timeline-item]: the [href] of
    [.tweet-link] ([None] without the element, empty without the
    attribute), the text of [.tweet-content], the time parsed from the
    title of [.tweet-date a], the [src] of the images, and the three
    counts. *)
Record Item := {
tweet_link : option string;
tweet_content : option string;
tweet_time : option Py.datetime;
image_srcs : list string;
stat_replies : option string;
stat_retweets : option string;
stat_likes : option string
}.

(** A timeline item as the parser meets it: its pieces, or an exception
    while they are read. *)
Inductive Scraped :=
| ItemRaises
| ItemOk (i : Item).

(** The body of the [for item in timeline_items] loop: the post built,
    [None] when the item is skipped. *)
Definition parse_item (username : string) (it : Scraped) : option XBot.XPost :=
match it with
| ItemRaises => None
| ItemOk i =>
    match tweet_link i with
    | None => None
    | Some post_url =>
        match status_id post_url with
        | None => None
        | Some post_id =>
            Some {| XBot.x_post_id := post_id;
                    XBot.x_username := username;
                    XBot.x_content :=
                      match tweet_content i with Some c => c | None => "" end;
                    XBot.x_timestamp := tweet_time i;
                    XBot.x_images :=
                      filter (fun src => Py.nonempty src && Py.contains "/pic/" src)
                             (image_srcs i);
                    XBot.x_replies := stat_replies i;
                    XBot.x_retweets := stat_retweets i;
                    XBot.x_likes := stat_likes i |}
        end
    end
end.

(** What a Nitter instance answers to the GET of the profile page: the
    call raises, or it gives a status and the timeline items of the page. *)
Inductive Page :=
| GetRaises
| Got (status : Z) (timeline_items : list Scraped).

(** The posts parsed from a list of items, in order. *)
Fixpoint parse_items (username : string) (items : list Scraped) : list XBot.XPost :=
match items with
| [] => []
| it :: rest =>
    match parse_item username it with
    | Some p => p :: parse_items username rest
    | None => parse_items username rest
    end
end.

(** [fetch_x_posts_nitter]: [pages] is what the instances of
    [nitter_instances] answer, in that order. *)
Fixpoint fetch_x_posts_nitter (cfg : XBot.Config) (username : string) (pages : list Page)
  : list XBot.XPost :=
match pages with
| [] => []
| GetRaises :: rest => fetch_x_posts_nitter cfg username rest
| Got status items :: rest =>
    if negb (status =? 200) then fetch_x_posts_nitter cfg username rest
    else
      match parse_items username (slice_to (XBot.MAX_POSTS_PER_CYCLE cfg) items) with
      | [] => fetch_x_posts_nitter cfg username rest
      | posts => posts
      end
end.

(** [fetch_x_posts]: Nitter first, then the posts [api] that
    [fetch_x_posts_api] gives. *)
Definition fetch_x_posts (cfg : XBot.Config) (username : string) (pages : list Page)
           (api : list XBot.XPost) : list XBot.XPost :=
match fetch_x_posts_nitter cfg username pages with
| [] => api
| posts => posts
end.

(** Every character of the string is a digit. *)
Fixpoint all_digits (s : string) : bool :=
match s with
| EmptyString => true
| String c r => Py.is_digit c && all_digits r
end.

End XFetch.

(* ------------------------------------------------------------------ *)
(** ** Observations used by the statements *)

Module Obs.

(** A reply of the endpoint that is an error for [tg_send]: the POST
    raises, or the status is neither 429 nor a success. *)
Definition error_reply (p : PostResult) : bool :=
match p with
| PostRaises => true
| PostReply r => negb (status_code r =? 429) && negb (is_success r)
end.

(** The records [emit] takes for the end of a cycle of the feed bot. *)
Definition is_rss_cycle (r : LogHandler.LogRecord) : bool :=
(Py.contains "cycle_done" (LogHandler.getMessage r)
 || Py.contains "cycle_complete" (LogHandler.getMessage r))
&& Py.contains "macro-crypto-bot" (LogHandler.name r).

End Obs.

(* ------------------------------------------------------------------ *)
(** ** A concrete environment, for the examples *)

Module Demo.

(** The literal words of [words] the lower-cased text contains. *)
Definition literal_hits (words : list string) (text : string) : list string :=
  filter (fun k => Py.contains k (Py.lower text)) words.

Definition at_time (ts : Z) (H : Py.is_timestamp ts = true) : Py.datetime :=
  {| Py.timestamp := ts; Py.timestamp_range := H |}.

Definition env : Rss.Env :=
  {| Rss.re_search := fun pat text =>
       if String.eqb pat Rss.HYPER_REGEX then Py.contains "hyperliquid" (Py.lower text)
       else false;
     Rss.re_findall := fun pat text =>
       if String.eqb pat Rss.MACRO_REGEX
       then literal_hits ["cpi"; "fed"; "rate hike"; "inflation"] text
       else if String.eqb pat Rss.CRYPTO_REGEX
       then literal_hits ["bitcoin"; "btc"; "etf"] text
       else [];
     Rss.dtparse := fun s =>
       if String.eqb s "Thu, 01 Jan 1970 00:00:00 GMT" then Some (at_time 0 eq_refl)
       else if String.eqb s "Sat, 01 Jan 2000 00:00:00 GMT"
       then Some (at_time 946684800 eq_refl)
       else if String.eqb s "Mon, 03 Nov 2025 00:00:00 GMT"
       then Some (at_time 1762128000 eq_refl)
       else None;
     Rss.sha256_hex := fun s => s;
     Rss.http_get_text := fun _ => None;
     Rss.extract_waterfall := fun _ _ => None;
     Rss.vader_compound := fun _ => 0%Q;
     Rss.hf_load_ok := false;
     Rss.finbert := fun _ => None;
     Rss.roberta := fun _ => None;
     Rss.urlparse_netloc := fun _ => Some "example.com";
     Rss.strftime_local := fun _ => Some "2025-11-03 08:00";
     Rss.fmt_2f := fun _ => "5.00" |}.

Definition cfg (strict : bool) : Rss.Config :=
  {| Rss.CHAT_ID := "-1002918297497"; Rss.THREAD_ID := "5";
     Rss.POLL_SECONDS := 180; Rss.POST_ONLY_ON_STRONG_MATCH := strict;
     Rss.MAX_AGE_DAYS := 2 |}.

(** 4 November 2025, 00:00 UTC *)
Definition now : Q := 1762214400%Q.

Definition entry (id title url published : string) : Rss.Entry :=
  {| Rss.e_id := id; Rss.e_guid := ""; Rss.e_link := url; Rss.e_title := title;
     Rss.e_summary := ""; Rss.e_description := ""; Rss.e_published := published |}.

(** The body [{"ok": true, "result": {"message_id": id}}] *)
Definition ok_body (id : Z) : Py.json :=
  Py.JObj [("ok", Py.JBool true); ("result", Py.JObj [("message_id", Py.JInt id)])].

(** A response [200] with that body. *)
Definition ok_response (id : Z) : Response :=
  {| status_code := 200; retry_after_header := None; body := Some (ok_body id) |}.

Definition ok_reply (id : Z) : PostResult := PostReply (ok_response id).

(** A response [429] with the header [Retry-After]. *)
Definition flood_header (seconds : string) : Response :=
  {| status_code := 429; retry_after_header := Some seconds;
     body := Some (Py.JObj [("ok", Py.JBool false)]) |}.

(** A response [429] with [{"ok": false, "parameters": {"retry_after": n}}]. *)
Definition flood_body (n : Py.json) : Response :=
  {| status_code := 429; retry_after_header := None;
     body := Some (Py.JObj [("ok", Py.JBool false);
                            ("parameters", Py.JObj [("retry_after", n)])]) |}.

(** A response [429] that says nothing about the wait. *)
Definition flood_bare : Response :=
  {| status_code := 429; retry_after_header := None; body := None |}.

Definition floods : list Response :=
  [flood_header "2"; flood_body (Py.JInt 7); flood_bare; flood_header "soon"].

Definition feed_url : string := "https://f/rss".

(** A feed with the item [abc], and the same feed a cycle later, with the
    item [xyz] added. *)
Definition item_abc : Rss.Entry :=
  entry "abc" "Fed signals rate hike as CPI data rises" ""
        "Mon, 03 Nov 2025 00:00:00 GMT".

Definition item_xyz : Rss.Entry :=
  entry "xyz" "Bitcoin ETF inflows rise" "" "Mon, 03 Nov 2025 00:00:00 GMT".

Definition feed_v1 : option Rss.Parsed :=
  Some {| Rss.p_title := "F"; Rss.p_entries := [item_abc] |}.

Definition feed_v2 : option Rss.Parsed :=
  Some {| Rss.p_title := "F"; Rss.p_entries := [item_xyz; item_abc] |}.

(** The task posts and commits [abc] and crashes right after the commit
    (six events); the manager starts it again and it meets the same item. *)
Definition two_lives : list Runs.Life :=
  [ {| Runs.life_script := [ok_reply 1]; Runs.life_now := now;
       Runs.life_calls := [(feed_url, feed_v1)]; Runs.life_crash := Some 6%nat |};
    {| Runs.life_script := [ok_reply 2; ok_reply 3]; Runs.life_now := (now + 120)%Q;
       Runs.life_calls := [(feed_url, feed_v2)]; Runs.life_crash := None |} ].

Definition row_abc : Rss.SeenRow :=
  {| Rss.feed := feed_url; Rss.entry_key := "abc";
     Rss.published_ts := Some 1762128000; Rss.first_seen_ts := 1762214400 |}.

(** A feed whose only item is dated to the epoch, and the same with the
    date 1 January 2000. *)
Definition feed_epoch : option Rss.Parsed :=
  Some {| Rss.p_title := "F";
          Rss.p_entries := [entry "old" "Fed signals rate hike as CPI data rises" ""
                                  "Thu, 01 Jan 1970 00:00:00 GMT"] |}.

Definition feed_2000 : option Rss.Parsed :=
  Some {| Rss.p_title := "F";
          Rss.p_entries := [entry "old" "Fed signals rate hike as CPI data rises" ""
                                  "Sat, 01 Jan 2000 00:00:00 GMT"] |}.

Definition xenv : XBot.Env :=
  {| XBot.re_sub := fun _ _ s => s;
     XBot.strftime_utc := fun _ => "2025-11-03 08:00 UTC" |}.

Definition xcfg : XBot.Config :=
  {| XBot.CHAT_ID := "-1002918297497"; XBot.X_THREAD_ID := "711";
     XBot.POLL_SECONDS := 300; XBot.X_USERNAME := "wildmetaHQ";
     XBot.MAX_POSTS_PER_CYCLE := 5 |}.

Definition xpost (id content : string) : XBot.XPost :=
  {| XBot.x_post_id := id; XBot.x_username := "wildmetaHQ"; XBot.x_content := content;
     XBot.x_timestamp := None; XBot.x_images := [];
     XBot.x_replies := None; XBot.x_retweets := None; XBot.x_likes := None |}.

(** The manager after [start()] with both bots, once the feed task has
    raised. *)
Definition manager_after_crash : Manager.BotManager :=
  {| Manager.rss_task := Some (Manager.Failed "boom");
     Manager.x_task := Some Manager.Running;
     Manager.rss_enabled := true; Manager.x_enabled := true;
     Manager.shutdown_event := false; Manager.monitor_alive := true |}.

(** A link with a double quote in its query. *)
Definition quote_url : string :=
  "https://e.com/?q=" ++ Py.dq ++ " onmouseover=" ++ Py.dq ++ "x".

(** What the link line of the message then holds. *)
Definition broken_anchor : string :=
  "<a href=" ++ Py.dq ++ "https://e.com/?q=" ++ Py.dq ++ " onmouseover=" ++ Py.dq ++ "x"
  ++ Py.dq ++ ">".

(** An environment in which [urlparse] finds the host [<b>evil], as it
    does for the link [http://<b>evil/x]. *)
Definition env_host : Rss.Env :=
  {| Rss.re_search := Rss.re_search env;
     Rss.re_findall := Rss.re_findall env;
     Rss.dtparse := Rss.dtparse env;
     Rss.sha256_hex := Rss.sha256_hex env;
     Rss.http_get_text := Rss.http_get_text env;
     Rss.extract_waterfall := Rss.extract_waterfall env;
     Rss.vader_compound := Rss.vader_compound env;
     Rss.hf_load_ok := Rss.hf_load_ok env;
     Rss.finbert := Rss.finbert env;
     Rss.roberta := Rss.roberta env;
     Rss.urlparse_netloc := fun _ => Some "<b>evil";
     Rss.strftime_local := Rss.strftime_local env;
     Rss.fmt_2f := Rss.fmt_2f env |}.

Definition neutral : Rss.Sentiment := Rss.vader_sentiment env "".

(** A post whose reply count, as scraped, holds markup. *)
Definition xpost_metrics : XBot.XPost :=
  {| XBot.x_post_id := "42"; XBot.x_username := "wildmetaHQ"; XBot.x_content := "gm";
     XBot.x_timestamp := None; XBot.x_images := [];
     XBot.x_replies := Some "<b>7</b>"; XBot.x_retweets := None; XBot.x_likes := None |}.

(** Three attempts that fail: a time-out, a 429, a 500. *)
Definition x_failures : list PostResult :=
  [ PostRaises; PostReply flood_bare;
    PostReply {| status_code := 500; retry_after_header := None; body := None |} ].

Definition xworld : XBot.World :=
  {| XBot.db := []; XBot.tg := x_failures ++ [ok_reply 9]; XBot.clock := now |}.

End Demo.

(* ------------------------------------------------------------------ *)
(** ** More examples *)

Module Demo2.

(** An item dated 1 January 2000. *)
Definition old_entry : Rss.Entry :=
Demo.entry "old" "Fed signals rate hike as CPI data rises" ""
           "Sat, 01 Jan 2000 00:00:00 GMT".

(** An empty table, no reply scripted, 4 November 2025. *)
Definition world0 : Rss.World :=
{| Rss.db := []; Rss.tg := []; Rss.clock := Demo.now |}.

(** The no-break space U+00A0 and the next line U+0085, in UTF-8. *)
Definition nbsp : string := String (ascii_of_nat 194) (String (ascii_of_nat 160) "").
Definition nel : string := String (ascii_of_nat 194) (String (ascii_of_nat 133) "").

(** An empty table; the endpoint accepts the first message. *)
Definition world_ok : Rss.World :=
{| Rss.db := []; Rss.tg := [Demo.ok_reply 1]; Rss.clock := Demo.now |}.

(** An environment in which the two models find every text positive. *)
Definition env_positive : Rss.Env :=
{| Rss.re_search := Rss.re_search Demo.env;
   Rss.re_findall := Rss.re_findall Demo.env;
   Rss.dtparse := Rss.dtparse Demo.env;
   Rss.sha256_hex := Rss.sha256_hex Demo.env;
   Rss.http_get_text := Rss.http_get_text Demo.env;
   Rss.extract_waterfall := Rss.extract_waterfall Demo.env;
   Rss.vader_compound := Rss.vader_compound Demo.env;
   Rss.hf_load_ok := true;
   Rss.finbert := fun _ =>
     Some {| Rss.hf_label := "positive"; Rss.hf_score := (93 # 100)%Q |};
   Rss.roberta := fun _ =>
     Some {| Rss.hf_label := "positive"; Rss.hf_score := (88 # 100)%Q |};
   Rss.urlparse_netloc := Rss.urlparse_netloc Demo.env;
   Rss.strftime_local := Rss.strftime_local Demo.env;
   Rss.fmt_2f := Rss.fmt_2f Demo.env |}.

(** An item whose title holds one crypto keyword and no macro keyword. *)
Definition btc_title : string := "Bitcoin jumps to a record high on strong demand".

Definition item_btc : Rss.Entry :=
Demo.entry "btc" btc_title "https://e.com/btc" "Mon, 03 Nov 2025 00:00:00 GMT".

(** The endpoint answers 500 to the first POST. *)
Definition error_500 : PostResult :=
PostReply {| status_code := 500; retry_after_header := None; body := None |}.

Definition world_500 : Rss.World :=
{| Rss.db := []; Rss.tg := [error_500; Demo.ok_reply 1]; Rss.clock := Demo.now |}.

(** The endpoint answers 200 with the body [{"ok": false}]. *)
Definition not_ok_response : Response :=
{| status_code := 200; retry_after_header := None;
   body := Some (Py.JObj [("ok", Py.JBool false)]) |}.

Definition world_not_ok : Rss.World :=
{| Rss.db := []; Rss.tg := [PostReply not_ok_response]; Rss.clock := Demo.now |}.

(** The table holds the item [abc] already. *)
Definition world_seen : Rss.World :=
{| Rss.db := [Demo.row_abc]; Rss.tg := [Demo.ok_reply 1]; Rss.clock := Demo.now |}.

Definition parsed_v1 : Rss.Parsed :=
{| Rss.p_title := "F"; Rss.p_entries := [Demo.item_abc] |}.

(** The table of the X bot after a failed delivery of the post 42: the
    row has no message id. *)
Definition xtable_42 : XBot.Table :=
[ {| XBot.post_id := "42"; XBot.username := "wildmetaHQ"; XBot.content := "gm";
     XBot.posted_at := None; XBot.first_seen_ts := 1762214000;
     XBot.telegram_msg_id := Py.JNull |} ].


(** A timeline item whose link is [/wildmetaHQ/status/123#m]. *)
Definition item_123 : XFetch.Scraped :=
XFetch.ItemOk
  {| XFetch.tweet_link := Some "/wildmetaHQ/status/123#m";
     XFetch.tweet_content := Some "gm";
     XFetch.tweet_time := None;
     XFetch.image_srcs := ["/pic/media%2Fabc.jpg"; ""; "/static/logo.png"];
     XFetch.stat_replies := Some "3"; XFetch.stat_retweets := None;
     XFetch.stat_likes := Some "12" |}.

(** The first instance times out, the second answers 503, the third gives
    a page with one item that has no link and the item above. *)
Definition pages : list XFetch.Page :=
[ XFetch.GetRaises; XFetch.Got 503 [];
  XFetch.Got 200 [XFetch.ItemRaises; item_123] ].

(** Twelve errors of the feed bot, one per second, then the end of a cycle. *)
Definition rss_error (n : Z) : Q * LogHandler.LogRecord :=
(inject_Z n,
 {| LogHandler.levelno := 40; LogHandler.name := "macro-crypto-bot";
    LogHandler.getMessage := "Entry error" |}).

Definition busy_log : list (Q * LogHandler.LogRecord) :=
map rss_error [1; 2; 3; 4; 5; 6; 7; 8; 9; 10; 11; 12]
++ [ (13%Q, {| LogHandler.levelno := 20; LogHandler.name := "macro-crypto-bot";
               LogHandler.getMessage := "{event: cycle_done}" |}) ].

End Demo2.

(* ================================================================== *)
(** * Properties *)

(* ------------------------------------------------------------------ *)
(** ** Strings *)

(** Characters, not bytes, are counted, cut and stripped. *)
Example characters_are_counted :
  Py.len "…" = 1%nat
  /\ Py.len "📈📈📈📈 BTC" = 8%nat
  /\ Py.take 2 "📈…abc" = "📈…"
  /\ Py.strip (Demo2.nbsp ++ " Fed hikes" ++ Demo2.nel ++ "  ") = "Fed hikes"
  /\ Py.split_ws ("a" ++ Demo2.nbsp ++ "b  c" ++ Demo2.nel) = ["a"; "b"; "c"].
Proof. repeat split. Qed.

Lemma append_assoc (a b c : string) : ((a ++ b) ++ c = a ++ (b ++ c))%string.
Proof. induction a as [|x a IH]; [reflexivity|]. simpl. now rewrite IH. Qed.

Lemma startswith_app (a b : string) : Py.startswith a (a ++ b) = true.
Proof.
  induction a as [|c a IH]; [reflexivity|]. simpl. now rewrite Ascii.eqb_refl.
Qed.

Lemma lead_is_char ch : Py.is_lead_char ch = true -> Py.is_char ch = true.
Proof. destruct ch as [|c t]; simpl; [discriminate|]. now intros [_ H]%andb_true_iff. Qed.

Lemma leads_well_formed l : forallb Py.is_lead_char l = true -> Py.well_formed l = true.
Proof.
  destruct l as [|ch rest]; simpl; [reflexivity|].
  intros [H1 H2]%andb_true_iff. now rewrite (lead_is_char _ H1).
Qed.

Lemma well_formed_app l1 l2 :
  Py.well_formed (l1 ++ l2) = true -> Py.well_formed l1 = true /\ Py.well_formed l2 = true.
Proof.
  destruct l1 as [|ch rest]; simpl; [auto|].
  intros [H1 H2]%andb_true_iff. rewrite forallb_app in H2.
  apply andb_true_iff in H2. destruct H2 as [H2 H3].
  rewrite H1, H2. split; [reflexivity | now apply leads_well_formed].
Qed.

Lemma chars_head d u : exists t rest, Py.chars (String d u) = String d t :: rest.
Proof.
  cbn [Py.chars]. destruct (Py.chars u) as [|ch rest]; [eauto|].
  destruct (Py.starts_cont u); eauto.
Qed.

(** [chars] gives characters, and only the first one may begin with a
    continuation byte. *)
Lemma chars_well_formed s : Py.well_formed (Py.chars s) = true.
Proof.
  induction s as [|c r IH]; [reflexivity|].
  cbn [Py.chars]. destruct (Py.chars r) as [|ch rest] eqn:Hr; [reflexivity|].
  destruct r as [|d u]; [discriminate|].
  destruct (chars_head d u) as (t & rest' & Hd). rewrite Hd in Hr.
  injection Hr as <- <-. cbn [Py.well_formed Py.is_char] in IH. apply andb_true_iff in IH.
  destruct IH as [Ht Hrest]. cbn [Py.starts_cont].
  destruct (Py.is_cont d) eqn:Hc;
    cbn [Py.well_formed Py.is_char Py.all_cont forallb Py.is_lead_char];
    now rewrite Hc, Ht, Hrest.
Qed.

(** The characters of a string make the string again. *)
Lemma cat_chars s : Py.cat (Py.chars s) = s.
Proof.
  induction s as [|c r IH]; [reflexivity|].
  cbn [Py.chars]. destruct (Py.chars r) as [|ch rest] eqn:Hr.
  - destruct r as [|d u]; [reflexivity|].
    destruct (chars_head d u) as (t & rest' & Hd). congruence.
  - destruct (Py.starts_cont r); simpl in *; now rewrite IH.
Qed.

Lemma chars_char_app c t r :
  Py.all_cont t = true -> Py.starts_cont r = false ->
  Py.chars (String c (t ++ r)) = String c t :: Py.chars r.
Proof.
  revert c. induction t as [|e t IH]; intros c Ht Hr.
  - cbn [append Py.chars]. rewrite Hr. now destruct (Py.chars r).
  - cbn [Py.all_cont] in Ht. apply andb_true_iff in Ht. destruct Ht as [He Ht].
    change (String c (String e t ++ r)) with (String c (String e (t ++ r))).
    cbn [Py.chars]. fold (Py.chars (String e (t ++ r))).
    change (match Py.chars (t ++ r) with
            | [] => [String e ""]
            | ch :: rest =>
                if Py.starts_cont (t ++ r) then String e ch :: rest
                else String e "" :: ch :: rest
            end) with (Py.chars (String e (t ++ r))).
    rewrite (IH e Ht Hr). cbn [Py.starts_cont]. now rewrite He.
Qed.

Lemma cat_leads_start l :
  forallb Py.is_lead_char l = true -> Py.starts_cont (Py.cat l) = false.
Proof.
  destruct l as [|ch rest]; [reflexivity|]. cbn [forallb Py.cat fold_right].
  intros [H _]%andb_true_iff. destruct ch as [|d t]; [discriminate|].
  simpl in *. apply andb_true_iff in H. destruct H as [H _].
  now apply negb_true_iff in H.
Qed.

(** The string made of a list of characters has these characters. *)
Lemma chars_cat l : Py.well_formed l = true -> Py.chars (Py.cat l) = l.
Proof.
  induction l as [|ch rest IH]; [reflexivity|].
  cbn [Py.well_formed]. intros [Hc Hl]%andb_true_iff.
  destruct ch as [|c t]; [discriminate|]. cbn [Py.is_char] in Hc.
  change (Py.cat (String c t :: rest)) with (String c (t ++ Py.cat rest)).
  rewrite (chars_char_app c t _ Hc (cat_leads_start _ Hl)).
  now rewrite (IH (leads_well_formed _ Hl)).
Qed.

Lemma cat_app l1 l2 : Py.cat (l1 ++ l2) = (Py.cat l1 ++ Py.cat l2)%string.
Proof.
  induction l1 as [|x l1 IH]; [reflexivity|].
  change (Py.cat ((x :: l1) ++ l2)) with (x ++ Py.cat (l1 ++ l2))%string.
  change (Py.cat (x :: l1)) with (x ++ Py.cat l1)%string.
  rewrite IH. symmetry. apply append_assoc.
Qed.

Lemma drop_while_suffix {A : Type} (p : A -> bool) (l : list A) :
  exists pre, l = pre ++ Py.drop_while p l.
Proof.
  induction l as [|x l [pre IH]]; [now exists []|].
  simpl. destruct (p x); [|now exists []].
  exists (x :: pre). simpl. now rewrite <- IH.
Qed.

Lemma drop_while_idem {A : Type} (p : A -> bool) (l : list A) :
  Py.drop_while p (Py.drop_while p l) = Py.drop_while p l.
Proof.
  induction l as [|x l IH]; [reflexivity|].
  simpl. destruct (p x) eqn:Hx; [exact IH|]. simpl. now rewrite Hx.
Qed.

Lemma rdrop_prefix {A : Type} (p : A -> bool) (l : list A) :
  exists post, l = rev (Py.drop_while p (rev l)) ++ post.
Proof.
  destruct (drop_while_suffix p (rev l)) as [pre H].
  exists (rev pre). rewrite <- rev_app_distr, <- H. now rewrite rev_involutive.
Qed.

Lemma firstn_well_formed n s : Py.well_formed (firstn n (Py.chars s)) = true.
Proof.
  pose proof (chars_well_formed s) as H. rewrite <- (firstn_skipn n (Py.chars s)) in H.
  now apply well_formed_app in H.
Qed.

Lemma lstrip_well_formed s :
  Py.well_formed (Py.drop_while Py.isspace (Py.chars s)) = true.
Proof.
  pose proof (chars_well_formed s) as H.
  destruct (drop_while_suffix Py.isspace (Py.chars s)) as [pre Hp].
  rewrite Hp in H. now apply well_formed_app in H.
Qed.

Lemma rstrip_well_formed s :
  Py.well_formed (rev (Py.drop_while Py.isspace (rev (Py.chars s)))) = true.
Proof.
  pose proof (chars_well_formed s) as H.
  destruct (rdrop_prefix Py.isspace (Py.chars s)) as [post Hp].
  rewrite Hp in H. now apply well_formed_app in H.
Qed.

Lemma take_length (n : nat) (s : string) : (Py.len (Py.take n s) <= n)%nat.
Proof.
  unfold Py.len, Py.take. rewrite chars_cat by apply firstn_well_formed.
  rewrite length_firstn. lia.
Qed.

Lemma take_all (n : nat) (s : string) : (Py.len s <= n)%nat -> Py.take n s = s.
Proof.
  unfold Py.len, Py.take. intros H. rewrite firstn_all2 by exact H. apply cat_chars.
Qed.

Lemma take_prefix (n : nat) (s : string) : Py.startswith (Py.take n s) s = true.
Proof.
  unfold Py.take.
  rewrite <- (cat_chars s) at 2. rewrite <- (firstn_skipn n (Py.chars s)) at 2.
  rewrite cat_app. apply startswith_app.
Qed.

Lemma rstrip_prefix (s : string) : Py.startswith (Py.rstrip s) s = true.
Proof.
  unfold Py.rstrip. destruct (rdrop_prefix Py.isspace (Py.chars s)) as [post Hp].
  rewrite <- (cat_chars s) at 2. rewrite Hp at 2. rewrite cat_app. apply startswith_app.
Qed.

Lemma lstrip_length (s : string) : (Py.len (Py.lstrip s) <= Py.len s)%nat.
Proof.
  unfold Py.len, Py.lstrip. rewrite chars_cat by apply lstrip_well_formed.
  destruct (drop_while_suffix Py.isspace (Py.chars s)) as [pre Hp].
  rewrite Hp at 2. rewrite length_app. lia.
Qed.

Lemma rstrip_length (s : string) : (Py.len (Py.rstrip s) <= Py.len s)%nat.
Proof.
  unfold Py.len, Py.rstrip. rewrite chars_cat by apply rstrip_well_formed.
  destruct (rdrop_prefix Py.isspace (Py.chars s)) as [post Hp].
  rewrite Hp at 2. rewrite length_app. lia.
Qed.

Lemma strip_length (s : string) : (Py.len (Py.strip s) <= Py.len s)%nat.
Proof.
  unfold Py.strip.
  pose proof (rstrip_length (Py.lstrip s)). pose proof (lstrip_length s). lia.
Qed.

Lemma rstrip_idem (s : string) : Py.rstrip (Py.rstrip s) = Py.rstrip s.
Proof.
  unfold Py.rstrip. rewrite chars_cat by apply rstrip_well_formed.
  rewrite rev_involutive, drop_while_idem. reflexivity.
Qed.

(* ------------------------------------------------------------------ *)
(** ** Tables with a primary key *)

Section SqlFacts.
Context {Row Key : Type}.
Variable key_of : Row -> Key.
Variable key_eqb : Key -> Key -> bool.
Hypothesis key_eqb_eq : forall a b, key_eqb a b = true <-> a = b.

Local Abbreviation count := (Sql.count key_of key_eqb).
Local Abbreviation exists_key := (Sql.exists_key key_of key_eqb).
Local Abbreviation insert := (Sql.insert key_of key_eqb).
Local Abbreviation pk_unique := (Sql.pk_unique key_of key_eqb).
Local Abbreviation has_key := (Sql.has_key key_of key_eqb).

Lemma has_key_self (r : Row) : has_key (key_of r) r = true.
Proof. unfold Sql.has_key. now apply key_eqb_eq. Qed.

Lemma count_app (t u : list Row) (k : Key) :
  count (t ++ u) k = (count t k + count u k)%nat.
Proof. unfold Sql.count, Sql.select. now rewrite filter_app, length_app. Qed.

Lemma exists_key_count (t : list Row) (k : Key) :
  exists_key t k = true <-> (1 <= count t k)%nat.
Proof.
  unfold Sql.exists_key, Sql.count, Sql.select.
  induction t as [|r t IH]; simpl.
  - split; [discriminate | lia].
  - destruct (has_key k r); simpl; [split; [lia | reflexivity] | exact IH].
Qed.

Lemma exists_key_false_count (t : list Row) (k : Key) :
  exists_key t k = false <-> count t k = 0%nat.
Proof.
  pose proof (exists_key_count t k) as H.
  destruct (exists_key t k); split; intros; try discriminate; try reflexivity.
  - destruct H as [H _]. specialize (H eq_refl). lia.
  - destruct (count t k); [reflexivity|].
    destruct H as [_ H]. discriminate H. lia.
Qed.

Lemma count_removed (t : list Row) (k : Key) :
  count (filter (fun r' => negb (has_key k r')) t) k = 0%nat.
Proof.
  unfold Sql.count, Sql.select.
  induction t as [|r t IH]; simpl; [reflexivity|].
  destruct (has_key k r) eqn:Hk; simpl; [exact IH|].
  rewrite Hk. exact IH.
Qed.

Lemma count_removed_other (t : list Row) (k k' : Key) :
  k <> k' ->
  count (filter (fun r' => negb (has_key k r')) t) k' = count t k'.
Proof.
  intros Hne. unfold Sql.count, Sql.select.
  induction t as [|r t IH]; simpl; [reflexivity|].
  destruct (has_key k r) eqn:Hk; simpl.
  - destruct (has_key k' r) eqn:Hk'; [|exact IH].
    unfold Sql.has_key in Hk, Hk'.
    apply key_eqb_eq in Hk. apply key_eqb_eq in Hk'. congruence.
  - destruct (has_key k' r); simpl; now rewrite IH.
Qed.

Lemma count_single (r : Row) (k : Key) :
  count [r] k = if has_key k r then 1%nat else 0%nat.
Proof. unfold Sql.count, Sql.select. simpl. now destruct (has_key k r). Qed.

(** An [INSERT OR IGNORE] and an [INSERT OR REPLACE] never raise. *)
Lemma insert_total (c : Sql.conflict) (r : Row) (t : list Row) :
  c <> Sql.OrAbort -> exists t', insert c r t = Some t'.
Proof.
  intros Hc. unfold Sql.insert.
  destruct (exists_key t (key_of r)); [|eauto].
  destruct c; [congruence | eauto | eauto].
Qed.

(** After an insertion the key is stored once, whatever the clause. *)
Lemma insert_count_key (c : Sql.conflict) (r : Row) (t t' : list Row) :
  pk_unique t -> insert c r t = Some t' -> count t' (key_of r) = 1%nat.
Proof.
  intros Hu. unfold Sql.insert.
  destruct (exists_key t (key_of r)) eqn:Hex.
  - apply exists_key_count in Hex. specialize (Hu (key_of r)).
    destruct c; intros H; inversion H; subst.
    + lia.
    + rewrite count_app, count_removed, count_single, has_key_self. reflexivity.
  - apply exists_key_false_count in Hex.
    intros H; inversion H; subst.
    rewrite count_app, count_single, has_key_self. lia.
Qed.

Lemma insert_count_other (c : Sql.conflict) (r : Row) (t t' : list Row) (k : Key) :
  k <> key_of r -> insert c r t = Some t' -> count t' k = count t k.
Proof.
  intros Hne. unfold Sql.insert.
  assert (Hk : has_key k r = false).
  { unfold Sql.has_key. destruct (key_eqb (key_of r) k) eqn:Hk; [|reflexivity].
    apply key_eqb_eq in Hk. congruence. }
  destruct (exists_key t (key_of r)).
  - destruct c; intros H; inversion H; subst; [reflexivity|].
    rewrite count_app, count_single, Hk, count_removed_other by congruence. lia.
  - intros H; inversion H; subst.
    rewrite count_app, count_single, Hk. lia.
Qed.

Lemma insert_pk_unique (c : Sql.conflict) (r : Row) (t t' : list Row) :
  pk_unique t -> insert c r t = Some t' -> pk_unique t'.
Proof.
  intros Hu Hi k.
  assert (Hdec : k = key_of r \/ k <> key_of r).
  { destruct (key_eqb k (key_of r)) eqn:Hk.
    - left. now apply key_eqb_eq.
    - right. intros ->. assert (key_eqb (key_of r) (key_of r) = true) by now apply key_eqb_eq.
      congruence. }
  destruct Hdec as [-> | Hne].
  - rewrite (insert_count_key c r t t' Hu Hi). lia.
  - rewrite (insert_count_other c r t t' k Hne Hi). apply Hu.
Qed.

(** A key that is stored stays stored, and the key inserted is stored. *)
Lemma insert_exists_mono (c : Sql.conflict) (r : Row) (t t' : list Row) (k : Key) :
  insert c r t = Some t' -> exists_key t k = true -> exists_key t' k = true.
Proof.
  unfold Sql.insert. intros Hi Hk.
  destruct (exists_key t (key_of r)) eqn:Hex.
  - destruct c; inversion Hi; subst; [assumption|].
    destruct (key_eqb (key_of r) k) eqn:Hrk.
    + apply exists_key_count. rewrite count_app, count_single.
      unfold Sql.has_key. rewrite Hrk. lia.
    + apply exists_key_count. rewrite count_app.
      rewrite count_removed_other.
      * apply exists_key_count in Hk. lia.
      * intros Heq. rewrite Heq in Hrk.
        assert (key_eqb k k = true) by now apply key_eqb_eq.
        congruence.
  - inversion Hi; subst. apply exists_key_count. rewrite count_app.
    apply exists_key_count in Hk. lia.
Qed.

Lemma insert_exists_key (c : Sql.conflict) (r : Row) (t t' : list Row) :
  insert c r t = Some t' -> exists_key t' (key_of r) = true.
Proof.
  unfold Sql.insert. intros Hi.
  destruct (exists_key t (key_of r)) eqn:Hex.
  - destruct c; inversion Hi; subst; [assumption|].
    apply exists_key_count. rewrite count_app, count_single, has_key_self. lia.
  - inversion Hi; subst.
    apply exists_key_count. rewrite count_app, count_single, has_key_self. lia.
Qed.

Lemma pk_unique_nil : pk_unique [].
Proof. intros k. unfold Sql.count, Sql.select. simpl. lia. Qed.

End SqlFacts.

Lemma pk_eqb_eq (a b : string * string) : Rss.pk_eqb a b = true <-> a = b.
Proof.
  destruct a as [a1 a2], b as [b1 b2]. unfold Rss.pk_eqb. simpl.
  rewrite andb_true_iff, !String.eqb_eq. split.
  - intros [-> ->]. reflexivity.
  - intros H. inversion H. auto.
Qed.

Lemma str_eqb_eq (a b : string) : String.eqb a b = true <-> a = b.
Proof. apply String.eqb_eq. Qed.

Lemma x_eqb_eq (a b : string) : String.eqb a b = true <-> a = b.
Proof. apply String.eqb_eq. Qed.


(* ------------------------------------------------------------------ *)
(** ** The dedup store *)

(** The seconds of a [datetime] are an integer SQLite stores. *)
Lemma timestamp_fits (d : Py.datetime) : Sql.int_fits (Py.timestamp d) = true.
Proof.
  destruct d as [ts H]. cbn [Py.timestamp]. unfold Py.is_timestamp in H.
  apply andb_true_iff in H. destruct H as [H1 H2].
  apply Z.leb_le in H1. apply Z.leb_le in H2.
  unfold Sql.int_fits. apply andb_true_iff. split; [apply Z.leb_le | apply Z.ltb_lt]; lia.
Qed.

Lemma to_unix_ts_fits (E : Rss.Env) (s : string) :
  Sql.opt_int_fits (Rss.to_unix_ts E s) = true.
Proof.
  unfold Rss.to_unix_ts. destruct (negb (Py.nonempty s)); [reflexivity|].
  destruct (Rss.dtparse E s) as [d|]; [apply timestamp_fits | reflexivity].
Qed.

Lemma posted_at_fits (post : XBot.XPost) :
  Sql.opt_int_fits (XBot.posted_at_of post) = true.
Proof.
  unfold XBot.posted_at_of.
  destruct (XBot.x_timestamp post) as [d|]; [apply timestamp_fits | reflexivity].
Qed.

Lemma rss_mark_seen_total (t : Rss.Table) now feed key p :
  Sql.opt_int_fits p = true -> exists t', Rss.mark_seen t now feed key p = Some t'.
Proof. intros Hp. unfold Rss.mark_seen. rewrite Hp. apply insert_total. discriminate. Qed.

Lemma rss_mark_seen_insert (t t' : Rss.Table) now feed key p :
  Rss.mark_seen t now feed key p = Some t' ->
  Sql.insert Rss.seen_pk Rss.pk_eqb Sql.OrIgnore
    {| Rss.feed := feed; Rss.entry_key := key;
       Rss.published_ts := p; Rss.first_seen_ts := Qfloor now |} t = Some t'.
Proof. unfold Rss.mark_seen. now destruct (Sql.opt_int_fits p). Qed.

Lemma rss_mark_seen_seen (t t' : Rss.Table) now feed key p :
  Rss.mark_seen t now feed key p = Some t' -> Rss.seen_before t' feed key = true.
Proof.
  unfold Rss.mark_seen, Rss.seen_before.
  destruct (Sql.opt_int_fits p); [|discriminate]. intros H.
  apply (insert_exists_key Rss.seen_pk Rss.pk_eqb pk_eqb_eq) in H. exact H.
Qed.

Lemma rss_mark_seen_mono (t t' : Rss.Table) now feed key p f k :
  Rss.mark_seen t now feed key p = Some t' ->
  Rss.seen_before t f k = true -> Rss.seen_before t' f k = true.
Proof.
  unfold Rss.mark_seen, Rss.seen_before.
  destruct (Sql.opt_int_fits p); [|discriminate]. intros H Hk.
  exact (insert_exists_mono Rss.seen_pk Rss.pk_eqb pk_eqb_eq _ _ _ _ (f, k) H Hk).
Qed.


Lemma optional_int_bindable (m : option Z) :
  XBot.bindable (XBot.optional_int m) = Sql.opt_int_fits m.
Proof. now destruct m. Qed.


Lemma x_mark_seen_seen (t t' : XBot.Table) now post_id u c pa m :
  XBot.mark_seen t now post_id u c pa m = Some t' -> XBot.seen_before t' post_id = true.
Proof.
  unfold XBot.mark_seen, XBot.seen_before.
  destruct (XBot.bindable m && Sql.opt_int_fits pa); [|discriminate]. intros H.
  apply (insert_exists_key XBot.post_id String.eqb x_eqb_eq) in H. exact H.
Qed.

Lemma x_mark_seen_mono (t t' : XBot.Table) now post_id u c pa m k :
  XBot.mark_seen t now post_id u c pa m = Some t' ->
  XBot.seen_before t k = true -> XBot.seen_before t' k = true.
Proof.
  unfold XBot.mark_seen, XBot.seen_before.
  destruct (XBot.bindable m && Sql.opt_int_fits pa); [|discriminate]. intros H Hk.
  exact (insert_exists_mono XBot.post_id String.eqb x_eqb_eq _ _ _ _ k H Hk).
Qed.


(** A value outside the signed 64-bit range is refused by [sqlite3] when it
    is bound, on the first call as on a later one. *)
Example mark_seen_refuses_wide_integers :
  Rss.mark_seen [] 100%Q "https://f/rss" "abc" (Some (2 ^ 63)) = None
  /\ XBot.mark_seen [] 100%Q "42" "wildmetaHQ" "gm" None (Py.JInt (2 ^ 63)) = None
  /\ XBot.mark_seen [] 100%Q "42" "wildmetaHQ" "gm" (Some (- 2 ^ 63 - 1)) Py.JNull = None.
Proof. repeat split. Qed.



(* ------------------------------------------------------------------ *)
(** ** The sentiment scorer *)

Lemma fmin_le_l (a x : Q) : (Py.fmin a x <= a)%Q.
Proof.
  unfold Py.fmin. destruct (Qle_bool a x) eqn:H.
  - apply Qle_refl.
  - apply Qlt_le_weak. apply Qnot_le_lt. intros Hle.
    apply Qle_bool_iff in Hle. congruence.
Qed.

Lemma fmax_ge_l (a x : Q) : (a <= Py.fmax a x)%Q.
Proof.
  unfold Py.fmax. destruct (Qle_bool x a) eqn:H.
  - apply Qle_refl.
  - apply Qlt_le_weak. apply Qnot_le_lt. intros Hle.
    apply Qle_bool_iff in Hle. congruence.
Qed.

Lemma fmax_le (a x b : Q) : (a <= b)%Q -> (x <= b)%Q -> (Py.fmax a x <= b)%Q.
Proof. intros Ha Hx. unfold Py.fmax. now destruct (Qle_bool x a). Qed.

Lemma clamp_bounds (x : Q) :
  (- (1) <= Py.fmax (- (1)) (Py.fmin 1 x) <= 1)%Q.
Proof.
  split.
  - apply fmax_ge_l.
  - apply fmax_le; [discriminate | apply fmin_le_l].
Qed.

Lemma score_bounds (c : Q) :
  (- (1) <= c <= 1)%Q -> (0 <= (c + 1) / 2 <= 1)%Q.
Proof.
  intros [H1 H2].
  assert (E : ((c + 1) / 2 == (c + 1) * (1 # 2))%Q) by (unfold Qdiv; reflexivity).
  rewrite E. split; lra.
Qed.

(** C5 (short-text fallback). For a text of fewer than 16 characters
    ([len(text) < 16], whatever the characters are),
    [sentiment_ensemble] calls the lexicon scorer on the stripped text and
    nothing else (neither [load_hf_models] nor one of the two transformer
    pipelines); the label is positive from a compound of 0.3, negative down
    from -0.3, neutral in between, and the score is [(compound + 1) / 2]. *)
Theorem short_text_lexicon_only (E : Rss.Env) (text : string)
  (Hlen : (Py.len text < 16)%nat) :
  let s := fst (Rss.sentiment_ensemble E text) in
  let calls := snd (Rss.sentiment_ensemble E text) in
  calls = [Rss.CallVader (Py.strip text)] /\
  Rss.compound s = Rss.vader_compound E (Py.strip text) /\
  ((3 # 10 <= Rss.compound s)%Q -> Rss.label s = "pos") /\
  ((Rss.compound s <= - (3 # 10))%Q -> Rss.label s = "neg") /\
  ((- (3 # 10) < Rss.compound s < 3 # 10)%Q -> Rss.label s = "neu") /\
  Rss.score s = ((Rss.compound s + 1) / 2)%Q /\
  Rss.s_finbert s = None /\ Rss.s_roberta s = None.
Proof.
  unfold Rss.sentiment_ensemble.
  pose proof (strip_length text) as Hs.
  assert (Hlt : (Py.len (Py.strip text) <? 16)%nat = true)
    by (apply Nat.ltb_lt; lia).
  rewrite Hlt. cbn [fst snd]. unfold Rss.vader_sentiment.
  cbn [Rss.compound Rss.label Rss.score Rss.s_finbert Rss.s_roberta].
  set (comp := Rss.vader_compound E (Py.strip text)).
  repeat split.
  - intros H. apply Qle_bool_iff in H. now rewrite H.
  - intros H.
    destruct (Qle_bool (3 # 10) comp) eqn:Hp.
    + apply Qle_bool_iff in Hp. lra.
    + apply Qle_bool_iff in H. now rewrite H.
  - intros [H1 H2].
    destruct (Qle_bool (3 # 10) comp) eqn:Hp.
    + apply Qle_bool_iff in Hp. lra.
    + destruct (Qle_bool comp (- (3 # 10))) eqn:Hn; [|reflexivity].
      apply Qle_bool_iff in Hn. lra.
Qed.

Lemma short_text_lexicon_only_witness :
  (Py.len "  📈📈📈📈 BTC  " < 16)%nat /\
  snd (Rss.sentiment_ensemble Demo.env "  📈📈📈📈 BTC  ") = [Rss.CallVader "📈📈📈📈 BTC"].
Proof.
  assert (H : (Py.len "  📈📈📈📈 BTC  " < 16)%nat) by (vm_compute; lia).
  split; [exact H|].
  exact (proj1 (short_text_lexicon_only Demo.env "  📈📈📈📈 BTC  " H)).
Defined.

(** C6 (sentiment clamp). Whatever the fused compound and whatever cues the
    text holds, the compound after the two 0.05 adjustments and the clamp is
    in [-1, 1] and the score [(compound + 1) / 2] is in [0, 1]; this is the
    compound and the score of every result of the transformer path. *)
Theorem compound_clamped (lower t : string) (fused : Q) (f r : Rss.HFOut) :
  (- (1) <= Rss.nudge_and_clamp lower fused <= 1)%Q /\
  (0 <= (Rss.nudge_and_clamp lower fused + 1) / 2 <= 1)%Q /\
  (- (1) <= Rss.compound (Rss.hf_sentiment t f r) <= 1)%Q /\
  (0 <= Rss.score (Rss.hf_sentiment t f r) <= 1)%Q.
Proof.
  assert (H : forall l c, (- (1) <= Rss.nudge_and_clamp l c <= 1)%Q).
  { intros l c. unfold Rss.nudge_and_clamp. apply clamp_bounds. }
  unfold Rss.hf_sentiment. cbn [Rss.compound Rss.score].
  repeat apply conj; try apply H; apply score_bounds; apply H.
Qed.

(* ------------------------------------------------------------------ *)
(** ** The classifier *)

(** With [POST_ONLY_ON_STRONG_MATCH] set, [matches_filters] includes an
    item exactly when the Hyperliquid pattern matches, or the macro and the
    crypto patterns both have a match, or one of the two has at least two
    matches; when it does not include the item, the two flags it returns
    tell which pattern has a match. *)
Lemma matches_filters_strict (E : Rss.Env) (cfg : Rss.Config) (title summary body : string) :
  Rss.POST_ONLY_ON_STRONG_MATCH cfg = true ->
  let text := Py.join " " [title; summary; body] in
  let priority := Rss.re_search E Rss.HYPER_REGEX text in
  let macro_hits := List.length (Rss.re_findall E Rss.MACRO_REGEX text) in
  let crypto_hits := List.length (Rss.re_findall E Rss.CRYPTO_REGEX text) in
  exists inc m c,
    Rss.matches_filters E cfg title summary body = (inc, m, c)
    /\ (inc = true <->
        (priority = true
         \/ ((1 <= macro_hits)%nat /\ (1 <= crypto_hits)%nat)
         \/ (2 <= macro_hits)%nat \/ (2 <= crypto_hits)%nat))
    /\ (inc = false -> (m = true <-> (1 <= macro_hits)%nat)
                       /\ (c = true <-> (1 <= crypto_hits)%nat)).
Proof.
  intros Hstrict. unfold Rss.matches_filters. rewrite Hstrict. cbv zeta.
  set (text := Py.join " " [title; summary; body]).
  destruct (Rss.re_search E Rss.HYPER_REGEX text).
  - do 3 eexists. split; [reflexivity|]. split; [split; auto | discriminate].
  - set (m := List.length (Rss.re_findall E Rss.MACRO_REGEX text)).
    set (c := List.length (Rss.re_findall E Rss.CRYPTO_REGEX text)).
    do 3 eexists. split; [reflexivity|]. split.
    + rewrite !orb_true_iff, andb_true_iff, !negb_true_iff, !Nat.eqb_neq, !Nat.leb_le.
      split.
      * intros [[[Hm Hc] | Hm] | Hc]; [right; left; lia | right; right; left; lia | auto].
      * intros [H | [[Hm Hc] | [Hm | Hc]]]; [discriminate | | auto | auto].
        left; left; lia.
    + intros _. rewrite !negb_true_iff, !Nat.eqb_neq. split; lia.
Qed.

(* ------------------------------------------------------------------ *)
(** ** The feed poller: deliveries and the dedup store *)

Import Runs.

Lemma tg_send_loop_quiet text script o rest net :
  Rss.tg_send_loop text script = (o, rest, net) -> forallb quiet net = true.
Proof.
  revert o rest net. induction script as [|p script IH]; intros o rest net; simpl.
  - intros H; inversion H; reflexivity.
  - destruct p as [|r].
    + intros H; inversion H; reflexivity.
    + destruct (negb (status_code r =? 429)%Z).
      * destruct (is_success r); [|intros H; inversion H; reflexivity].
        destruct (body r) as [data|]; [|intros H; inversion H; reflexivity].
        destruct (Py.dict_get data "ok" Py.JNull) as [ok|]; [|intros H; inversion H; reflexivity].
        intros H; inversion H. simpl. now destruct (Py.truthy ok).
      * destruct (Rss.tg_send_loop text script) as [[o' rest'] evs'].
        intros H; inversion H; subst. simpl. eapply IH. reflexivity.
Qed.


Lemma tg_send_quiet cfg text script o rest net :
  Rss.tg_send cfg text script = (o, rest, net) -> forallb quiet net = true.
Proof.
  unfold Rss.tg_send.
  destruct (Py.nonempty (Rss.THREAD_ID cfg)); [|apply tg_send_loop_quiet].
  destruct (Py.int_of_str (Rss.THREAD_ID cfg)); [apply tg_send_loop_quiet|].
  intros H; inversion H; reflexivity.
Qed.

Lemma triple_inv {A B C : Type} (a a' : A) (b b' : B) (c c' : C) :
  (a, b, c) = (a', b', c') -> a = a' /\ b = b' /\ c = c'.
Proof. intros H; inversion H; auto. Qed.

Ltac inv3 := let H := fresh in intros H; apply triple_inv in H; destruct H as (<- & <- & <-).

Lemma process_entry_cases E cfg feed_url feed_title entry w r w' evs :
  Rss.process_entry E cfg feed_url feed_title entry w = (r, w', evs) ->
  let key := Rss.entry_key_of E entry in
  (Rss.seen_before (Rss.db w) feed_url key = true /\ w' = w /\ evs = [])
  \/ (Rss.seen_before (Rss.db w) feed_url key = false /\
      exists pre, forallb quiet pre = true /\
        ((evs = map (Rss.Ev feed_url key) pre /\ Rss.db w' = Rss.db w)
         \/ exists row post,
              evs = map (Rss.Ev feed_url key) (pre ++ Rss.Commit row :: post) /\
              forallb idle post = true /\
              Rss.feed row = feed_url /\ Rss.entry_key row = key /\
              Sql.insert Rss.seen_pk Rss.pk_eqb Sql.OrIgnore row (Rss.db w) = Some (Rss.db w'))).
Proof.
  unfold Rss.process_entry. cbv zeta.
  destruct (Rss.seen_before (Rss.db w) feed_url (Rss.entry_key_of E entry)) eqn:Hseen.
  - inv3. left; auto.
  - intros H. right. split; [reflexivity|]. revert H.
    destruct (Rss.too_old cfg (Rss.clock w) (Rss.to_unix_ts E (Rss.e_published entry))).
    { destruct (Rss.mark_seen _ _ _ _ _) as [db'|] eqn:Hm; inv3.
      - exists []. split; [reflexivity|]. right.
        exists (Rss.Build_SeenRow feed_url (Rss.entry_key_of E entry)
                  (Rss.to_unix_ts E (Rss.e_published entry)) (Qround.Qfloor (Rss.clock w))), [].
        split; [reflexivity|]. split; [reflexivity|]. repeat split. exact (rss_mark_seen_insert _ _ _ _ _ _ Hm).
      - eexists. split. 2:{ left. split; reflexivity. } reflexivity. }
    destruct (Rss.matches_filters _ _ _ _ _) as [[inc m] c].
    match goal with
    | |- (let '(_, _) := ?x in _) = _ -> _ =>
        assert (Hx : exists i t, x = (i, t) /\ forallb quiet t = true)
    end.
    { destruct (negb inc && Rss.POST_ONLY_ON_STRONG_MATCH cfg).
      - destruct (Rss.sentiment_ensemble _ _) as [ts calls]. do 2 eexists. split; reflexivity.
      - do 2 eexists. split; reflexivity. }
    destruct Hx as (include & tmp & -> & Htmp).
    destruct (negb include).
    { destruct (Rss.mark_seen _ _ _ _ _) as [db'|] eqn:Hm; inv3.
      - eexists. split. 2:{ right.
          exists (Rss.Build_SeenRow feed_url (Rss.entry_key_of E entry)
                    (Rss.to_unix_ts E (Rss.e_published entry)) (Qround.Qfloor (Rss.clock w))), [].
          split; [reflexivity|]. split; [reflexivity|]. repeat split. exact (rss_mark_seen_insert _ _ _ _ _ _ Hm). }
        simpl. exact Htmp.
      - eexists. split. 2:{ left. split; reflexivity. }
        rewrite forallb_app. simpl. now rewrite Htmp. }
    destruct (Rss.sentiment_ensemble _ _) as [sent calls].
    destruct (Rss.tg_send _ _ _) as [[o rest] net] eqn:Htg.
    apply tg_send_quiet in Htg.
    destruct o.
    + cbn [Rss.db Rss.clock].
      destruct (Rss.mark_seen _ _ _ _ _) as [db'|] eqn:Hm; inv3.
      * eexists. split. 2:{ right. exists
          {| Rss.feed := feed_url;
             Rss.entry_key := Rss.entry_key_of E entry;
             Rss.published_ts := Rss.to_unix_ts E (Rss.e_published entry);
             Rss.first_seen_ts := Qround.Qfloor (Rss.clock w + Rss.slept net) |}, [Rss.Sleep (6 # 10)].
          split. { rewrite app_assoc. reflexivity. }
          split; [reflexivity|]. repeat split. exact (rss_mark_seen_insert _ _ _ _ _ _ Hm). }
        rewrite !forallb_app. simpl. now rewrite Htmp, Htg.
      * eexists. split. 2:{ left. split; reflexivity. }
        rewrite !forallb_app. simpl. now rewrite Htmp, Htg.
    + inv3.
      eexists. split. 2:{ left. split; reflexivity. }
      rewrite !forallb_app. simpl. now rewrite Htmp, Htg.
    + inv3.
      eexists. split. 2:{ left. split; reflexivity. }
      rewrite !forallb_app. simpl. now rewrite Htmp, Htg.
Qed.

Lemma replay_app evs1 evs2 t : replay (evs1 ++ evs2) t = replay evs2 (replay evs1 t).
Proof. unfold replay. apply fold_left_app. Qed.

Lemma safe_app t evs1 evs2 :
  safe t (evs1 ++ evs2) <-> safe t evs1 /\ safe (replay evs1 t) evs2.
Proof.
  revert t. induction evs1 as [|e evs1 IH]; intros t; simpl.
  - tauto.
  - rewrite IH. unfold replay. simpl. tauto.
Qed.

Lemma replay_quiet f k pre t :
  forallb quiet pre = true -> replay (map (Rss.Ev f k) pre) t = t.
Proof.
  induction pre as [|s pre IH]; simpl; [reflexivity|].
  rewrite andb_true_iff. intros [Hs Hp].
  unfold replay in *. simpl. destruct s; try discriminate; apply IH; exact Hp.
Qed.

Lemma safe_quiet f k pre t :
  Rss.seen_before t f k = false -> forallb quiet pre = true ->
  safe t (map (Rss.Ev f k) pre).
Proof.
  intros Hs. induction pre as [|s pre IH]; simpl; [trivial|].
  rewrite andb_true_iff. intros [Hq Hp].
  destruct s; try discriminate; (split; [trivial | apply IH; exact Hp]).
Qed.

Lemma safe_idle f k post t :
  forallb idle post = true -> safe t (map (Rss.Ev f k) post).
Proof.
  revert t. induction post as [|s post IH]; intros t; simpl; [trivial|].
  rewrite andb_true_iff. intros [Hq Hp].
  destruct s; try discriminate; (split; [trivial | apply IH; exact Hp]).
Qed.

Lemma replay_idle f k post t :
  forallb idle post = true -> replay (map (Rss.Ev f k) post) t = t.
Proof.
  intros H. apply replay_quiet.
  induction post as [|s post IH]; simpl in *; [reflexivity|].
  rewrite andb_true_iff in *. destruct H as [Hs Hp]. split; [|auto].
  unfold idle in Hs. now apply andb_true_iff in Hs.
Qed.

Lemma process_entry_safe E cfg feed_url feed_title entry w r w' evs :
  Rss.process_entry E cfg feed_url feed_title entry w = (r, w', evs) ->
  safe (Rss.db w) evs /\ replay evs (Rss.db w) = Rss.db w'.
Proof.
  intros H. apply process_entry_cases in H. cbv zeta in H.
  destruct H as [(_ & -> & ->) | (Hs & pre & Hpre & [(-> & ->) | (row & post & -> & Hpost & Hf & Hk & Hi)])].
  - split; [exact I | reflexivity].
  - split; [now apply safe_quiet | now apply replay_quiet].
  - rewrite map_app. split.
    + apply safe_app. split; [now apply safe_quiet|].
      rewrite (replay_quiet _ _ pre) by exact Hpre. simpl.
      split; [split; assumption|]. now apply safe_idle.
    + rewrite replay_app. rewrite (replay_quiet _ _ pre) by exact Hpre.
      simpl map. unfold replay at 1. simpl fold_left.
      rewrite Hi. now apply replay_idle.
Qed.

Lemma process_entries_safe E cfg feed_url feed_title entries posted w r w' evs :
  Rss.process_entries E cfg feed_url feed_title entries posted w = (r, w', evs) ->
  safe (Rss.db w) evs /\ replay evs (Rss.db w) = Rss.db w'.
Proof.
  revert posted w r w' evs.
  induction entries as [|e entries IH]; intros posted w r w' evs; simpl.
  - inv3. split; [exact I | reflexivity].
  - destruct (Rss.process_entry E cfg feed_url feed_title e w) as [[p w1] evs1] eqn:He.
    apply process_entry_safe in He. destruct He as [Hs Hr].
    destruct p as [p|].
    + destruct (Rss.process_entries _ _ _ _ _ _ w1) as [[r2 w2] evs2] eqn:Hrest.
      apply IH in Hrest. destruct Hrest as [Hs2 Hr2].
      inv3. split.
      * apply safe_app. rewrite Hr. auto.
      * rewrite replay_app, Hr. exact Hr2.
    + inv3. auto.
Qed.

Lemma process_feed_safe E cfg feed_url fetched w r w' evs :
  Rss.process_feed E cfg feed_url fetched w = (r, w', evs) ->
  safe (Rss.db w) evs /\ replay evs (Rss.db w) = Rss.db w'.
Proof.
  unfold Rss.process_feed. destruct fetched as [parsed|].
  - apply process_entries_safe.
  - inv3. split; [exact I | reflexivity].
Qed.

Lemma run_feeds_safe E cfg calls w fin w' evs :
  Rss.run_feeds E cfg calls w = (fin, w', evs) ->
  safe (Rss.db w) evs /\ replay evs (Rss.db w) = Rss.db w'.
Proof.
  revert w fin w' evs.
  induction calls as [|[feed_url fetched] calls IH]; intros w fin w' evs; simpl.
  - inv3. split; [exact I | reflexivity].
  - destruct (Rss.process_feed E cfg feed_url fetched w) as [[p w1] evs1] eqn:He.
    apply process_feed_safe in He. destruct He as [Hs Hr].
    destruct p as [p|].
    + destruct (Rss.run_feeds E cfg calls w1) as [[r2 w2] evs2] eqn:Hrest.
      apply IH in Hrest. destruct Hrest as [Hs2 Hr2].
      inv3. split.
      * apply safe_app. rewrite Hr. auto.
      * rewrite replay_app, Hr. exact Hr2.
    + inv3. auto.
Qed.

Lemma safe_firstn n t evs : safe t evs -> safe t (firstn n evs).
Proof.
  revert t evs. induction n as [|n IH]; intros t [|e evs]; simpl; try tauto.
  intros [H1 H2]. split; [exact H1 | apply IH, H2].
Qed.

Lemma history_safe E cfg file lives :
  safe (Rss.init_db file) (history E cfg file lives).
Proof.
  revert file. induction lives as [|l lives IH]; intros file; simpl; [exact I|].
  unfold Rss.run_loop.
  destruct (Rss.run_feeds _ _ _ _) as [[fin w'] evs] eqn:Hrun.
  apply run_feeds_safe in Hrun. cbn [Rss.db] in Hrun. destruct Hrun as [Hs _].
  apply safe_app. split.
  - destruct (life_crash l); [apply safe_firstn|]; exact Hs.
  - apply (IH (Some _)).
Qed.

Lemma apply_event_mono t e f k :
  Rss.seen_before t f k = true -> Rss.seen_before (apply_event t e) f k = true.
Proof.
  intros H. destruct e as [f' k' s]. destruct s; simpl; try exact H.
  destruct (Sql.insert _ _ _ _ _) as [t'|] eqn:Hi; [|exact H].
  unfold Rss.seen_before in *.
  exact (insert_exists_mono Rss.seen_pk Rss.pk_eqb pk_eqb_eq _ _ _ _ (f, k) Hi H).
Qed.

Lemma safe_seen_no_post t evs f k text reply :
  safe t evs -> Rss.seen_before t f k = true ->
  ~ In (Rss.Ev f k (Rss.Post text reply)) evs.
Proof.
  revert t. induction evs as [|e evs IH]; intros t Hs Hseen; simpl; [tauto|].
  destruct Hs as [He Hs]. intros [Heq | Hin].
  - subst e. congruence.
  - exact (IH _ Hs (apply_event_mono _ _ _ _ Hseen) Hin).
Qed.

Lemma commit_seen t f k row :
  Rss.feed row = f -> Rss.entry_key row = k ->
  Rss.seen_before (apply_event t (Rss.Ev f k (Rss.Commit row))) f k = true.
Proof.
  intros Hf Hk. simpl.
  destruct (Sql.insert _ _ _ _ _) as [t'|] eqn:Hi.
  - pose proof (insert_exists_key Rss.seen_pk Rss.pk_eqb pk_eqb_eq _ _ _ _ Hi) as H.
    unfold Rss.seen_before. unfold Rss.seen_pk in H at 2. now rewrite Hf, Hk in H.
  - unfold Sql.insert in Hi. destruct (Sql.exists_key _ _ _ _); discriminate.
Qed.

(** C1 (restart without redelivery). Take any succession of lives of the
    feed task, each one started by the manager on the database file the
    previous one left ([init_db] keeps an existing table) and each one
    possibly cut by a crash after any number of its events. Once the row of
    an item [(f, k)] has been committed, no POST for [(f, k)] follows in the
    history: [seen_before] is checked before any delivery and [mark_seen]
    never removes a row. *)
Theorem no_redelivery_after_commit (E : Rss.Env) (cfg : Rss.Config)
  (file : option Rss.Table) (lives : list Life)
  (a b : list Rss.Event) (f k : string) (row : Rss.SeenRow)
  (H : history E cfg file lives = (a ++ Rss.Ev f k (Rss.Commit row) :: b)%list) :
  forall text reply, ~ In (Rss.Ev f k (Rss.Post text reply)) b.
Proof.
  intros text reply.
  pose proof (history_safe E cfg file lives) as Hs. rewrite H in Hs.
  apply safe_app in Hs. destruct Hs as [_ Hs]. simpl in Hs.
  destruct Hs as [[Hf Hk] Hs].
  eapply safe_seen_no_post; [exact Hs|].
  now apply commit_seen.
Qed.


Lemma no_redelivery_after_commit_witness :
  history Demo.env (Demo.cfg false) None Demo.two_lives
  = (firstn 5 (history Demo.env (Demo.cfg false) None Demo.two_lives)
     ++ Rss.Ev Demo.feed_url "abc" (Rss.Commit Demo.row_abc)
     :: skipn 6 (history Demo.env (Demo.cfg false) None Demo.two_lives))%list
  /\ (forall text reply,
        ~ In (Rss.Ev Demo.feed_url "abc" (Rss.Post text reply))
             (skipn 6 (history Demo.env (Demo.cfg false) None Demo.two_lives)))
  /\ count_stage is_post Demo.feed_url "xyz"
        (skipn 6 (history Demo.env (Demo.cfg false) None Demo.two_lives)) = 1%nat.
Proof.
  assert (H : history Demo.env (Demo.cfg false) None Demo.two_lives
              = (firstn 5 (history Demo.env (Demo.cfg false) None Demo.two_lives)
                 ++ Rss.Ev Demo.feed_url "abc" (Rss.Commit Demo.row_abc)
                 :: skipn 6 (history Demo.env (Demo.cfg false) None Demo.two_lives))%list)
    by (vm_compute; reflexivity).
  split; [exact H|]. split.
  - exact (no_redelivery_after_commit Demo.env (Demo.cfg false) None Demo.two_lives
             _ _ Demo.feed_url "abc" Demo.row_abc H).
  - vm_compute. reflexivity.
Defined.

(* ------------------------------------------------------------------ *)
(** ** The outbound channel of the feed bot *)

Lemma tg_send_loop_floods text floods ok data okv rest :
  (forall r, In r floods -> status_code r = 429) ->
  is_success ok = true -> body ok = Some data ->
  Py.dict_get data "ok" Py.JNull = Some okv ->
  Rss.tg_send_loop text (map PostReply floods ++ PostReply ok :: rest) =
    (Ret Py.JNull, rest,
     Runs.flood_stages text floods
     ++ Rss.Post text (PostReply ok) :: (if Py.truthy okv then [] else [Rss.Warn])).
Proof.
  intros Hfl Hok Hb Hd.
  induction floods as [|r floods IH]; simpl.
  - assert (H429 : (status_code ok =? 429) = false).
    { unfold is_success in Hok. apply andb_true_iff in Hok. destruct Hok as [_ H].
      apply Z.leb_le in H. apply Z.eqb_neq. lia. }
    rewrite H429, Hok, Hb, Hd. reflexivity.
  - rewrite (Hfl r (or_introl eq_refl)). simpl.
    rewrite IH; [reflexivity|]. intros r' Hr'. apply Hfl. now right.
Qed.

Lemma count_stage_map p f k stages :
  count_stage p f k (map (Rss.Ev f k) stages) = List.length (filter p stages).
Proof.
  unfold count_stage. induction stages as [|s stages IH]; simpl; [reflexivity|].
  rewrite !String.eqb_refl. simpl. destruct (p s); simpl; now rewrite IH.
Qed.

Lemma filter_none {A : Type} (p q : A -> bool) (l : list A) :
  forallb q l = true -> (forall x, q x = true -> p x = false) -> filter p l = [].
Proof.
  intros Hq Hpq. induction l as [|x l IH]; simpl in *; [reflexivity|].
  apply andb_true_iff in Hq. destruct Hq as [Hx Hl].
  rewrite (Hpq x Hx). auto.
Qed.

Lemma tg_send_loop_net text script o rest net :
  Rss.tg_send_loop text script = (o, rest, net) -> forallb net_stage net = true.
Proof.
  revert o rest net. induction script as [|p script IH]; intros o rest net; simpl.
  - inv3. reflexivity.
  - destruct p as [|r]; [inv3; reflexivity|].
    destruct (negb (status_code r =? 429)).
    + destruct (is_success r); [|inv3; reflexivity].
      destruct (body r) as [data|]; [|inv3; reflexivity].
      destruct (Py.dict_get data "ok" Py.JNull) as [ok|]; [|inv3; reflexivity].
      inv3. simpl. now destruct (Py.truthy ok).
    + destruct (Rss.tg_send_loop text script) as [[o' rest'] evs'].
      inv3. simpl. eapply IH. reflexivity.
Qed.

Lemma tg_send_net cfg text script o rest net :
  Rss.tg_send cfg text script = (o, rest, net) -> forallb net_stage net = true.
Proof.
  unfold Rss.tg_send.
  destruct (Py.nonempty (Rss.THREAD_ID cfg)); [|apply tg_send_loop_net].
  destruct (Py.int_of_str (Rss.THREAD_ID cfg)); [apply tg_send_loop_net|].
  inv3. reflexivity.
Qed.

(** When [tg_send] returns, whatever the text, an iteration of the loop of
    [process_feed] ends with the item in the table, after one enrichment at
    most. *)
Lemma process_entry_one_pass E cfg feed_url feed_title entry w :
  (forall text, exists rest net, Rss.tg_send cfg text (Rss.tg w) = (Ret Py.JNull, rest, net)) ->
  exists p w' evs,
    Rss.process_entry E cfg feed_url feed_title entry w = (Some p, w', evs) /\
    Rss.seen_before (Rss.db w') feed_url (Rss.entry_key_of E entry) = true /\
    (count_stage is_enrich feed_url (Rss.entry_key_of E entry) evs <= 1)%nat.
Proof.
  intros Hsend. unfold Rss.process_entry. cbv zeta.
  destruct (Rss.seen_before (Rss.db w) feed_url (Rss.entry_key_of E entry)) eqn:Hseen.
  { do 3 eexists. split; [reflexivity|]. split; [exact Hseen|].
    unfold count_stage. simpl. lia. }
  destruct (Rss.too_old cfg (Rss.clock w) (Rss.to_unix_ts E (Rss.e_published entry))).
  { destruct (rss_mark_seen_total (Rss.db w) (Rss.clock w) feed_url
                (Rss.entry_key_of E entry) (Rss.to_unix_ts E (Rss.e_published entry))
                (to_unix_ts_fits E _))
      as [db' Hm].
    rewrite Hm. do 3 eexists. split; [reflexivity|]. split.
    - cbn [Rss.db]. eapply rss_mark_seen_seen, Hm.
    - rewrite count_stage_map. simpl. lia. }
  destruct (Rss.matches_filters _ _ _ _ _) as [[inc m] c].
  match goal with
  | |- exists _ _ _, (let '(_, _) := ?x in _) = _ /\ _ =>
      assert (Hx : exists i t, x = (i, t) /\ filter is_enrich t = [])
  end.
  { destruct (negb inc && Rss.POST_ONLY_ON_STRONG_MATCH cfg).
    - destruct (Rss.sentiment_ensemble _ _) as [ts calls]. do 2 eexists. split; reflexivity.
    - do 2 eexists. split; reflexivity. }
  destruct Hx as (include & tmp & -> & Htmp).
  destruct (negb include).
  { destruct (rss_mark_seen_total (Rss.db w) (Rss.clock w) feed_url
                (Rss.entry_key_of E entry) (Rss.to_unix_ts E (Rss.e_published entry))
                (to_unix_ts_fits E _))
      as [db' Hm].
    rewrite Hm. do 3 eexists. split; [reflexivity|]. split.
    - cbn [Rss.db]. eapply rss_mark_seen_seen, Hm.
    - rewrite count_stage_map, !filter_app, Htmp. simpl. lia. }
  destruct (Rss.sentiment_ensemble _ _) as [sent calls].
  match goal with
  | |- context [Rss.tg_send cfg ?msg (Rss.tg w)] =>
      destruct (Hsend msg) as (rest & net & Htg); rewrite Htg
  end.
  cbn [Rss.db Rss.clock].
  destruct (rss_mark_seen_total (Rss.db w) (Rss.clock w + Rss.slept net)%Q feed_url
              (Rss.entry_key_of E entry) (Rss.to_unix_ts E (Rss.e_published entry))
                (to_unix_ts_fits E _))
    as [db' Hm].
  rewrite Hm. do 3 eexists. split; [reflexivity|]. split.
  - cbn [Rss.db]. eapply rss_mark_seen_seen, Hm.
  - rewrite count_stage_map, !filter_app, Htmp.
    rewrite (filter_none is_enrich net_stage net (tg_send_net _ _ _ _ _ _ Htg)).
    + simpl. lia.
    + now intros [].
Qed.

(** C4 (strict policy), as the code has it. With
    [POST_ONLY_ON_STRONG_MATCH] set, the classifier [matches_filters]
    includes an item exactly when the Hyperliquid pattern matches, or the
    macro and the crypto patterns both have a match, or one of the two has
    at least two matches. [process_feed] then lets one more kind of item
    through: an item the classifier left out, in which one of the two
    patterns has a match, and whose sentiment score on the first 1200
    characters of title, summary and body is at least 0.8 or at most 0.2.
    So a message is formatted for an item that is new and not too old
    exactly when one of these four conditions holds. *)
Theorem strict_include_iff (E : Rss.Env) (cfg : Rss.Config) (feed_url feed_title : string)
  (entry : Rss.Entry) (w : Rss.World)
  (Hstrict : Rss.POST_ONLY_ON_STRONG_MATCH cfg = true)
  (Hnew : Rss.seen_before (Rss.db w) feed_url (Rss.entry_key_of E entry) = false)
  (Hage : Rss.too_old cfg (Rss.clock w) (Rss.to_unix_ts E (Rss.e_published entry)) = false) :
  let hits := fun (pattern title summary body : string) =>
    List.length (Rss.re_findall E pattern (Py.join " " [title; summary; body])) in
  let strong := fun (title summary body : string) =>
    Rss.re_search E Rss.HYPER_REGEX (Py.join " " [title; summary; body]) = true
    \/ ((1 <= hits Rss.MACRO_REGEX title summary body)%nat
        /\ (1 <= hits Rss.CRYPTO_REGEX title summary body)%nat)
    \/ (2 <= hits Rss.MACRO_REGEX title summary body)%nat
    \/ (2 <= hits Rss.CRYPTO_REGEX title summary body)%nat in
  let title := Rss.e_title entry in
  let summary := Rss.first_nonempty [Rss.e_summary entry; Rss.e_description entry] in
  let body := match Rss.extract_fulltext E (Rss.fetch_text E (Rss.e_link entry))
                      (Rss.e_link entry) with
              | Some b => b
              | None => ""
              end in
  let tmp_score :=
    Rss.score (fst (Rss.sentiment_ensemble E
                      (Py.take 1200 (title ++ Py.nl ++ summary ++ Py.nl ++ body)))) in
  let one_family_extreme :=
    ((1 <= hits Rss.MACRO_REGEX title summary body)%nat
     \/ (1 <= hits Rss.CRYPTO_REGEX title summary body)%nat)
    /\ ((8 # 10 <= tmp_score)%Q \/ (tmp_score <= 2 # 10)%Q) in
  (forall t s b, fst (fst (Rss.matches_filters E cfg t s b)) = true <-> strong t s b)
  /\ ((1 <= count_stage is_format feed_url (Rss.entry_key_of E entry)
              (snd (Rss.process_entry E cfg feed_url feed_title entry w)))%nat
      <-> strong title summary body \/ one_family_extreme).
Proof.
  intros hits strong title summary body tmp_score one_family_extreme.
  split.
  { intros t s b.
    destruct (matches_filters_strict E cfg t s b Hstrict) as (inc & m & c & Hmf & Hinc & _).
    rewrite Hmf. exact Hinc. }
  destruct (matches_filters_strict E cfg title summary body Hstrict)
    as (inc & m & c & Hmf & Hinc & Hflags).
  cbv zeta in Hinc, Hflags.
  change (inc = true <-> strong title summary body) in Hinc.
  change (inc = false ->
          (m = true <-> (1 <= hits Rss.MACRO_REGEX title summary body)%nat)
          /\ (c = true <-> (1 <= hits Rss.CRYPTO_REGEX title summary body)%nat)) in Hflags.
  unfold Rss.process_entry. cbv zeta. rewrite Hnew, Hage.
  fold title summary body. rewrite Hmf, Hstrict.
  destruct inc; cbn [negb andb].
  - (* the classifier includes the item *)
    clearbody tmp_score.
    destruct (Rss.sentiment_ensemble _ _) as [sent calls].
    destruct (Rss.tg_send _ _ _) as [[o rest] net].
    split; [intros _; left; now apply Hinc|]. intros _.
    destruct o; [destruct (Rss.mark_seen _ _ _ _ _)| |]; cbn [snd];
      rewrite count_stage_map, !filter_app, !length_app; simpl; lia.
  - (* the classifier leaves it out: the sentiment of the first 1200 characters *)
    destruct (Hflags eq_refl) as [Hm Hc].
    unfold one_family_extreme, tmp_score.
    destruct (Rss.sentiment_ensemble E (Py.take 1200 _)) as [ts tcalls].
    cbn [fst].
    assert (Hover :
      ((m || c) && (Qle_bool (8 # 10) (Rss.score ts) || Qle_bool (Rss.score ts) (2 # 10)))
      = true <->
      ((1 <= hits Rss.MACRO_REGEX title summary body)%nat
       \/ (1 <= hits Rss.CRYPTO_REGEX title summary body)%nat)
      /\ ((8 # 10 <= Rss.score ts)%Q \/ (Rss.score ts <= 2 # 10)%Q)).
    { rewrite andb_true_iff, !orb_true_iff, !Qle_bool_iff, Hm, Hc. reflexivity. }
    destruct ((m || c) && (Qle_bool (8 # 10) (Rss.score ts)
                           || Qle_bool (Rss.score ts) (2 # 10))); cbn [negb].
    + destruct (Rss.sentiment_ensemble _ _) as [sent calls].
      destruct (Rss.tg_send _ _ _) as [[o rest] net].
      split; [intros _; right; now apply Hover|]. intros _.
      destruct o; [destruct (Rss.mark_seen _ _ _ _ _)| |]; cbn [snd];
        rewrite count_stage_map, !filter_app, !length_app; simpl; lia.
    + split.
      * destruct (Rss.mark_seen _ _ _ _ _); cbn [snd];
          rewrite count_stage_map, !filter_app, !length_app; simpl; lia.
      * intros [Hs | Ho]; [apply Hinc in Hs; discriminate | apply Hover in Ho; discriminate].
Qed.

Lemma strict_include_iff_witness :
  Rss.POST_ONLY_ON_STRONG_MATCH (Demo.cfg true) = true
  /\ Rss.seen_before (Rss.db Demo2.world_ok) Demo.feed_url
       (Rss.entry_key_of Demo.env Demo.item_abc) = false
  /\ Rss.too_old (Demo.cfg true) (Rss.clock Demo2.world_ok)
       (Rss.to_unix_ts Demo.env (Rss.e_published Demo.item_abc)) = false
  /\ fst (fst (Rss.matches_filters Demo.env (Demo.cfg true)
                 "Fed signals rate hike as CPI data rises" "" "")) = true
  /\ (1 <= count_stage is_format Demo.feed_url (Rss.entry_key_of Demo.env Demo.item_abc)
             (snd (Rss.process_entry Demo.env (Demo.cfg true) Demo.feed_url "F"
                     Demo.item_abc Demo2.world_ok)))%nat.
Proof.
  assert (H1 : Rss.POST_ONLY_ON_STRONG_MATCH (Demo.cfg true) = true) by reflexivity.
  assert (H2 : Rss.seen_before (Rss.db Demo2.world_ok) Demo.feed_url
                 (Rss.entry_key_of Demo.env Demo.item_abc) = false) by reflexivity.
  assert (H3 : Rss.too_old (Demo.cfg true) (Rss.clock Demo2.world_ok)
                 (Rss.to_unix_ts Demo.env (Rss.e_published Demo.item_abc)) = false)
    by reflexivity.
  split; [exact H1|]. split; [exact H2|]. split; [exact H3|].
  destruct (strict_include_iff Demo.env (Demo.cfg true) Demo.feed_url "F" Demo.item_abc
              Demo2.world_ok H1 H2 H3) as [Hc Hp].
  assert (Hs : (2 <= List.length
                      (Rss.re_findall Demo.env Rss.MACRO_REGEX
                         (Py.join " " ["Fed signals rate hike as CPI data rises"; ""; ""])))%nat)
    by (vm_compute; lia).
  split.
  - apply (Hc "Fed signals rate hike as CPI data rises" "" ""). right; right; left. exact Hs.
  - apply Hp. left. right; right; left. exact Hs.
Defined.

(** C4, where the claim departs from the code. In strict mode the title
    [Bitcoin jumps to a record high on strong demand] has one crypto match
    ([bitcoin]), no macro match and no Hyperliquid match: none of the three
    conditions of the claim holds and [matches_filters] returns
    [(False, False, True)]. Both models find the text positive, the fused
    compound is 1 and the score 1, so [process_feed] sets [include] and the
    item is formatted, POSTed and committed. *)
Lemma strict_one_hit_item_is_posted :
  Rss.POST_ONLY_ON_STRONG_MATCH (Demo.cfg true) = true
  /\ Rss.matches_filters Demo2.env_positive (Demo.cfg true) Demo2.btc_title "" ""
     = (false, false, true)
  /\ Rss.re_search Demo2.env_positive Rss.HYPER_REGEX
       (Py.join " " [Demo2.btc_title; ""; ""]) = false
  /\ Rss.re_findall Demo2.env_positive Rss.MACRO_REGEX
       (Py.join " " [Demo2.btc_title; ""; ""]) = []
  /\ Rss.re_findall Demo2.env_positive Rss.CRYPTO_REGEX
       (Py.join " " [Demo2.btc_title; ""; ""]) = ["bitcoin"]
  /\ (Rss.score (fst (Rss.sentiment_ensemble Demo2.env_positive
                        (Py.take 1200 (Demo2.btc_title ++ Py.nl ++ "" ++ Py.nl ++ ""))))
      == 1)%Q
  /\ exists w' evs,
       Rss.process_entry Demo2.env_positive (Demo.cfg true) Demo.feed_url "F"
         Demo2.item_btc Demo2.world_ok = (Some true, w', evs)
       /\ count_stage is_format Demo.feed_url "btc" evs = 1%nat
       /\ count_stage is_post Demo.feed_url "btc" evs = 1%nat
       /\ count_stage is_commit Demo.feed_url "btc" evs = 1%nat
       /\ Rss.seen_before (Rss.db w') Demo.feed_url "btc" = true.
Proof.
  split; [reflexivity|]. split; [reflexivity|]. split; [reflexivity|].
  split; [reflexivity|]. split; [reflexivity|]. split; [vm_compute; reflexivity|].
  do 2 eexists. split; [vm_compute; reflexivity|].
  repeat split.
Qed.

Lemma tg_send_floods cfg text floods ok data okv rest :
  thread_id_ok cfg = true ->
  forallb (fun r => status_code r =? 429) floods = true ->
  is_success ok = true -> body ok = Some data ->
  Py.dict_get data "ok" Py.JNull = Some okv ->
  Rss.tg_send cfg text (map PostReply floods ++ PostReply ok :: rest) =
    (Ret Py.JNull, rest,
     flood_stages text floods
     ++ Rss.Post text (PostReply ok) :: (if Py.truthy okv then [] else [Rss.Warn])).
Proof.
  intros Hcfg Hfl Hok Hb Hd.
  assert (Hloop := tg_send_loop_floods text floods ok data okv rest).
  rewrite forallb_forall in Hfl.
  assert (Hfl' : forall r, In r floods -> status_code r = 429).
  { intros r Hr. apply Z.eqb_eq. now apply Hfl. }
  specialize (Hloop Hfl' Hok Hb Hd).
  unfold Rss.tg_send, thread_id_ok in *.
  destruct (Py.nonempty (Rss.THREAD_ID cfg)); [|exact Hloop].
  destruct (Py.int_of_str (Rss.THREAD_ID cfg)); [exact Hloop | discriminate].
Qed.

(** The wait read from a 429 response: the header when it is an integer,
    else the field [parameters.retry_after] of the body, and 3 when the
    value found does not convert or when there is none. *)
Lemma retry_after_of_spec (r : Response) :
  (forall s, retry_after_header r = Some s -> Py.nonempty s = true ->
             Rss.retry_after_of r
             = match Py.int_of_str s with Some z => z | None => 3 end)
  /\ (retry_after_header r = None \/ retry_after_header r = Some "" ->
      body r = None -> Rss.retry_after_of r = 3)
  /\ (retry_after_header r = None \/ retry_after_header r = Some "" ->
      forall fields, body r = Some (Py.JObj fields) ->
      Py.assoc "parameters" (rev fields) = None -> Rss.retry_after_of r = 3)
  /\ (retry_after_header r = None \/ retry_after_header r = Some "" ->
      forall fields ps, body r = Some (Py.JObj fields) ->
      Py.assoc "parameters" (rev fields) = Some (Py.JObj ps) ->
      Rss.retry_after_of r
      = match Py.assoc "retry_after" (rev ps) with
        | Some v => match Py.int_of v with Some z => z | None => 3 end
        | None => 3
        end).
Proof.
  unfold Rss.retry_after_of. repeat split.
  - intros s -> ->. reflexivity.
  - intros [-> | ->] ->; reflexivity.
  - intros [-> | ->] fields -> Hp; simpl; rewrite Hp; reflexivity.
  - intros [-> | ->] fields ps -> Hp; simpl; rewrite Hp; simpl;
      destruct (Py.assoc "retry_after" (rev ps)); reflexivity.
Qed.

(** C7, as the code has it. When the endpoint answers 429 to the first N
    POSTs and then accepts the message, [tg_send] makes N + 1 POSTs, sleeps
    after each 429 for the wait read from that reply ([Retry-After], else
    [parameters.retry_after], else 3 seconds), and returns to its caller
    without raising; what it returns is [None], not a delivery id. Its
    caller then ends the iteration with the item committed, having
    enriched it once at most: the item is not taken again from the start. *)
Theorem rate_limit_resilience (E : Rss.Env) (cfg : Rss.Config) (text : string)
  (floods : list Response) (ok : Response) (data okv : Py.json) (rest : list PostResult)
  (Hcfg : thread_id_ok cfg = true)
  (Hfl : forallb (fun r => status_code r =? 429) floods = true)
  (Hok : is_success ok = true)
  (Hb : body ok = Some data)
  (Hd : Py.dict_get data "ok" Py.JNull = Some okv) :
  Rss.tg_send cfg text (map PostReply floods ++ PostReply ok :: rest) =
    (Ret Py.JNull, rest,
     flood_stages text floods
     ++ Rss.Post text (PostReply ok) :: (if Py.truthy okv then [] else [Rss.Warn]))
  /\ (forall r s, retry_after_header r = Some s -> Py.nonempty s = true ->
        Rss.retry_after_of r = match Py.int_of_str s with Some z => z | None => 3 end)
  /\ (forall r, retry_after_header r = None -> body r = None -> Rss.retry_after_of r = 3)
  /\ (forall feed_url feed_title entry w,
        Rss.tg w = map PostReply floods ++ PostReply ok :: rest ->
        exists p w' evs,
          Rss.process_entry E cfg feed_url feed_title entry w = (Some p, w', evs) /\
          Rss.seen_before (Rss.db w') feed_url (Rss.entry_key_of E entry) = true /\
          (count_stage is_enrich feed_url (Rss.entry_key_of E entry) evs <= 1)%nat).
Proof.
  split; [eapply tg_send_floods; eassumption|].
  split; [intros r s; apply (retry_after_of_spec r)|].
  split; [intros r Hh; apply (retry_after_of_spec r); now left|].
  intros feed_url feed_title entry w Hw.
  apply process_entry_one_pass. intros msg. rewrite Hw.
  do 2 eexists. eapply tg_send_floods; eassumption.
Qed.

Lemma rate_limit_resilience_witness :
  thread_id_ok (Demo.cfg false) = true /\
  forallb (fun r => status_code r =? 429) Demo.floods = true /\
  is_success (Demo.ok_response 4242) = true /\
  body (Demo.ok_response 4242) = Some (Demo.ok_body 4242) /\
  Py.dict_get (Demo.ok_body 4242) "ok" Py.JNull = Some (Py.JBool true) /\
  Rss.tg_send (Demo.cfg false) "hello"
    (map PostReply Demo.floods ++ PostReply (Demo.ok_response 4242) :: []) =
    (Ret Py.JNull, [],
     flood_stages "hello" Demo.floods
     ++ Rss.Post "hello" (PostReply (Demo.ok_response 4242)) :: []).
Proof.
  assert (H1 : thread_id_ok (Demo.cfg false) = true) by reflexivity.
  assert (H2 : forallb (fun r => status_code r =? 429) Demo.floods = true) by reflexivity.
  assert (H3 : is_success (Demo.ok_response 4242) = true) by reflexivity.
  assert (H4 : body (Demo.ok_response 4242) = Some (Demo.ok_body 4242)) by reflexivity.
  assert (H5 : Py.dict_get (Demo.ok_body 4242) "ok" Py.JNull = Some (Py.JBool true))
    by reflexivity.
  repeat (split; [assumption|]).
  exact (proj1 (rate_limit_resilience Demo.env (Demo.cfg false) "hello" Demo.floods
                  (Demo.ok_response 4242) (Demo.ok_body 4242) (Py.JBool true) []
                  H1 H2 H3 H4 H5)).
Defined.

(** The waits of the example: 2 from the header, 7 from the body, and the
    default 3 for the reply that gives none and for the header that is not
    a number. *)
Example flood_waits :
  map Rss.retry_after_of Demo.floods = [2; 7; 3; 3].
Proof. reflexivity. Qed.

(** C7 as stated does not hold: after one 429 the endpoint accepts the
    message and answers with [message_id] 4242; [tg_send] returns [None],
    and no delivery id. *)
Lemma tg_send_returns_no_delivery_id :
  fst (fst (Rss.tg_send (Demo.cfg false) "hello"
              [PostReply (Demo.flood_header "2"); Demo.ok_reply 4242])) = Ret Py.JNull
  /\ ~ (exists id : Z,
          fst (fst (Rss.tg_send (Demo.cfg false) "hello"
                      [PostReply (Demo.flood_header "2"); Demo.ok_reply 4242]))
          = Ret (Py.JInt id)).
Proof.
  split; [reflexivity|]. intros [id H]. vm_compute in H. discriminate H.
Qed.

(* ------------------------------------------------------------------ *)
(** ** The age ceiling *)

(** An item that is not in the table, with a publication time other than 0
    that the ceiling makes too old, is committed and nothing else: no
    enrichment, no message formatted, no POST. *)
Lemma too_old_item_only_committed E cfg feed_url feed_title entry w ts :
  Rss.seen_before (Rss.db w) feed_url (Rss.entry_key_of E entry) = false ->
  Rss.to_unix_ts E (Rss.e_published entry) = Some ts ->
  ts <> 0 ->
  (inject_Z (Rss.MAX_AGE_DAYS cfg * 86400) < Rss.clock w - inject_Z ts)%Q ->
  exists db',
    Rss.process_entry E cfg feed_url feed_title entry w
    = (Some false,
       {| Rss.db := db'; Rss.tg := Rss.tg w; Rss.clock := Rss.clock w |},
       [Rss.Ev feed_url (Rss.entry_key_of E entry)
          (Rss.Commit {| Rss.feed := feed_url;
                         Rss.entry_key := Rss.entry_key_of E entry;
                         Rss.published_ts := Some ts;
                         Rss.first_seen_ts := Qfloor (Rss.clock w) |})])
    /\ Rss.seen_before db' feed_url (Rss.entry_key_of E entry) = true.
Proof.
  intros Hseen Hts Hnz Hold.
  unfold Rss.process_entry. cbv zeta. rewrite Hseen, Hts.
  assert (Ht : Rss.too_old cfg (Rss.clock w) (Some ts) = true).
  { unfold Rss.too_old. apply Z.eqb_neq in Hnz. rewrite Hnz.
    apply negb_true_iff.
    destruct (Qle_bool (Rss.clock w - inject_Z ts)
                       (inject_Z (Rss.MAX_AGE_DAYS cfg * 86400))) eqn:Hle; [|reflexivity].
    apply Qle_bool_iff in Hle. exfalso. exact (Qlt_not_le _ _ Hold Hle). }
  rewrite Ht.
  pose proof (to_unix_ts_fits E (Rss.e_published entry)) as Hfit. rewrite Hts in Hfit.
  destruct (rss_mark_seen_total (Rss.db w) (Rss.clock w) feed_url
              (Rss.entry_key_of E entry) (Some ts) Hfit) as [db' Hm].
  rewrite Hm. exists db'. split; [reflexivity|].
  eapply rss_mark_seen_seen, Hm.
Qed.

(** C3, where the code departs from it. [too_old] answers [False] for the
    publication time 0 (1 January 1970, 00:00 UTC) whatever the ceiling and
    the clock, because [if not pub_ts] takes 0 for a missing date. On 4
    November 2025, with a ceiling of 2 days, an item dated to the epoch is
    therefore formatted and posted. *)
Theorem epoch_zero_item_is_delivered :
  (forall cfg now, Rss.too_old cfg now (Some 0) = false)
  /\ Rss.to_unix_ts Demo.env "Thu, 01 Jan 1970 00:00:00 GMT" = Some 0
  /\ (inject_Z (Rss.MAX_AGE_DAYS (Demo.cfg false) * 86400) < Demo.now - inject_Z 0)%Q
  /\ count_stage is_format Demo.feed_url "old"
       (snd (Rss.process_feed Demo.env (Demo.cfg false) Demo.feed_url Demo.feed_epoch
               {| Rss.db := []; Rss.tg := [Demo.ok_reply 1]; Rss.clock := Demo.now |}))
     = 1%nat
  /\ count_stage is_post Demo.feed_url "old"
       (snd (Rss.process_feed Demo.env (Demo.cfg false) Demo.feed_url Demo.feed_epoch
               {| Rss.db := []; Rss.tg := [Demo.ok_reply 1]; Rss.clock := Demo.now |}))
     = 1%nat.
Proof.
  split; [reflexivity|]. split; [reflexivity|].
  split; [vm_compute; reflexivity|].
  split; vm_compute; reflexivity.
Qed.

(** The same feed with the date 1 January 2000: the item is committed
    without being formatted or posted. *)
Example year_2000_item_is_skipped :
  snd (Rss.process_feed Demo.env (Demo.cfg false) Demo.feed_url Demo.feed_2000
         {| Rss.db := []; Rss.tg := [Demo.ok_reply 1]; Rss.clock := Demo.now |})
  = [Rss.Ev Demo.feed_url "old"
       (Rss.Commit {| Rss.feed := Demo.feed_url; Rss.entry_key := "old";
                      Rss.published_ts := Some 946684800;
                      Rss.first_seen_ts := 1762214400 |})].
Proof. vm_compute. reflexivity. Qed.

(* ------------------------------------------------------------------ *)
(** ** The X bot: bounded retries and the dedup store *)

Lemma attempt_no_post rc p :
  match XBot.attempt rc p with
  | XBot.Returns _ evs | XBot.Retries evs => filter XRuns.is_post evs = []
  end.
Proof.
  assert (Hb : forall n, filter XRuns.is_post (XBot.backoff n) = []).
  { intros n. unfold XBot.backoff. now destruct (S n <? XBot.max_retries)%nat. }
  unfold XBot.attempt. destruct p as [|r]; [apply Hb|].
  destruct (status_code r =? 429).
  { destruct (XBot.sleep_delay _); [reflexivity | apply Hb]. }
  destruct (negb (is_success r)); [apply Hb|].
  destruct (body r) as [data|]; [|apply Hb].
  destruct (Py.dict_get data "ok" Py.JNull) as [ok|]; [|apply Hb].
  destruct (Py.truthy ok); [|reflexivity].
  destruct (Py.dict_get data "result" _) as [result|]; [|apply Hb].
  destruct (Py.dict_get result "message_id" _); [reflexivity | apply Hb].
Qed.

Lemma attempt_failing rc p :
  XRuns.failing p = true -> exists evs, XBot.attempt rc p = XBot.Retries evs.
Proof.
  destruct p as [|r]; simpl; [eauto|].
  intros H. apply orb_true_iff in H.
  destruct (status_code r =? 429).
  - destruct (XBot.sleep_delay _); eauto.
  - destruct H as [H | H]; [discriminate|]. rewrite H. eauto.
Qed.

Lemma loop_bound text script rc o rest net :
  XBot.tg_send_message_loop text rc script = (o, rest, net) ->
  (rc <= XBot.max_retries ->
   List.length (filter XRuns.is_post net) + rc <= XBot.max_retries)%nat
  /\ o <> Raised.
Proof.
  revert rc o rest net. induction script as [|p script IH]; intros rc o rest net; simpl.
  - destruct (rc <? XBot.max_retries)%nat; inv3; (split; [simpl; lia | discriminate]).
  - destruct (rc <? XBot.max_retries)%nat eqn:Hrc.
    + apply Nat.ltb_lt in Hrc.
      pose proof (attempt_no_post rc p) as Hnp.
      destruct (XBot.attempt rc p) as [v evs | evs].
      * inv3. simpl. rewrite Hnp. split; [simpl; lia | discriminate].
      * destruct (XBot.tg_send_message_loop text (S rc) script) as [[o' rest'] evs'] eqn:Hl.
        apply IH in Hl. destruct Hl as [Hl Ho].
        inv3. simpl. rewrite filter_app, Hnp. split; [simpl; lia | exact Ho].
    + inv3. split; [simpl; lia | discriminate].
Qed.

Lemma loop_all_failing text fs rest rc :
  forallb XRuns.failing fs = true ->
  (List.length fs + rc = XBot.max_retries)%nat ->
  exists net,
    XBot.tg_send_message_loop text rc (fs ++ rest) = (Ret Py.JNull, rest, net)
    /\ List.length (filter XRuns.is_post net) = List.length fs.
Proof.
  revert rc. induction fs as [|p fs IH]; intros rc Hf Hlen; simpl in *.
  - assert (Hrc : (rc <? XBot.max_retries)%nat = false) by (apply Nat.ltb_ge; lia).
    destruct rest; simpl; rewrite Hrc; eexists; split; reflexivity.
  - apply andb_true_iff in Hf. destruct Hf as [Hp Hf].
    assert (Hrc : (rc <? XBot.max_retries)%nat = true) by (apply Nat.ltb_lt; lia).
    rewrite Hrc.
    pose proof (attempt_no_post rc p) as Hnp.
    destruct (attempt_failing rc p Hp) as [evs He]. rewrite He in *.
    destruct (IH (S rc) Hf ltac:(lia)) as (net & Hl & Hn).
    rewrite Hl. eexists. split; [reflexivity|].
    simpl. rewrite filter_app, Hnp. simpl. rewrite Hn. reflexivity.
Qed.

Lemma count_posts_map id stages :
  XRuns.count_posts id (map (XBot.Ev id) stages)
  = List.length (filter XRuns.is_post stages).
Proof.
  unfold XRuns.count_posts. induction stages as [|s stages IH]; simpl; [reflexivity|].
  rewrite String.eqb_refl. simpl. destruct (XRuns.is_post s); simpl; now rewrite IH.
Qed.

Lemma count_posts_other id id' stages :
  id <> id' -> XRuns.count_posts id (map (XBot.Ev id') stages) = 0%nat.
Proof.
  intros Hne. unfold XRuns.count_posts.
  induction stages as [|s stages IH]; simpl; [reflexivity|].
  apply String.eqb_neq in Hne. rewrite Hne. simpl. exact IH.
Qed.

Lemma count_posts_app id a b :
  XRuns.count_posts id (a ++ b) = (XRuns.count_posts id a + XRuns.count_posts id b)%nat.
Proof. unfold XRuns.count_posts. now rewrite filter_app, length_app. Qed.

(** A post that is in the table stays there, and nothing is sent for it. *)
Lemma process_post_seen E cfg post w r w' evs id :
  XBot.process_post E cfg post w = (r, w', evs) ->
  XBot.seen_before (XBot.db w) id = true ->
  XBot.seen_before (XBot.db w') id = true /\ XRuns.count_posts id evs = 0%nat.
Proof.
  unfold XBot.process_post. intros H Hid. revert H.
  destruct (XBot.seen_before (XBot.db w) (XBot.x_post_id post)) eqn:Hseen.
  - inv3. auto.
  - assert (Hne : id <> XBot.x_post_id post) by congruence.
    destruct (XBot.tg_send_with_preview E cfg post (XBot.tg w)) as [[o rest] net].
    cbv zeta. cbn [XBot.db XBot.clock].
    destruct o as [msg_id| |].
    + destruct (XBot.mark_seen _ _ _ _ _ _ _) as [db'|] eqn:Hm.
      * destruct (Py.truthy msg_id); inv3; cbn [XBot.db];
          (split; [eapply x_mark_seen_mono; eassumption | now apply count_posts_other]).
      * inv3. split; [exact Hid | now apply count_posts_other].
    + inv3. split; [exact Hid | now apply count_posts_other].
    + inv3. split; [exact Hid | now apply count_posts_other].
Qed.

Lemma process_posts_seen E cfg posts n w r w' evs id :
  XBot.process_posts E cfg posts n w = (r, w', evs) ->
  XBot.seen_before (XBot.db w) id = true ->
  XBot.seen_before (XBot.db w') id = true /\ XRuns.count_posts id evs = 0%nat.
Proof.
  revert n w r w' evs. induction posts as [|p posts IH]; intros n w r w' evs; simpl.
  - inv3. auto.
  - destruct (XBot.process_post E cfg p w) as [[b w1] evs1] eqn:Hp. intros H Hid.
    destruct (process_post_seen _ _ _ _ _ _ _ _ Hp Hid) as [Hid1 Hc1].
    destruct b as [b|].
    + destruct (XBot.process_posts E cfg posts _ w1) as [[r2 w2] evs2] eqn:Hrest.
      destruct (IH _ _ _ _ _ Hrest Hid1) as [Hid2 Hc2].
      revert H. inv3. rewrite count_posts_app. split; [exact Hid2 | lia].
    + revert H. inv3. auto.
Qed.

Lemma process_x_feed_seen E cfg fetched w id :
  XBot.seen_before (XBot.db w) id = true ->
  XRuns.count_posts id (snd (XBot.process_x_feed E cfg fetched w)) = 0%nat.
Proof.
  intros Hid. unfold XBot.process_x_feed.
  destruct fetched as [[|p posts]|]; try reflexivity.
  destruct (XBot.process_posts E cfg (p :: posts) 0 w) as [[r w'] evs] eqn:H.
  exact (proj2 (process_posts_seen _ _ _ _ _ _ _ _ _ H Hid)).
Qed.

Lemma tg_send_message_bound cfg text script :
  (List.length (filter XRuns.is_post (snd (XBot.tg_send_message cfg text script))) <= 3)%nat.
Proof.
  unfold XBot.tg_send_message.
  destruct (Py.int_of_str (XBot.X_THREAD_ID cfg)); [|simpl; lia].
  destruct (XBot.tg_send_message_loop text 0 script) as [[o rest] net] eqn:Hl.
  apply loop_bound in Hl. destruct Hl as [Hl _]. cbn [snd].
  unfold XBot.max_retries in Hl. lia.
Qed.

(** C8 (bounded failure is handled). [tg_send_message] never makes more
    than 3 POSTs. When the three replies the endpoint gives are rate limits
    or errors, it makes 3 POSTs and returns [None]; [process_x_feed] then
    records the post with [mark_seen] (no message id) and goes on, and in
    no later cycle that finds the row is a POST made for this post. *)
Theorem bounded_retry_then_seen (E : XBot.Env) (cfg : XBot.Config)
  (post : XBot.XPost) (w : XBot.World) (f1 f2 f3 : PostResult) (rest : list PostResult)
  (Hcfg : XRuns.thread_id_ok cfg = true)
  (Hnew : XBot.seen_before (XBot.db w) (XBot.x_post_id post) = false)
  (Htg : XBot.tg w = f1 :: f2 :: f3 :: rest)
  (Hfail : forallb XRuns.failing [f1; f2; f3] = true) :
  (forall text script,
      (List.length (filter XRuns.is_post (snd (XBot.tg_send_message cfg text script))) <= 3)%nat)
  /\ (exists net,
        XBot.tg_send_message cfg (XBot.format_x_post_message E post) (XBot.tg w)
        = (Ret Py.JNull, rest, net)
        /\ List.length (filter XRuns.is_post net) = 3%nat)
  /\ (exists w' evs,
        XBot.process_post E cfg post w = (Some false, w', evs)
        /\ XRuns.count_posts (XBot.x_post_id post) evs = 3%nat
        /\ XBot.seen_before (XBot.db w') (XBot.x_post_id post) = true
        /\ Sql.select XBot.post_id String.eqb (XBot.db w') (XBot.x_post_id post)
           = [ {| XBot.post_id := XBot.x_post_id post;
                  XBot.username := XBot.x_username post;
                  XBot.content := XBot.x_content post;
                  XBot.posted_at := XBot.posted_at_of post;
                  XBot.first_seen_ts := Qfloor (XBot.clock w');
                  XBot.telegram_msg_id := Py.JNull |} ]
        /\ forall fetched tg2 clock2,
             XRuns.count_posts (XBot.x_post_id post)
               (snd (XBot.process_x_feed E cfg fetched
                       {| XBot.db := XBot.db w'; XBot.tg := tg2; XBot.clock := clock2 |}))
             = 0%nat).
Proof.
  split; [intros; apply tg_send_message_bound|].
  assert (Hsend : exists net,
             XBot.tg_send_message cfg (XBot.format_x_post_message E post) (XBot.tg w)
             = (Ret Py.JNull, rest, net)
             /\ List.length (filter XRuns.is_post net) = 3%nat).
  { unfold XBot.tg_send_message. unfold XRuns.thread_id_ok in Hcfg.
    destruct (Py.int_of_str (XBot.X_THREAD_ID cfg)); [|discriminate].
    rewrite Htg.
    exact (loop_all_failing _ [f1; f2; f3] rest 0%nat Hfail eq_refl). }
  split; [exact Hsend|].
  destruct Hsend as (net & Hsend & Hn).
  unfold XBot.process_post, XBot.tg_send_with_preview. rewrite Hnew, Hsend.
  cbv zeta. cbn [Py.truthy XBot.db XBot.clock].
  unfold XBot.mark_seen. rewrite posted_at_fits. cbn [XBot.bindable andb].
  unfold Sql.insert. cbn [XBot.post_id].
  change (Sql.exists_key XBot.post_id String.eqb (XBot.db w) (XBot.x_post_id post))
    with (XBot.seen_before (XBot.db w) (XBot.x_post_id post)).
  rewrite Hnew.
  do 2 eexists. split; [reflexivity|].
  split.
  { rewrite count_posts_map, filter_app, length_app. cbn [filter XRuns.is_post].
    rewrite Hn. reflexivity. }
  assert (Hseen' : forall row,
             XBot.post_id row = XBot.x_post_id post ->
             XBot.seen_before (XBot.db w ++ [row]) (XBot.x_post_id post) = true).
  { intros row Hrow. unfold XBot.seen_before, Sql.exists_key.
    rewrite existsb_app. cbn [existsb]. unfold Sql.has_key at 2.
    rewrite Hrow, String.eqb_refl. now rewrite !orb_true_r. }
  cbn [XBot.db XBot.clock].
  split; [apply Hseen'; reflexivity|].
  split.
  { unfold Sql.select. rewrite filter_app.
    assert (Hnone : filter (Sql.has_key XBot.post_id String.eqb (XBot.x_post_id post))
                           (XBot.db w) = []).
    { unfold XBot.seen_before, Sql.exists_key in Hnew.
      clear - Hnew. induction (XBot.db w) as [|x l IH]; simpl in *; [reflexivity|].
      apply orb_false_iff in Hnew. destruct Hnew as [Hx Hl].
      rewrite Hx. auto. }
    rewrite Hnone. cbn [filter app]. unfold Sql.has_key. cbn [XBot.post_id].
    rewrite String.eqb_refl. reflexivity. }
  intros fetched tg2 clock2. apply process_x_feed_seen. cbn [XBot.db].
  apply Hseen'. reflexivity.
Qed.

Lemma bounded_retry_then_seen_witness :
  XRuns.thread_id_ok Demo.xcfg = true /\
  XBot.seen_before (XBot.db Demo.xworld) "42" = false /\
  forallb XRuns.failing Demo.x_failures = true /\
  exists w' evs,
    XBot.process_post Demo.xenv Demo.xcfg (Demo.xpost "42" "gm <3") Demo.xworld
    = (Some false, w', evs)
    /\ XRuns.count_posts "42" evs = 3%nat
    /\ XBot.seen_before (XBot.db w') "42" = true.
Proof.
  assert (H1 : XRuns.thread_id_ok Demo.xcfg = true) by reflexivity.
  assert (H2 : XBot.seen_before (XBot.db Demo.xworld)
                 (XBot.x_post_id (Demo.xpost "42" "gm <3")) = false) by reflexivity.
  assert (H3 : XBot.tg Demo.xworld
               = PostRaises :: PostReply Demo.flood_bare
                 :: PostReply {| status_code := 500; retry_after_header := None;
                                 body := None |} :: [Demo.ok_reply 9]) by reflexivity.
  assert (H4 : forallb XRuns.failing Demo.x_failures = true) by reflexivity.
  split; [exact H1|]. split; [exact H2|]. split; [exact H4|].
  destruct (proj2 (proj2 (bounded_retry_then_seen Demo.xenv Demo.xcfg
                            (Demo.xpost "42" "gm <3") Demo.xworld _ _ _ _ H1 H2 H3 H4)))
    as (w' & evs & Hp & Hc & Hs & _).
  exists w', evs. auto.
Defined.

(* ------------------------------------------------------------------ *)
(** ** The manager *)

Import Manager.

Lemma check_calm b en t :
  t <> Some Cancelled ->
  exists t' l, check b en t = Some (t', l) /\ t' <> Some Cancelled.
Proof.
  intros H. unfold check. destruct t as [[| |e|]|]; try congruence;
    destruct en; simpl; do 2 eexists; split; try reflexivity; congruence.
Qed.

Lemma reachable_calm m : reachable m -> calm m.
Proof.
  induction 1 as [ro xo | m l m' Hr IH Hstep].
  - intros _. unfold start; simpl. destruct ro, xo; simpl; split; congruence.
  - destruct Hstep as [m t' He | m t' He | m Ha | m | m r x Hs Hr' Hx'].
    + intros Ha. simpl in *. destruct (IH Ha) as [H1 H2]. split; [|exact H2].
      destruct He as [_ [-> | [e ->]]]; congruence.
    + intros Ha. simpl in *. destruct (IH Ha) as [H1 H2]. split; [exact H1|].
      destruct He as [_ [-> | [e ->]]]; congruence.
    + destruct (IH Ha) as [H1 H2]. intros _. unfold sweep.
      destruct (check_calm RssBot (rss_enabled m) _ H1) as (r' & l1 & -> & Hr1).
      destruct (check_calm XFeedBot (x_enabled m) _ H2) as (x' & l2 & -> & Hx1).
      simpl. auto.
    + intros Ha. simpl in *. exact (IH Ha).
    + intros Ha. simpl in Ha. discriminate.
Qed.






(* ------------------------------------------------------------------ *)
(** ** The formatter *)

Lemma contains_char_cons (c0 c : ascii) (r : string) :
  Py.contains (String c0 "") (String c r)
  = (Ascii.eqb c0 c || Py.contains (String c0 "") r)%bool.
Proof.
  cbn [Py.contains Py.startswith]. destruct r; now rewrite andb_true_r.
Qed.

Lemma contains_char_app (c0 : ascii) (a b : string) :
  Py.contains (String c0 "") (a ++ b)%string
  = (Py.contains (String c0 "") a || Py.contains (String c0 "") b)%bool.
Proof.
  induction a as [|c a IH].
  - simpl. destruct b; reflexivity.
  - change (String c a ++ b)%string with (String c (a ++ b)%string).
    rewrite !contains_char_cons, IH. now rewrite orb_assoc.
Qed.

(** What [h] escapes: its result holds neither [<] nor [>]. *)
Lemma h_no_angle (s : string) :
  Py.contains "<" (Rss.h s) = false /\ Py.contains ">" (Rss.h s) = false.
Proof.
  unfold Rss.h. induction s as [|c r [IH1 IH2]]; [split; reflexivity|].
  cbn [Py.html_escape_noquote]. rewrite !contains_char_app, IH1, IH2, !orb_false_r.
  destruct (Ascii.eqb c "&") eqn:Ha; [split; reflexivity|].
  destruct (Ascii.eqb c "<") eqn:Hl; [split; reflexivity|].
  destruct (Ascii.eqb c ">") eqn:Hg; [split; reflexivity|].
  rewrite !contains_char_cons. cbn [Py.contains Py.startswith].
  rewrite (Ascii.eqb_sym "<"%char c), Hl, (Ascii.eqb_sym ">"%char c), Hg. split; reflexivity.
Qed.

(** C9, where the code departs from it. [h] is [html.escape] with
    [quote=False], and [format_message] puts [h(url)] between the double
    quotes of an [href]: a link with a double quote goes through [h]
    unchanged, ends the attribute and adds one of its own to the tag. The
    host of the link is put in the message without going through [h], and
    so are the counts of the X post. *)
Theorem formatter_lets_markup_through :
  Rss.h Demo.quote_url = Demo.quote_url
  /\ Py.contains Demo.broken_anchor
       (Rss.format_message Demo.env "F" "Title" Demo.quote_url "Summary"
          Demo.neutral false None [] "") = true
  /\ Py.contains "<i><b>evil</i>"
       (Rss.format_message Demo.env_host "F" "Title" "http://<b>evil/x" "Summary"
          Demo.neutral false None [] "") = true
  /\ Py.contains "<b>7</b>" (XBot.format_x_post_message Demo.xenv Demo.xpost_metrics) = true.
Proof. repeat split; vm_compute; reflexivity. Qed.

(* ------------------------------------------------------------------ *)
(** ** Utilities of the feed bot *)

Lemma nonempty_false (s : string) : Py.nonempty s = false <-> s = "".
Proof. destruct s; simpl; split; congruence. Qed.

(** X1. [first_nonempty] gives the empty string exactly when every value
    is empty; otherwise it gives a value of the list before which all the
    values are empty. *)
Theorem first_nonempty_spec (vals : list string) :
  (Rss.first_nonempty vals = "" <-> forall v, In v vals -> v = "")
  /\ (Rss.first_nonempty vals <> "" ->
      exists pre post,
        vals = pre ++ Rss.first_nonempty vals :: post
        /\ forall v, In v pre -> v = "").
Proof.
  induction vals as [|v vals [IH1 IH2]]; simpl.
  - split; [split; [intros _ v [] | reflexivity] | congruence].
  - destruct (Py.nonempty v) eqn:Hv.
    + split.
      * split.
        -- intros ->. discriminate.
        -- intros H. specialize (H v (or_introl eq_refl)). subst. discriminate.
      * intros _. exists [], vals. split; [reflexivity | intros ? []].
    + apply nonempty_false in Hv. subst v. split.
      * rewrite IH1. split.
        -- intros H v [<- | Hin]; auto.
        -- intros H v Hin. apply H. now right.
      * intros Hne. destruct (IH2 Hne) as (pre & post & Heq & Hpre).
        exists ("" :: pre), post. split.
        -- simpl. now rewrite <- Heq.
        -- intros v [<- | Hin]; auto.
Qed.

Lemma startswith_refl (s : string) : Py.startswith s s = true.
Proof. induction s; simpl; [reflexivity|]. now rewrite Ascii.eqb_refl. Qed.

Lemma startswith_trans (a b c : string) :
  Py.startswith a b = true -> Py.startswith b c = true -> Py.startswith a c = true.
Proof.
  revert b c. induction a as [|x a IH]; intros b c; [reflexivity|].
  destruct b as [|y b]; [discriminate|]. destruct c as [|z c]; [discriminate|].
  simpl. rewrite !andb_true_iff, !Ascii.eqb_eq. intros [-> H1] [-> H2].
  split; [reflexivity | eauto].
Qed.

(** X2. [clip] leaves a string of at most [n] characters as it is; a
    longer one becomes a prefix of it of at most [n] characters that does
    not end with white space ([rstrip] leaves it as it is), followed by
    the ellipsis. *)
Theorem clip_spec (s : string) (n : nat) :
  ((Py.len s <= n)%nat -> Rss.clip s n = s)
  /\ ((n < Py.len s)%nat ->
      exists p, Rss.clip s n = (p ++ "…")%string
                /\ (Py.len p <= n)%nat
                /\ Py.startswith p s = true
                /\ Py.rstrip p = p).
Proof.
  unfold Rss.clip. split.
  - intros H. apply Nat.leb_le in H. now rewrite H.
  - intros H. apply Nat.leb_gt in H. rewrite H.
    exists (Py.rstrip (Py.take n s)). split; [reflexivity|]. split; [|split].
    + pose proof (rstrip_length (Py.take n s)). pose proof (take_length n s). lia.
    + eapply startswith_trans; [apply rstrip_prefix | apply take_prefix].
    + apply rstrip_idem.
Qed.

(** X3. [read_time_minutes] is at least 1 and is the number of words (taken
    as 1 for an empty text) divided by 220 and rounded up. *)
Theorem read_time_minutes_bounds (text : string) :
  let words := Z.max 1 (Z.of_nat (List.length (Py.split_ws text))) in
  let r := Rss.read_time_minutes text in
  1 <= r /\ 220 * (r - 1) < words <= 220 * r.
Proof.
  unfold Rss.read_time_minutes. cbv zeta.
  set (w := Z.max 1 (Z.of_nat (List.length (Py.split_ws text)))).
  assert (Hw : 1 <= w) by lia.
  assert (Hq : 1 <= (w + 219) / 220).
  { apply Z.div_le_lower_bound; lia. }
  rewrite Z.max_r by lia.
  split; [lia|].
  pose proof (Z.div_mod (w + 219) 220 ltac:(lia)) as Hd.
  pose proof (Z.mod_pos_bound (w + 219) 220 ltac:(lia)) as Hm.
  lia.
Qed.

Lemma existsb_eqb_In (x : string) (l : list string) :
  existsb (String.eqb x) l = true <-> In x l.
Proof.
  rewrite existsb_exists. split.
  - intros (y & Hy & He). apply String.eqb_eq in He. now subst.
  - intros H. exists x. split; [exact H | apply String.eqb_refl].
Qed.

Lemma pick_keywords_loop_inv E text limit kws seen :
  NoDup seen ->
  (List.length seen < Nat.max limit 1)%nat ->
  let r := Rss.pick_keywords_loop E text limit kws seen in
  NoDup r
  /\ (List.length r <= Nat.max limit 1)%nat
  /\ (forall x, In x r -> In x seen \/ exists pat, In (x, pat) kws /\ Rss.re_search E pat text = true).
Proof.
  revert seen. induction kws as [|[name pat] kws IH]; intros seen Hnd Hlen; simpl.
  - split; [exact Hnd|]. split; [lia | auto].
  - set (seen' := if Rss.re_search E pat text
                  then if existsb (String.eqb name) seen then seen else seen ++ [name]
                  else seen).
    assert (Hnd' : NoDup seen').
    { unfold seen'. destruct (Rss.re_search E pat text); [|exact Hnd].
      destruct (existsb (String.eqb name) seen) eqn:Hex; [exact Hnd|].
      apply NoDup_app; [exact Hnd | repeat constructor; intros [] | ].
      intros x Hx [<- | []].
      apply existsb_eqb_In in Hx. congruence. }
    assert (Hlen' : (List.length seen' <= List.length seen + 1)%nat).
    { unfold seen'. destruct (Rss.re_search E pat text); [|lia].
      destruct (existsb (String.eqb name) seen); [lia|]. rewrite length_app. simpl. lia. }
    assert (Hin' : forall x, In x seen' ->
                             In x seen \/ (x = name /\ Rss.re_search E pat text = true)).
    { unfold seen'. intros x. destruct (Rss.re_search E pat text); [|auto].
      destruct (existsb (String.eqb name) seen); [auto|].
      rewrite in_app_iff. simpl. intuition. }
    destruct (limit <=? List.length seen')%nat eqn:Hl.
    + split; [exact Hnd'|]. split; [lia|].
      intros x Hx. destruct (Hin' x Hx) as [H | [-> H]]; [auto|].
      right. exists pat. split; [now left | exact H].
    + apply Nat.leb_gt in Hl.
      destruct (IH seen' Hnd' ltac:(lia)) as (H1 & H2 & H3).
      split; [exact H1|]. split; [exact H2|].
      intros x Hx. destruct (H3 x Hx) as [H | (p & Hp & Hs)].
      * destruct (Hin' x H) as [H' | [-> H']]; [auto|].
        right. exists pat. split; [now left | exact H'].
      * right. exists p. split; [now right | exact Hs].
Qed.

(** X4. The names [pick_keywords] returns are distinct, each one is a name
    of [DISPLAY_KEYWORDS] whose pattern matches the text, and there are at
    most [limit] of them (one when [limit] is 0, since the bound is tested
    after the first name is added). *)
Theorem pick_keywords_spec (E : Rss.Env) (text : string) (limit : nat) :
  NoDup (Rss.pick_keywords E text limit)
  /\ (List.length (Rss.pick_keywords E text limit) <= Nat.max limit 1)%nat
  /\ (forall x, In x (Rss.pick_keywords E text limit) ->
                exists pat, In (x, pat) Rss.DISPLAY_KEYWORDS
                            /\ Rss.re_search E pat text = true).
Proof.
  unfold Rss.pick_keywords.
  destruct (pick_keywords_loop_inv E text limit Rss.DISPLAY_KEYWORDS []) as (H1 & H2 & H3).
  - constructor.
  - simpl. lia.
  - split; [exact H1|]. split; [exact H2|].
    intros x Hx. destruct (H3 x Hx) as [[] | H]. exact H.
Qed.

(** X5. In both policies of [matches_filters]: the macro and the crypto
    flags are set exactly when the Hyperliquid pattern matches or the family
    has a hit; an item is only included with one of the two flags set; in
    the permissive policy every item with a flag set is included; and a
    match of the Hyperliquid pattern gives [(True, True, True)]. *)
Theorem filter_flags_spec (E : Rss.Env) (cfg : Rss.Config) (title summary body : string) :
  let text := Py.join " " [title; summary; body] in
  let priority := Rss.re_search E Rss.HYPER_REGEX text in
  let macro_hits := List.length (Rss.re_findall E Rss.MACRO_REGEX text) in
  let crypto_hits := List.length (Rss.re_findall E Rss.CRYPTO_REGEX text) in
  let r := Rss.matches_filters E cfg title summary body in
  (snd (fst r) = true <-> priority = true \/ (1 <= macro_hits)%nat)
  /\ (snd r = true <-> priority = true \/ (1 <= crypto_hits)%nat)
  /\ (fst (fst r) = true -> snd (fst r) = true \/ snd r = true)
  /\ (Rss.POST_ONLY_ON_STRONG_MATCH cfg = false ->
      (fst (fst r) = true <-> snd (fst r) = true \/ snd r = true))
  /\ (priority = true -> r = (true, true, true)).
Proof.
  unfold Rss.matches_filters. cbv zeta.
  set (text := Py.join " " [title; summary; body]).
  set (m := List.length (Rss.re_findall E Rss.MACRO_REGEX text)).
  set (c := List.length (Rss.re_findall E Rss.CRYPTO_REGEX text)).
  assert (Hm : negb (m =? 0)%nat = true <-> (1 <= m)%nat).
  { rewrite negb_true_iff, Nat.eqb_neq. lia. }
  assert (Hc : negb (c =? 0)%nat = true <-> (1 <= c)%nat).
  { rewrite negb_true_iff, Nat.eqb_neq. lia. }
  destruct (Rss.re_search E Rss.HYPER_REGEX text); cbn [fst snd].
  - repeat split; auto.
  - destruct (Rss.POST_ONLY_ON_STRONG_MATCH cfg); cbn [fst snd].
    + split; [rewrite Hm; intuition congruence|].
      split; [rewrite Hc; intuition congruence|].
      split; [|split; [discriminate | discriminate]].
      rewrite !orb_true_iff, andb_true_iff, !Nat.leb_le, Hm, Hc. lia.
    + split; [rewrite Hm; intuition congruence|].
      split; [rewrite Hc; intuition congruence|].
      split; [rewrite orb_true_iff; auto|].
      split; [intros _; rewrite orb_true_iff; tauto | discriminate].
Qed.

(* ------------------------------------------------------------------ *)
(** ** The scorer, beyond the claims *)

(** X6. [map_finbert] and [map_roberta] give one of [pos], [neg], [neu]
    and leave these three as they are, so the signed value that
    [sentiment_ensemble] computes by mapping the mapped label again is 1
    for [pos] and -1 for [neg], as the label it reports. *)
Theorem label_maps_idempotent (l : string) :
  In (Rss.map_finbert l) ["pos"; "neg"; "neu"]
  /\ In (Rss.map_roberta l) ["pos"; "neg"; "neu"]
  /\ Rss.map_finbert (Rss.map_finbert l) = Rss.map_finbert l
  /\ Rss.map_roberta (Rss.map_roberta l) = Rss.map_roberta l
  /\ (Rss.as_num_fin (Rss.map_finbert l) = 1 <-> Rss.map_finbert l = "pos")
  /\ (Rss.as_num_fin (Rss.map_finbert l) = -1 <-> Rss.map_finbert l = "neg")
  /\ (Rss.as_num_rob (Rss.map_roberta l) = 1 <-> Rss.map_roberta l = "pos")
  /\ (Rss.as_num_rob (Rss.map_roberta l) = -1 <-> Rss.map_roberta l = "neg").
Proof.
  assert (Hf : In (Rss.map_finbert l) ["pos"; "neg"; "neu"]).
  { unfold Rss.map_finbert. destruct (Py.contains "pos" _); [simpl; auto|].
    destruct (Py.contains "neg" _); simpl; auto. }
  assert (Hr : In (Rss.map_roberta l) ["pos"; "neg"; "neu"]).
  { unfold Rss.map_roberta. destruct (_ || _); [simpl; auto|].
    destruct (_ || _); simpl; auto. }
  split; [exact Hf|]. split; [exact Hr|].
  destruct Hf as [Hf | [Hf | [Hf | []]]]; destruct Hr as [Hr | [Hr | [Hr | []]]];
    rewrite <- Hf, <- Hr; unfold Rss.as_num_fin, Rss.as_num_rob;
    repeat split; try reflexivity; try discriminate;
    (vm_compute; congruence).
Qed.

Lemma fmax_ge_r (a x : Q) : (x <= Py.fmax a x)%Q.
Proof.
  unfold Py.fmax. destruct (Qle_bool x a) eqn:H.
  - now apply Qle_bool_iff.
  - apply Qle_refl.
Qed.

Lemma as_num_fin_range (l : string) : -1 <= Rss.as_num_fin l <= 1.
Proof.
  unfold Rss.as_num_fin. destruct (String.eqb _ _); [lia|].
  destruct (String.eqb _ _); lia.
Qed.

Lemma as_num_rob_range (l : string) : -1 <= Rss.as_num_rob l <= 1.
Proof.
  unfold Rss.as_num_rob. destruct (String.eqb _ _); [lia|].
  destruct (String.eqb _ _); lia.
Qed.

Lemma inject_Z_range (n : Z) : -1 <= n <= 1 -> (- (1) <= inject_Z n <= 1)%Q.
Proof.
  intros [H1 H2]. split.
  - change (- (1))%Q with (inject_Z (-1)). rewrite <- Zle_Qle. exact H1.
  - change 1%Q with (inject_Z 1). rewrite <- Zle_Qle. exact H2.
Qed.

(** X7. With confidences that are not negative, the compound fused from
    the two signed labels is in [-1, 1] before any adjustment. *)
Theorem fused_compound_bounds (lf lr : string) (sf sr : Q)
  (Hf : (0 <= sf)%Q) (Hr : (0 <= sr)%Q) :
  (- (1) <= Rss.fused_compound (Rss.as_num_fin lf) (Rss.as_num_rob lr) sf sr <= 1)%Q.
Proof.
  unfold Rss.fused_compound. cbv zeta.
  set (wf := ((6 # 10) * sf)%Q). set (wr := ((4 # 10) * sr)%Q).
  set (d := Py.fmax (1 # 1000000) (wf + wr)).
  pose proof (inject_Z_range _ (as_num_fin_range lf)) as [Hf1 Hf2].
  pose proof (inject_Z_range _ (as_num_rob_range lr)) as [Hr1 Hr2].
  set (nf := inject_Z (Rss.as_num_fin lf)) in *.
  set (nr := inject_Z (Rss.as_num_rob lr)) in *.
  assert (Hwf : (0 <= wf)%Q) by (unfold wf; nra).
  assert (Hwr : (0 <= wr)%Q) by (unfold wr; nra).
  assert (Hd1 : (1 # 1000000 <= d)%Q) by apply fmax_ge_l.
  assert (Hd2 : (wf + wr <= d)%Q) by apply fmax_ge_r.
  assert (Hd : (0 < d)%Q) by lra.
  assert (Hn1 : (- d <= nf * wf + nr * wr)%Q) by nra.
  assert (Hn2 : (nf * wf + nr * wr <= d)%Q) by nra.
  split.
  - apply Qle_shift_div_l; [exact Hd|]. lra.
  - apply Qle_shift_div_r; [exact Hd|]. lra.
Qed.


Lemma fused_compound_bounds_witness :
  (0 <= 9 # 10)%Q /\ (0 <= 7 # 10)%Q /\
  (- (1) <= Rss.fused_compound (Rss.as_num_fin "positive") (Rss.as_num_rob "negative")
              (9 # 10) (7 # 10) <= 1)%Q.
Proof.
  assert (H1 : (0 <= 9 # 10)%Q) by (vm_compute; discriminate).
  assert (H2 : (0 <= 7 # 10)%Q) by (vm_compute; discriminate).
  split; [exact H1|]. split; [exact H2|].
  exact (fused_compound_bounds "positive" "negative" (9 # 10) (7 # 10) H1 H2).
Defined.


Lemma vader_label (E : Rss.Env) (text : string) :
  In (Rss.label (Rss.vader_sentiment E text)) ["pos"; "neg"; "neu"].
Proof.
  unfold Rss.vader_sentiment. cbn [Rss.label].
  destruct (Qle_bool _ _); [simpl; auto|]. destruct (Qle_bool _ _); simpl; auto.
Qed.

Lemma hf_label_in (t : string) (f r : Rss.HFOut) :
  In (Rss.label (Rss.hf_sentiment t f r)) ["pos"; "neg"; "neu"].
Proof.
  unfold Rss.hf_sentiment. cbn [Rss.label].
  destruct (Qle_bool _ _); [simpl; auto|]. destruct (Qle_bool _ _); simpl; auto.
Qed.

(** X9. Every result of [sentiment_ensemble] has a label among [pos],
    [neg], [neu] and the score [(compound + 1) / 2]; it carries either the
    lexicon breakdown or the two model breakdowns, never both. A result
    with the lexicon breakdown is the lexicon result on the whole stripped
    text, the lexicon being called last; the models are only ever called on
    the first 1200 characters of the stripped text. *)
Theorem sentiment_ensemble_invariants (E : Rss.Env) (text : string) :
  let s := fst (Rss.sentiment_ensemble E text) in
  let calls := snd (Rss.sentiment_ensemble E text) in
  In (Rss.label s) ["pos"; "neg"; "neu"]
  /\ Rss.score s = ((Rss.compound s + 1) / 2)%Q
  /\ (Rss.s_vader s = None <-> Rss.s_finbert s <> None)
  /\ (Rss.s_finbert s = None <-> Rss.s_roberta s = None)
  /\ (Rss.s_vader s <> None ->
      s = Rss.vader_sentiment E (Py.strip text)
      /\ exists before, calls = before ++ [Rss.CallVader (Py.strip text)])
  /\ (Rss.s_vader s = None ->
      calls = [Rss.CallLoadHF; Rss.CallFinbert (Py.take 1200 (Py.strip text));
               Rss.CallRoberta (Py.take 1200 (Py.strip text))])
  /\ (forall t, In (Rss.CallFinbert t) calls \/ In (Rss.CallRoberta t) calls ->
                t = Py.take 1200 (Py.strip text) /\ (Py.len t <= 1200)%nat).
Proof.
  assert (Hv : forall before,
     let s := Rss.vader_sentiment E (Py.strip text) in
     let calls := before ++ [Rss.CallVader (Py.strip text)] in
     (forall t, In (Rss.CallFinbert t) before \/ In (Rss.CallRoberta t) before ->
                t = Py.take 1200 (Py.strip text)) ->
     In (Rss.label s) ["pos"; "neg"; "neu"]
     /\ Rss.score s = ((Rss.compound s + 1) / 2)%Q
     /\ (Rss.s_vader s = None <-> Rss.s_finbert s <> None)
     /\ (Rss.s_finbert s = None <-> Rss.s_roberta s = None)
     /\ (Rss.s_vader s <> None ->
         s = Rss.vader_sentiment E (Py.strip text)
         /\ exists b, calls = b ++ [Rss.CallVader (Py.strip text)])
     /\ (Rss.s_vader s = None ->
         calls = [Rss.CallLoadHF; Rss.CallFinbert (Py.take 1200 (Py.strip text));
                  Rss.CallRoberta (Py.take 1200 (Py.strip text))])
     /\ (forall t, In (Rss.CallFinbert t) calls \/ In (Rss.CallRoberta t) calls ->
                   t = Py.take 1200 (Py.strip text) /\ (Py.len t <= 1200)%nat)).
  { intros before s calls Hb.
    split; [apply vader_label|]. split; [reflexivity|].
    split; [split; [discriminate | intros H; now contradiction H]|].
    split; [split; reflexivity|].
    split; [intros _; split; [reflexivity | now exists before]|].
    split; [discriminate|].
    intros t Ht. assert (Ht' : t = Py.take 1200 (Py.strip text)).
    { apply Hb. unfold calls in Ht. rewrite !in_app_iff in Ht. simpl in Ht.
      destruct Ht as [[H | [H | []]] | [H | [H | []]]]; auto; discriminate. }
    split; [exact Ht' | rewrite Ht'; apply take_length]. }
  unfold Rss.sentiment_ensemble. cbv zeta.
  destruct (Py.len (Py.strip text) <? 16)%nat.
  { apply (Hv []). intros t [[] | []]. }
  destruct (negb (Rss.hf_load_ok E)).
  { apply (Hv [Rss.CallLoadHF]). intros t [[H | []] | [H | []]]; discriminate. }
  destruct (Rss.finbert E _) as [f|].
  2:{ apply (Hv [Rss.CallLoadHF; Rss.CallFinbert (Py.take 1200 (Py.strip text))]).
      intros t [[H | [H | []]] | [H | [H | []]]]; try discriminate H; now inversion H. }
  destruct (Rss.roberta E _) as [r|].
  2:{ apply (Hv [Rss.CallLoadHF; Rss.CallFinbert (Py.take 1200 (Py.strip text));
                   Rss.CallRoberta (Py.take 1200 (Py.strip text))]).
      intros t [[H | [H | [H | []]]] | [H | [H | [H | []]]]]; try discriminate H; now inversion H. }
  cbn [fst snd].
  split; [apply hf_label_in|]. split; [reflexivity|].
  split; [split; [discriminate | reflexivity]|].
  split; [split; discriminate|].
  split; [intros H; now contradiction H|].
  split; [reflexivity|].
  intros t Ht. assert (Ht' : t = Py.take 1200 (Py.strip text)).
  { simpl in Ht. destruct Ht as [[H | [H | [H | []]]] | [H | [H | [H | []]]]];
      try discriminate H; now inversion H. }
  split; [exact Ht' | rewrite Ht'; apply take_length].
Qed.

(* ------------------------------------------------------------------ *)
(** ** The feed poller, beyond the claims *)

Lemma surjective_pairing_3 {A B C : Type} (x : A * B * C) :
  x = (fst (fst x), snd (fst x), snd x).
Proof. destruct x as [[a b] c]. reflexivity. Qed.

(** X10. An item that is not in the table, whose publication time is not 0
    and is older than the ceiling, is committed by [process_feed] and
    nothing else: it is not enriched, no message is formatted, no POST is
    made, and the replies of the endpoint and the clock are left alone. *)
Theorem aged_item_committed_without_delivery
  (E : Rss.Env) (cfg : Rss.Config) (feed_url feed_title : string)
  (entry : Rss.Entry) (w : Rss.World) (ts : Z)
  (Hnew : Rss.seen_before (Rss.db w) feed_url (Rss.entry_key_of E entry) = false)
  (Hts : Rss.to_unix_ts E (Rss.e_published entry) = Some ts)
  (Hnz : ts <> 0)
  (Hold : (inject_Z (Rss.MAX_AGE_DAYS cfg * 86400) < Rss.clock w - inject_Z ts)%Q) :
  exists w' evs,
    Rss.process_entry E cfg feed_url feed_title entry w = (Some false, w', evs)
    /\ Rss.seen_before (Rss.db w') feed_url (Rss.entry_key_of E entry) = true
    /\ Rss.tg w' = Rss.tg w /\ Rss.clock w' = Rss.clock w
    /\ count_stage is_commit feed_url (Rss.entry_key_of E entry) evs = 1%nat
    /\ count_stage is_enrich feed_url (Rss.entry_key_of E entry) evs = 0%nat
    /\ count_stage is_format feed_url (Rss.entry_key_of E entry) evs = 0%nat
    /\ count_stage is_post feed_url (Rss.entry_key_of E entry) evs = 0%nat.
Proof.
  destruct (too_old_item_only_committed E cfg feed_url feed_title entry w ts
              Hnew Hts Hnz Hold) as (db' & Hp & Hs).
  do 2 eexists. split; [exact Hp|]. cbn [Rss.db Rss.tg Rss.clock].
  split; [exact Hs|]. split; [reflexivity|]. split; [reflexivity|].
  unfold count_stage. cbn [filter about stage_of].
  rewrite !String.eqb_refl. repeat split.
Qed.

Lemma aged_item_committed_without_delivery_witness :
  Rss.seen_before (Rss.db Demo2.world0) Demo.feed_url
    (Rss.entry_key_of Demo.env Demo2.old_entry) = false
  /\ Rss.to_unix_ts Demo.env (Rss.e_published Demo2.old_entry) = Some 946684800
  /\ 946684800 <> 0
  /\ (inject_Z (Rss.MAX_AGE_DAYS (Demo.cfg false) * 86400)
      < Rss.clock Demo2.world0 - inject_Z 946684800)%Q
  /\ exists w' evs,
       Rss.process_entry Demo.env (Demo.cfg false) Demo.feed_url "F" Demo2.old_entry
         Demo2.world0 = (Some false, w', evs)
       /\ Rss.seen_before (Rss.db w') Demo.feed_url "old" = true
       /\ count_stage is_post Demo.feed_url "old" evs = 0%nat.
Proof.
  assert (H1 : Rss.seen_before (Rss.db Demo2.world0) Demo.feed_url
                 (Rss.entry_key_of Demo.env Demo2.old_entry) = false) by reflexivity.
  assert (H2 : Rss.to_unix_ts Demo.env (Rss.e_published Demo2.old_entry)
               = Some 946684800) by reflexivity.
  assert (H3 : 946684800 <> 0) by lia.
  assert (H4 : (inject_Z (Rss.MAX_AGE_DAYS (Demo.cfg false) * 86400)
                < Rss.clock Demo2.world0 - inject_Z 946684800)%Q)
    by (vm_compute; reflexivity).
  split; [exact H1|]. split; [exact H2|]. split; [exact H3|]. split; [exact H4|].
  destruct (aged_item_committed_without_delivery Demo.env (Demo.cfg false) Demo.feed_url
              "F" Demo2.old_entry Demo2.world0 946684800 H1 H2 H3 H4)
    as (w' & evs & Hp & Hs & _ & _ & _ & _ & _ & Hc).
  exists w', evs. auto.
Defined.

Lemma tg_send_loop_error text p rest :
  Obs.error_reply p = true ->
  Rss.tg_send_loop text (p :: rest) = (Raised, rest, [Rss.Post text p]).
Proof.
  destruct p as [|r]; simpl; [reflexivity|].
  intros H. apply andb_true_iff in H. destruct H as [H1 H2].
  rewrite H1. apply negb_true_iff in H2. rewrite H2. reflexivity.
Qed.

Lemma count_stage_app p f k a b :
  count_stage p f k (a ++ b) = (count_stage p f k a + count_stage p f k b)%nat.
Proof. unfold count_stage. now rewrite filter_app, length_app. Qed.

(** X11. When a POST of [tg_send] for an item meets an error (the request
    raises, or the status is neither 429 nor a success), that POST is the
    only one made, and [process_feed] neither commits the item nor counts
    it: the item is still unseen, so a later cycle takes it again. *)
Theorem delivery_error_leaves_item_unseen
  (E : Rss.Env) (cfg : Rss.Config) (feed_url feed_title : string)
  (entry : Rss.Entry) (w w' : Rss.World) (res : option bool) (evs : list Rss.Event)
  (p : PostResult) (rest : list PostResult)
  (Hrun : Rss.process_entry E cfg feed_url feed_title entry w = (res, w', evs))
  (Htg : Rss.tg w = p :: rest)
  (Herr : Obs.error_reply p = true)
  (Hpost : (1 <= count_stage is_post feed_url (Rss.entry_key_of E entry) evs)%nat) :
  res = Some false
  /\ Rss.db w' = Rss.db w
  /\ Rss.seen_before (Rss.db w') feed_url (Rss.entry_key_of E entry) = false
  /\ Rss.tg w' = rest
  /\ count_stage is_post feed_url (Rss.entry_key_of E entry) evs = 1%nat
  /\ count_stage is_commit feed_url (Rss.entry_key_of E entry) evs = 0%nat.
Proof.
  revert Hrun Hpost. unfold Rss.process_entry. cbv zeta.
  destruct (Rss.seen_before (Rss.db w) feed_url (Rss.entry_key_of E entry)) eqn:Hseen.
  { inv3. unfold count_stage. simpl. lia. }
  destruct (Rss.too_old cfg (Rss.clock w) (Rss.to_unix_ts E (Rss.e_published entry))).
  { destruct (Rss.mark_seen _ _ _ _ _); inv3; rewrite count_stage_map; simpl; lia. }
  destruct (Rss.matches_filters _ _ _ _ _) as [[inc m] c].
  match goal with
  | |- (let '(_, _) := ?x in _) = _ -> _ =>
      assert (Hx : exists i t, x = (i, t) /\ filter is_post t = [] /\ filter is_commit t = [])
  end.
  { destruct (negb inc && Rss.POST_ONLY_ON_STRONG_MATCH cfg).
    - destruct (Rss.sentiment_ensemble _ _) as [ts calls]. do 2 eexists. repeat split.
    - do 2 eexists. repeat split. }
  destruct Hx as (include & tmp & -> & Htmp & Htmpc).
  destruct (negb include).
  { destruct (Rss.mark_seen _ _ _ _ _); inv3;
      rewrite count_stage_map, !filter_app, Htmp; simpl; lia. }
  destruct (Rss.sentiment_ensemble _ _) as [sent calls].
  rewrite Htg. unfold Rss.tg_send.
  destruct (Py.nonempty (Rss.THREAD_ID cfg)).
  - destruct (Py.int_of_str (Rss.THREAD_ID cfg)).
    + rewrite tg_send_loop_error by exact Herr. cbv beta iota zeta.
      inv3. cbn [Rss.db Rss.tg]. rewrite Hseen.
      rewrite !count_stage_map, !filter_app, Htmp, Htmpc. simpl. intros _. repeat split.
    + cbv beta iota zeta. inv3. rewrite count_stage_map, !filter_app, Htmp. simpl. lia.
  - rewrite tg_send_loop_error by exact Herr. cbv beta iota zeta.
    inv3. cbn [Rss.db Rss.tg]. rewrite Hseen.
    rewrite !count_stage_map, !filter_app, Htmp, Htmpc. simpl. intros _. repeat split.
Qed.

Lemma delivery_error_leaves_item_unseen_witness :
  Rss.tg Demo2.world_500 = Demo2.error_500 :: [Demo.ok_reply 1]
  /\ Obs.error_reply Demo2.error_500 = true
  /\ (1 <= count_stage is_post Demo.feed_url (Rss.entry_key_of Demo.env Demo.item_abc)
             (snd (Rss.process_entry Demo.env (Demo.cfg false) Demo.feed_url "F"
                     Demo.item_abc Demo2.world_500)))%nat
  /\ fst (fst (Rss.process_entry Demo.env (Demo.cfg false) Demo.feed_url "F"
                 Demo.item_abc Demo2.world_500)) = Some false
  /\ Rss.db (snd (fst (Rss.process_entry Demo.env (Demo.cfg false) Demo.feed_url "F"
                         Demo.item_abc Demo2.world_500))) = [].
Proof.
  assert (H1 : Rss.tg Demo2.world_500 = Demo2.error_500 :: [Demo.ok_reply 1])
    by reflexivity.
  assert (H2 : Obs.error_reply Demo2.error_500 = true) by reflexivity.
  assert (H3 : (1 <= count_stage is_post Demo.feed_url
                        (Rss.entry_key_of Demo.env Demo.item_abc)
                        (snd (Rss.process_entry Demo.env (Demo.cfg false) Demo.feed_url "F"
                                Demo.item_abc Demo2.world_500)))%nat)
    by (vm_compute; lia).
  split; [exact H1|]. split; [exact H2|]. split; [exact H3|].
  destruct (delivery_error_leaves_item_unseen Demo.env (Demo.cfg false) Demo.feed_url "F"
              Demo.item_abc Demo2.world_500 _ _ _ _ _
              (surjective_pairing_3 _) H1 H2 H3) as (Hr & Hd & _).
  split; [exact Hr | exact Hd].
Defined.

Lemma tg_send_loop_accepted text r data okv rest :
  is_success r = true -> body r = Some data ->
  Py.dict_get data "ok" Py.JNull = Some okv ->
  Rss.tg_send_loop text (PostReply r :: rest)
  = (Ret Py.JNull, rest,
     Rss.Post text (PostReply r) :: (if Py.truthy okv then [] else [Rss.Warn])).
Proof.
  intros Hok Hb Hd.
  exact (tg_send_loop_floods text [] r data okv rest (fun _ F => match F with end) Hok Hb Hd).
Qed.

(** X24. When the first reply to the POST of an item has a success status
    and a body that is a JSON object, [process_feed] counts the item and
    commits it after that one POST, whatever the field [ok] of the body
    says: with [ok] false or missing [tg_send] only logs a warning and
    returns, so the item is taken as delivered and is not tried again. *)
Theorem accepted_reply_commits_even_if_not_ok
  (E : Rss.Env) (cfg : Rss.Config) (feed_url feed_title : string)
  (entry : Rss.Entry) (w w' : Rss.World) (res : option bool) (evs : list Rss.Event)
  (r : Response) (data okv : Py.json) (rest : list PostResult)
  (Hrun : Rss.process_entry E cfg feed_url feed_title entry w = (res, w', evs))
  (Htg : Rss.tg w = PostReply r :: rest)
  (Hok : is_success r = true)
  (Hb : body r = Some data)
  (Hd : Py.dict_get data "ok" Py.JNull = Some okv)
  (Hpost : (1 <= count_stage is_post feed_url (Rss.entry_key_of E entry) evs)%nat) :
  res = Some true
  /\ Rss.seen_before (Rss.db w') feed_url (Rss.entry_key_of E entry) = true
  /\ Rss.tg w' = rest
  /\ count_stage is_post feed_url (Rss.entry_key_of E entry) evs = 1%nat
  /\ count_stage is_commit feed_url (Rss.entry_key_of E entry) evs = 1%nat
  /\ (In (Rss.Ev feed_url (Rss.entry_key_of E entry) Rss.Warn) evs <-> Py.truthy okv = false).
Proof.
  revert Hrun Hpost. unfold Rss.process_entry. cbv zeta.
  destruct (Rss.seen_before (Rss.db w) feed_url (Rss.entry_key_of E entry)) eqn:Hseen.
  { inv3. unfold count_stage. simpl. lia. }
  destruct (Rss.too_old cfg (Rss.clock w) (Rss.to_unix_ts E (Rss.e_published entry))).
  { destruct (Rss.mark_seen _ _ _ _ _); inv3; rewrite count_stage_map; simpl; lia. }
  destruct (Rss.matches_filters _ _ _ _ _) as [[inc m] c].
  match goal with
  | |- (let '(_, _) := ?x in _) = _ -> _ =>
      assert (Hx : exists i t, x = (i, t) /\ filter is_post t = [] /\ filter is_commit t = []
                               /\ ~ In Rss.Warn t)
  end.
  { destruct (negb inc && Rss.POST_ONLY_ON_STRONG_MATCH cfg).
    - destruct (Rss.sentiment_ensemble _ _) as [ts calls]. do 2 eexists.
      repeat split. intros [H | []]. discriminate.
    - do 2 eexists. repeat split. intros []. }
  destruct Hx as (include & tmp & -> & Htmp & Htmpc & Hw).
  destruct (negb include).
  { destruct (Rss.mark_seen _ _ _ _ _); inv3;
      rewrite count_stage_map, !filter_app, Htmp; simpl; lia. }
  destruct (Rss.sentiment_ensemble _ _) as [sent calls].
  rewrite Htg. unfold Rss.tg_send.
  destruct (Py.nonempty (Rss.THREAD_ID cfg)); [destruct (Py.int_of_str (Rss.THREAD_ID cfg))|].
  2: { cbv beta iota zeta. inv3. rewrite count_stage_map, !filter_app, Htmp. simpl. lia. }
  all: match goal with |- context [Rss.tg_send_loop ?t _] => generalize t end; intros msg.
  all: rewrite (tg_send_loop_accepted msg r data okv rest Hok Hb Hd).
  all: cbv beta iota zeta; cbn [Rss.db Rss.tg Rss.clock].
  all: destruct (rss_mark_seen_total (Rss.db w)
                (Rss.clock w + Rss.slept
                   (Rss.Post msg (PostReply r) :: (if Py.truthy okv then [] else [Rss.Warn])))%Q
                feed_url (Rss.entry_key_of E entry)
                (Rss.to_unix_ts E (Rss.e_published entry))
                (to_unix_ts_fits E _)) as [db' Hm].
  all: rewrite Hm; inv3; cbn [Rss.db Rss.tg]; intros _.
  all: split; [reflexivity|]; split; [eapply rss_mark_seen_seen, Hm|]; split; [reflexivity|].
  all: rewrite !count_stage_map, !filter_app, Htmp, Htmpc.
  all: split; [destruct (Py.truthy okv); reflexivity|].
  all: split; [destruct (Py.truthy okv); reflexivity|].
  all: rewrite in_map_iff; split.
  1,3: intros (s & Hs & Hin); injection Hs as ->;
       rewrite !in_app_iff in Hin; simpl in Hin;
       destruct (Py.truthy okv); [|reflexivity]; exfalso;
       simpl in Hin; intuition discriminate.
  all: intros Hf; exists Rss.Warn; split; [reflexivity|]; rewrite Hf;
       rewrite !in_app_iff; simpl; right; left; auto.
Qed.

Lemma accepted_reply_commits_even_if_not_ok_witness :
  Rss.tg Demo2.world_not_ok = [PostReply Demo2.not_ok_response]
  /\ is_success Demo2.not_ok_response = true
  /\ Py.dict_get (Py.JObj [("ok", Py.JBool false)]) "ok" Py.JNull = Some (Py.JBool false)
  /\ (1 <= count_stage is_post Demo.feed_url (Rss.entry_key_of Demo.env Demo.item_abc)
             (snd (Rss.process_entry Demo.env (Demo.cfg false) Demo.feed_url "F"
                     Demo.item_abc Demo2.world_not_ok)))%nat
  /\ fst (fst (Rss.process_entry Demo.env (Demo.cfg false) Demo.feed_url "F"
                 Demo.item_abc Demo2.world_not_ok)) = Some true
  /\ Rss.seen_before
       (Rss.db (snd (fst (Rss.process_entry Demo.env (Demo.cfg false) Demo.feed_url "F"
                            Demo.item_abc Demo2.world_not_ok))))
       Demo.feed_url (Rss.entry_key_of Demo.env Demo.item_abc) = true.
Proof.
  assert (H1 : Rss.tg Demo2.world_not_ok = [PostReply Demo2.not_ok_response])
    by reflexivity.
  assert (H2 : is_success Demo2.not_ok_response = true) by reflexivity.
  assert (H3 : body Demo2.not_ok_response = Some (Py.JObj [("ok", Py.JBool false)]))
    by reflexivity.
  assert (H4 : Py.dict_get (Py.JObj [("ok", Py.JBool false)]) "ok" Py.JNull
               = Some (Py.JBool false)) by reflexivity.
  assert (H5 : (1 <= count_stage is_post Demo.feed_url
                        (Rss.entry_key_of Demo.env Demo.item_abc)
                        (snd (Rss.process_entry Demo.env (Demo.cfg false) Demo.feed_url "F"
                                Demo.item_abc Demo2.world_not_ok)))%nat)
    by (vm_compute; lia).
  split; [exact H1|]. split; [exact H2|]. split; [exact H4|]. split; [exact H5|].
  destruct (accepted_reply_commits_even_if_not_ok Demo.env (Demo.cfg false) Demo.feed_url
              "F" Demo.item_abc Demo2.world_not_ok _ _ _ _ _ _ _
              (surjective_pairing_3 _) H1 H2 H3 H4 H5) as (Hr & Hs & _).
  split; [exact Hr | exact Hs].
Defined.

Lemma process_entries_seen E cfg feed_url feed_title entries posted w :
  forallb (fun e => Rss.seen_before (Rss.db w) feed_url (Rss.entry_key_of E e)) entries = true ->
  Rss.process_entries E cfg feed_url feed_title entries posted w = (Some posted, w, []).
Proof.
  induction entries as [|e entries IH]; simpl; [reflexivity|].
  rewrite andb_true_iff. intros [He Hrest].
  unfold Rss.process_entry. rewrite He. cbv zeta. rewrite (IH Hrest). reflexivity.
Qed.

(** X12. When every entry of the feed is in the table, [process_feed]
    returns 0 and does nothing: no page is fetched, nothing is sent, and
    the table, the replies and the clock are as before. The same holds when
    the feed cannot be fetched or parsed. *)
Theorem seen_feed_is_noop (E : Rss.Env) (cfg : Rss.Config) (feed_url : string)
  (parsed : Rss.Parsed) (w : Rss.World)
  (Hseen : forallb (fun e => Rss.seen_before (Rss.db w) feed_url (Rss.entry_key_of E e))
                   (Rss.p_entries parsed) = true) :
  Rss.process_feed E cfg feed_url (Some parsed) w = (Some 0, w, [])
  /\ Rss.process_feed E cfg feed_url None w = (Some 0, w, []).
Proof.
  split; [|reflexivity]. unfold Rss.process_feed. now apply process_entries_seen.
Qed.

Lemma seen_feed_is_noop_witness :
  forallb (fun e => Rss.seen_before (Rss.db Demo2.world_seen) Demo.feed_url
                      (Rss.entry_key_of Demo.env e))
          (Rss.p_entries Demo2.parsed_v1) = true
  /\ Rss.process_feed Demo.env (Demo.cfg false) Demo.feed_url (Some Demo2.parsed_v1)
       Demo2.world_seen = (Some 0, Demo2.world_seen, []).
Proof.
  assert (H : forallb (fun e => Rss.seen_before (Rss.db Demo2.world_seen) Demo.feed_url
                                  (Rss.entry_key_of Demo.env e))
                      (Rss.p_entries Demo2.parsed_v1) = true) by reflexivity.
  split; [exact H|].
  exact (proj1 (seen_feed_is_noop Demo.env (Demo.cfg false) Demo.feed_url
                  Demo2.parsed_v1 Demo2.world_seen H)).
Defined.

Lemma replay_pk_unique evs t :
  Sql.pk_unique Rss.seen_pk Rss.pk_eqb t ->
  Sql.pk_unique Rss.seen_pk Rss.pk_eqb (replay evs t).
Proof.
  revert t. induction evs as [|e evs IH]; intros t Ht; [exact Ht|].
  unfold replay. simpl. apply IH.
  destruct e as [f k s]. destruct s; simpl; try exact Ht.
  destruct (Sql.insert _ _ _ _ _) as [t'|] eqn:Hi; [|exact Ht].
  exact (insert_pk_unique Rss.seen_pk Rss.pk_eqb pk_eqb_eq _ _ _ _ Ht Hi).
Qed.

Lemma replay_mono evs t f k :
  Rss.seen_before t f k = true -> Rss.seen_before (replay evs t) f k = true.
Proof.
  revert t. induction evs as [|e evs IH]; intros t Ht; [exact Ht|].
  unfold replay. simpl. apply IH. now apply apply_event_mono.
Qed.

Lemma process_entries_count E cfg feed_url feed_title entries posted w n w' evs :
  Rss.process_entries E cfg feed_url feed_title entries posted w = (Some n, w', evs) ->
  posted <= n <= posted + Z.of_nat (List.length entries).
Proof.
  revert posted w n w' evs.
  induction entries as [|e entries IH]; intros posted w n w' evs; simpl.
  - intros [= <- <- <-]. lia.
  - destruct (Rss.process_entry E cfg feed_url feed_title e w) as [[p w1] evs1].
    destruct p as [p|]; [|discriminate].
    destruct (Rss.process_entries _ _ _ _ _ _ w1) as [[r2 w2] evs2] eqn:Hrest.
    intros [= -> <- <-]. apply IH in Hrest. destruct p; lia.
Qed.

(** X13. [process_feed] keeps the primary key of the table, never takes an
    item out of it, and returns a count between 0 and the number of
    entries of the feed. *)
Theorem process_feed_keeps_the_store (E : Rss.Env) (cfg : Rss.Config) (feed_url : string)
  (fetched : option Rss.Parsed) (w : Rss.World)
  (Hpk : Sql.pk_unique Rss.seen_pk Rss.pk_eqb (Rss.db w)) :
  let res := fst (fst (Rss.process_feed E cfg feed_url fetched w)) in
  let w' := snd (fst (Rss.process_feed E cfg feed_url fetched w)) in
  Sql.pk_unique Rss.seen_pk Rss.pk_eqb (Rss.db w')
  /\ (forall f k, Rss.seen_before (Rss.db w) f k = true ->
                  Rss.seen_before (Rss.db w') f k = true)
  /\ (forall n, res = Some n ->
        0 <= n <= match fetched with
                  | Some parsed => Z.of_nat (List.length (Rss.p_entries parsed))
                  | None => 0
                  end).
Proof.
  destruct (Rss.process_feed E cfg feed_url fetched w) as [[res w'] evs] eqn:Hrun.
  cbn [fst snd].
  destruct (process_feed_safe _ _ _ _ _ _ _ _ Hrun) as [_ Hrep].
  split; [rewrite <- Hrep; now apply replay_pk_unique|].
  split; [intros f k Hs; rewrite <- Hrep; now apply replay_mono|].
  intros n ->. unfold Rss.process_feed in Hrun. destruct fetched as [parsed|].
  - apply process_entries_count in Hrun. lia.
  - injection Hrun as <- _ _. lia.
Qed.

Lemma process_feed_keeps_the_store_witness :
  Sql.pk_unique Rss.seen_pk Rss.pk_eqb (Rss.db Demo2.world_500)
  /\ Sql.pk_unique Rss.seen_pk Rss.pk_eqb
       (Rss.db (snd (fst (Rss.process_feed Demo.env (Demo.cfg false) Demo.feed_url
                            Demo.feed_v2 Demo2.world_500)))).
Proof.
  assert (H : Sql.pk_unique Rss.seen_pk Rss.pk_eqb (Rss.db Demo2.world_500))
    by (intro k; vm_compute; lia).
  split; [exact H|].
  exact (proj1 (process_feed_keeps_the_store Demo.env (Demo.cfg false) Demo.feed_url
                  Demo.feed_v2 Demo2.world_500 H)).
Defined.

(* ------------------------------------------------------------------ *)
(** ** The X bot, beyond the claims *)

Lemma select_absent {Row Key : Type} (key_of : Row -> Key) (key_eqb : Key -> Key -> bool)
      (t : list Row) (k : Key) :
  Sql.exists_key key_of key_eqb t k = false -> Sql.select key_of key_eqb t k = [].
Proof.
  unfold Sql.exists_key, Sql.select.
  induction t as [|x t IH]; simpl; [reflexivity|].
  intros H. apply orb_false_iff in H. destruct H as [Hx Ht]. rewrite Hx. auto.
Qed.

Lemma select_removed {Row Key : Type} (key_of : Row -> Key) (key_eqb : Key -> Key -> bool)
      (t : list Row) (k : Key) :
  Sql.select key_of key_eqb
    (filter (fun r' => negb (Sql.has_key key_of key_eqb k r')) t) k = [].
Proof.
  unfold Sql.select. induction t as [|x t IH]; simpl; [reflexivity|].
  destruct (Sql.has_key key_of key_eqb k x) eqn:Hx; simpl; [exact IH|].
  rewrite Hx. exact IH.
Qed.

Lemma select_removed_other {Row Key : Type} (key_of : Row -> Key)
      (key_eqb : Key -> Key -> bool)
      (Heq : forall a b, key_eqb a b = true <-> a = b)
      (t : list Row) (k k' : Key) :
  k <> k' ->
  Sql.select key_of key_eqb
    (filter (fun r' => negb (Sql.has_key key_of key_eqb k r')) t) k'
  = Sql.select key_of key_eqb t k'.
Proof.
  intros Hne. unfold Sql.select. induction t as [|x t IH]; simpl; [reflexivity|].
  destruct (Sql.has_key key_of key_eqb k x) eqn:Hk; simpl.
  - destruct (Sql.has_key key_of key_eqb k' x) eqn:Hk'; [|exact IH].
    unfold Sql.has_key in Hk, Hk'. apply Heq in Hk. apply Heq in Hk'. congruence.
  - destruct (Sql.has_key key_of key_eqb k' x); simpl; now rewrite IH.
Qed.

Lemma x_mark_seen_select (t : XBot.Table) (now : Q) (post_id u c : string)
  (pa m : option Z) :
  Sql.opt_int_fits pa = true -> Sql.opt_int_fits m = true ->
  exists t',
    XBot.mark_seen t now post_id u c pa (XBot.optional_int m) = Some t'
    /\ Sql.select XBot.post_id String.eqb t' post_id
       = [ {| XBot.post_id := post_id; XBot.username := u; XBot.content := c;
              XBot.posted_at := pa; XBot.first_seen_ts := Qfloor now;
              XBot.telegram_msg_id := XBot.optional_int m |} ]
    /\ (forall k, k <> post_id ->
                  Sql.select XBot.post_id String.eqb t' k
                  = Sql.select XBot.post_id String.eqb t k).
Proof.
  intros Hpa Hm. unfold XBot.mark_seen.
  rewrite optional_int_bindable, Hm, Hpa. cbn [andb].
  unfold Sql.insert. cbn [XBot.post_id].
  set (row := {| XBot.post_id := post_id; XBot.username := u; XBot.content := c;
                 XBot.posted_at := pa; XBot.first_seen_ts := Qfloor now;
                 XBot.telegram_msg_id := XBot.optional_int m |}).
  assert (Hrow : forall k, Sql.select XBot.post_id String.eqb [row] k
                           = if String.eqb post_id k then [row] else []).
  { intros k. unfold Sql.select, Sql.has_key. simpl. now destruct (String.eqb post_id k). }
  destruct (Sql.exists_key XBot.post_id String.eqb t post_id) eqn:Hex.
  - eexists. split; [reflexivity|]. split.
    + unfold Sql.select at 1. rewrite filter_app.
      change (Sql.select XBot.post_id String.eqb
                (filter (fun r' => negb (Sql.has_key XBot.post_id String.eqb post_id r')) t)
                post_id ++ Sql.select XBot.post_id String.eqb [row] post_id = [row]).
      rewrite select_removed, Hrow, String.eqb_refl. reflexivity.
    + intros k Hk. unfold Sql.select at 1. rewrite filter_app.
      change (Sql.select XBot.post_id String.eqb
                (filter (fun r' => negb (Sql.has_key XBot.post_id String.eqb post_id r')) t)
                k ++ Sql.select XBot.post_id String.eqb [row] k
              = Sql.select XBot.post_id String.eqb t k).
      rewrite (select_removed_other _ _ x_eqb_eq) by congruence. rewrite Hrow.
      assert (String.eqb post_id k = false) by (apply String.eqb_neq; congruence).
      rewrite H. apply app_nil_r.
  - eexists. split; [reflexivity|]. split.
    + unfold Sql.select at 1. rewrite filter_app.
      change (Sql.select XBot.post_id String.eqb t post_id
              ++ Sql.select XBot.post_id String.eqb [row] post_id = [row]).
      rewrite (select_absent _ _ _ _ Hex), Hrow, String.eqb_refl. reflexivity.
    + intros k Hk. unfold Sql.select at 1. rewrite filter_app.
      change (Sql.select XBot.post_id String.eqb t k
              ++ Sql.select XBot.post_id String.eqb [row] k
              = Sql.select XBot.post_id String.eqb t k).
      rewrite Hrow.
      assert (String.eqb post_id k = false) by (apply String.eqb_neq; congruence).
      rewrite H. apply app_nil_r.
Qed.

(** X14. [mark_seen] of the X bot does not raise when [posted_at] and the
    message id are [None] or integers of 64 bits, the values SQLite
    stores; afterwards the table holds under the post id exactly the row
    just written (the last call wins, whatever was stored), the rows of the
    other posts are as before, and the primary key is kept. *)
Theorem x_mark_seen_replaces (t : XBot.Table) (now : Q) (post_id u c : string)
  (pa m : option Z)
  (Hpa : Sql.opt_int_fits pa = true)
  (Hm : Sql.opt_int_fits m = true) :
  exists t',
    XBot.mark_seen t now post_id u c pa (XBot.optional_int m) = Some t'
    /\ Sql.select XBot.post_id String.eqb t' post_id
       = [ {| XBot.post_id := post_id; XBot.username := u; XBot.content := c;
              XBot.posted_at := pa; XBot.first_seen_ts := Qfloor now;
              XBot.telegram_msg_id := XBot.optional_int m |} ]
    /\ (forall k, k <> post_id ->
                  Sql.select XBot.post_id String.eqb t' k
                  = Sql.select XBot.post_id String.eqb t k)
    /\ (Sql.pk_unique XBot.post_id String.eqb t -> Sql.pk_unique XBot.post_id String.eqb t').
Proof.
  destruct (x_mark_seen_select t now post_id u c pa m Hpa Hm) as (t' & Hs & Hr & Ho).
  exists t'. split; [exact Hs|]. split; [exact Hr|]. split; [exact Ho|].
  intros Hpk. unfold XBot.mark_seen in Hs.
  destruct (XBot.bindable (XBot.optional_int m) && Sql.opt_int_fits pa); [|discriminate].
  exact (insert_pk_unique XBot.post_id String.eqb x_eqb_eq _ _ _ _ Hpk Hs).
Qed.

Lemma x_mark_seen_replaces_witness :
  Sql.opt_int_fits (Some 1762128000) = true
  /\ Sql.opt_int_fits (Some 77) = true
  /\ exists t',
       XBot.mark_seen Demo2.xtable_42 Demo.now "42" "wildmetaHQ" "gm" (Some 1762128000)
         (XBot.optional_int (Some 77)) = Some t'
       /\ Sql.select XBot.post_id String.eqb t' "42"
          = [ {| XBot.post_id := "42"; XBot.username := "wildmetaHQ"; XBot.content := "gm";
                 XBot.posted_at := Some 1762128000;
                 XBot.first_seen_ts := Qfloor Demo.now;
                 XBot.telegram_msg_id := Py.JInt 77 |} ].
Proof.
  assert (H1 : Sql.opt_int_fits (Some 1762128000) = true) by reflexivity.
  assert (H2 : Sql.opt_int_fits (Some 77) = true) by reflexivity.
  split; [exact H1|]. split; [exact H2|].
  destruct (x_mark_seen_replaces Demo2.xtable_42 Demo.now "42" "wildmetaHQ" "gm"
              (Some 1762128000) (Some 77) H1 H2) as (t' & Hs & Hr & _).
  exists t'. split; [exact Hs | exact Hr].
Defined.

Lemma loop_terminates text script rc :
  (rc <= XBot.max_retries)%nat ->
  (XBot.max_retries <= List.length script + rc)%nat ->
  exists v rest net used,
    XBot.tg_send_message_loop text rc script = (Ret v, rest, net)
    /\ script = used ++ rest
    /\ (List.length used + rc <= XBot.max_retries)%nat
    /\ List.length (filter XRuns.is_post net) = List.length used.
Proof.
  revert rc. induction script as [|p script IH]; intros rc Hrc Hlen; simpl in *.
  - assert (Hlt : (rc <? XBot.max_retries)%nat = false) by (apply Nat.ltb_ge; lia).
    rewrite Hlt. exists Py.JNull, [], [], []. repeat split. simpl. lia.
  - destruct (rc <? XBot.max_retries)%nat eqn:Hlt.
    + apply Nat.ltb_lt in Hlt.
      pose proof (attempt_no_post rc p) as Hnp.
      destruct (XBot.attempt rc p) as [v evs | evs].
      * exists v, script, (XBot.Post text p :: evs), [p].
        split; [reflexivity|]. split; [reflexivity|]. split; [simpl; lia|].
        simpl. now rewrite Hnp.
      * destruct (IH (S rc) ltac:(lia) ltac:(lia))
          as (v & rest & net & used & Hl & Hs & Hu & Hc).
        rewrite Hl. exists v, rest, (XBot.Post text p :: evs ++ net), (p :: used).
        split; [reflexivity|]. split; [simpl; now rewrite Hs|]. split; [simpl; lia|].
        simpl. rewrite filter_app, Hnp. simpl. now rewrite Hc.
    + exists Py.JNull, (p :: script), [], []. repeat split. simpl.
      apply Nat.ltb_ge in Hlt. lia.
Qed.

(** X15. With a thread id that is an integer and at least three replies
    to come, [tg_send_message] returns (it does not raise and does not wait
    for ever) after using at most the first three replies, one per POST. *)
Theorem tg_send_message_terminates (cfg : XBot.Config) (text : string)
  (script : list PostResult)
  (Hcfg : XRuns.thread_id_ok cfg = true)
  (Hlen : (3 <= List.length script)%nat) :
  exists v rest net used,
    XBot.tg_send_message cfg text script = (Ret v, rest, net)
    /\ script = used ++ rest
    /\ (List.length used <= 3)%nat
    /\ List.length (filter XRuns.is_post net) = List.length used.
Proof.
  unfold XBot.tg_send_message. unfold XRuns.thread_id_ok in Hcfg.
  destruct (Py.int_of_str (XBot.X_THREAD_ID cfg)); [|discriminate].
  destruct (loop_terminates text script 0%nat)
    as (v & rest & net & used & Hl & Hs & Hu & Hc).
  - unfold XBot.max_retries. lia.
  - unfold XBot.max_retries. lia.
  - exists v, rest, net, used. split; [exact Hl|]. split; [exact Hs|].
    split; [unfold XBot.max_retries in Hu; lia | exact Hc].
Qed.

Lemma tg_send_message_terminates_witness :
  XRuns.thread_id_ok Demo.xcfg = true
  /\ (3 <= List.length (Demo.x_failures ++ [Demo.ok_reply 9]))%nat
  /\ exists v rest net used,
       XBot.tg_send_message Demo.xcfg "gm" (Demo.x_failures ++ [Demo.ok_reply 9])
       = (Ret v, rest, net)
       /\ Demo.x_failures ++ [Demo.ok_reply 9] = used ++ rest
       /\ (List.length used <= 3)%nat
       /\ List.length (filter XRuns.is_post net) = List.length used.
Proof.
  assert (H1 : XRuns.thread_id_ok Demo.xcfg = true) by reflexivity.
  assert (H2 : (3 <= List.length (Demo.x_failures ++ [Demo.ok_reply 9]))%nat)
    by (vm_compute; lia).
  split; [exact H1|]. split; [exact H2|].
  exact (tg_send_message_terminates Demo.xcfg "gm" _ H1 H2).
Defined.

Lemma attempt_error rc p :
  Obs.error_reply p = true -> XBot.attempt rc p = XBot.Retries (XBot.backoff rc).
Proof.
  destruct p as [|r]; simpl; [reflexivity|].
  intros H. apply andb_true_iff in H. destruct H as [H1 H2].
  apply negb_true_iff in H1. rewrite H1, H2. reflexivity.
Qed.

(** X16. When the three POSTs of [tg_send_message] meet errors that are not
    rate limits, it sleeps 2 seconds after the first and 4 after the
    second, does not sleep after the third, and returns [None]. *)
Theorem backoff_schedule (cfg : XBot.Config) (text : string)
  (f1 f2 f3 : PostResult) (rest : list PostResult)
  (Hcfg : XRuns.thread_id_ok cfg = true)
  (Herr : forallb Obs.error_reply [f1; f2; f3] = true) :
  XBot.tg_send_message cfg text (f1 :: f2 :: f3 :: rest)
  = (Ret Py.JNull, rest,
     [XBot.Post text f1; XBot.Sleep 2; XBot.Post text f2; XBot.Sleep 4; XBot.Post text f3]).
Proof.
  unfold XBot.tg_send_message. unfold XRuns.thread_id_ok in Hcfg.
  destruct (Py.int_of_str (XBot.X_THREAD_ID cfg)); [|discriminate].
  simpl in Herr. rewrite !andb_true_iff in Herr. destruct Herr as (H1 & H2 & H3 & _).
  cbn [XBot.tg_send_message_loop Nat.ltb Nat.leb XBot.max_retries].
  rewrite (attempt_error 0 f1 H1), (attempt_error 1 f2 H2), (attempt_error 2 f3 H3).
  destruct rest; reflexivity.
Qed.

Lemma backoff_schedule_witness :
  XRuns.thread_id_ok Demo.xcfg = true
  /\ forallb Obs.error_reply [PostRaises; Demo2.error_500; PostRaises] = true
  /\ XBot.tg_send_message Demo.xcfg "gm"
       (PostRaises :: Demo2.error_500 :: PostRaises :: [Demo.ok_reply 9])
     = (Ret Py.JNull, [Demo.ok_reply 9],
        [XBot.Post "gm" PostRaises; XBot.Sleep 2; XBot.Post "gm" Demo2.error_500;
         XBot.Sleep 4; XBot.Post "gm" PostRaises]).
Proof.
  assert (H1 : XRuns.thread_id_ok Demo.xcfg = true) by reflexivity.
  assert (H2 : forallb Obs.error_reply [PostRaises; Demo2.error_500; PostRaises] = true)
    by reflexivity.
  split; [exact H1|]. split; [exact H2|].
  exact (backoff_schedule Demo.xcfg "gm" PostRaises Demo2.error_500 PostRaises
           [Demo.ok_reply 9] H1 H2).
Defined.



(** A message id the table cannot hold: the POST is made, [mark_seen]
    raises, and the post is neither stored nor counted. *)
Example wide_message_id_is_not_stored :
  exists w' evs,
    XBot.process_post Demo.xenv Demo.xcfg (Demo.xpost "42" "gm")
      {| XBot.db := []; XBot.tg := [Demo.ok_reply (2 ^ 63)]; XBot.clock := Demo.now |}
    = (Some false, w', evs)
    /\ XBot.db w' = []
    /\ XRuns.count_posts "42" evs = 1%nat.
Proof. do 2 eexists. split; [vm_compute; reflexivity|]. split; reflexivity. Qed.

Lemma x_mark_seen_pk (t t' : XBot.Table) now post_id u c pa m :
  XBot.mark_seen t now post_id u c pa m = Some t' ->
  Sql.pk_unique XBot.post_id String.eqb t -> Sql.pk_unique XBot.post_id String.eqb t'.
Proof.
  unfold XBot.mark_seen.
  destruct (XBot.bindable m && Sql.opt_int_fits pa); [|discriminate]. intros H Hpk.
  exact (insert_pk_unique XBot.post_id String.eqb x_eqb_eq _ _ _ _ Hpk H).
Qed.

Lemma posts_of_map id stages :
  List.length (filter (fun e => XRuns.is_post (XRuns.stage_of e)) (map (XBot.Ev id) stages))
  = List.length (filter XRuns.is_post stages).
Proof.
  induction stages as [|s stages IH]; simpl; [reflexivity|].
  destruct (XRuns.is_post s); simpl; now rewrite IH.
Qed.

Lemma process_post_budget E cfg post w r w' evs :
  XBot.process_post E cfg post w = (r, w', evs) ->
  (List.length (filter (fun e => XRuns.is_post (XRuns.stage_of e)) evs) <= 3)%nat
  /\ (Sql.pk_unique XBot.post_id String.eqb (XBot.db w) ->
      Sql.pk_unique XBot.post_id String.eqb (XBot.db w')).
Proof.
  unfold XBot.process_post.
  destruct (XBot.seen_before (XBot.db w) (XBot.x_post_id post)) eqn:Hseen.
  { inv3. simpl. split; [lia | auto]. }
  unfold XBot.tg_send_with_preview.
  pose proof (tg_send_message_bound cfg (XBot.format_x_post_message E post) (XBot.tg w)) as Hb.
  destruct (XBot.tg_send_message cfg _ (XBot.tg w)) as [[o rest] net].
  cbn [snd] in Hb. cbv zeta. cbn [XBot.db XBot.clock].
  destruct o as [msg_id| |].
  - destruct (XBot.mark_seen _ _ _ _ _ _ _) as [db'|] eqn:Hm.
    + destruct (Py.truthy msg_id); inv3; cbn [XBot.db]; rewrite posts_of_map;
        (split; [simpl; rewrite filter_app; simpl; rewrite length_app; simpl; lia|]);
        eapply x_mark_seen_pk; eassumption.
    + inv3. cbn [XBot.db]. rewrite posts_of_map. simpl. split; [lia | auto].
  - inv3. cbn [XBot.db]. rewrite posts_of_map. simpl. split; [lia | auto].
  - inv3. cbn [XBot.db]. rewrite posts_of_map. simpl. split; [lia | auto].
Qed.

Lemma process_posts_budget E cfg posts n w r w' evs :
  XBot.process_posts E cfg posts n w = (r, w', evs) ->
  (List.length (filter (fun e => XRuns.is_post (XRuns.stage_of e)) evs)
   <= 3 * List.length posts)%nat
  /\ (Sql.pk_unique XBot.post_id String.eqb (XBot.db w) ->
      Sql.pk_unique XBot.post_id String.eqb (XBot.db w'))
  /\ (forall k, r = Some k -> n <= k <= n + Z.of_nat (List.length posts)).
Proof.
  revert n w r w' evs. induction posts as [|p posts IH]; intros n w r w' evs.
  - simpl. inv3. simpl. split; [lia|]. split; [auto|]. intros k [= <-]. lia.
  - cbn [XBot.process_posts].
    destruct (XBot.process_post E cfg p w) as [[b w1] evs1] eqn:Hp.
    destruct (process_post_budget _ _ _ _ _ _ _ Hp) as (Hb1 & Hpk1).
    destruct b as [b|].
    + destruct (XBot.process_posts E cfg posts _ w1) as [[r2 w2] evs2] eqn:Hrest.
      destruct (IH _ _ _ _ _ Hrest) as (Hb2 & Hpk2 & Hn2).
      inv3. rewrite filter_app, length_app. cbn [List.length].
      split; [lia|]. split; [auto|].
      intros k Hk. specialize (Hn2 k Hk). destruct b; lia.
    + inv3. cbn [List.length]. split; [lia|]. split; [auto|]. discriminate.
Qed.

(** X25. A cycle of [process_x_feed] makes at most three POSTs for each
    post fetched; the count it returns is between 0 and the number of posts
    fetched; a post that was in the table is still there and no POST is
    made for it; and the primary key of the table is kept. When the fetch
    raises or gives no post, nothing is sent and 0 is returned. *)
Theorem x_cycle_budget (E : XBot.Env) (cfg : XBot.Config)
  (fetched : option (list XBot.XPost)) (w : XBot.World) :
  let posts := match fetched with Some ps => ps | None => [] end in
  let res := fst (fst (XBot.process_x_feed E cfg fetched w)) in
  let w' := snd (fst (XBot.process_x_feed E cfg fetched w)) in
  let evs := snd (XBot.process_x_feed E cfg fetched w) in
  (List.length (filter (fun e => XRuns.is_post (XRuns.stage_of e)) evs)
   <= 3 * List.length posts)%nat
  /\ (forall n, res = Some n -> 0 <= n <= Z.of_nat (List.length posts))
  /\ (forall id, XBot.seen_before (XBot.db w) id = true ->
                 XBot.seen_before (XBot.db w') id = true
                 /\ XRuns.count_posts id evs = 0%nat)
  /\ (Sql.pk_unique XBot.post_id String.eqb (XBot.db w) ->
      Sql.pk_unique XBot.post_id String.eqb (XBot.db w'))
  /\ (posts = [] -> XBot.process_x_feed E cfg fetched w = (Some 0, w, [])).
Proof.
  cbv zeta. unfold XBot.process_x_feed.
  destruct fetched as [[|p posts]|].
  1,3: cbn [fst snd]; simpl; split; [lia|]; split; [intros n [= <-]; lia|];
       split; [auto|]; split; [auto | reflexivity].
  destruct (XBot.process_posts E cfg (p :: posts) 0 w) as [[r w'] evs] eqn:H.
  cbn [fst snd].
  destruct (process_posts_budget _ _ _ _ _ _ _ _ H) as (Hb & Hpk & Hn).
  split; [exact Hb|]. split; [intros n Hr; specialize (Hn n Hr); lia|].
  split; [|split; [exact Hpk | discriminate]].
  intros id Hid. exact (process_posts_seen _ _ _ _ _ _ _ _ _ H Hid).
Qed.

Lemma digits_prefix_all (s : string) : XFetch.all_digits (XFetch.digits_prefix s) = true.
Proof.
  induction s as [|c r IH]; simpl; [reflexivity|].
  destruct (Py.is_digit c) eqn:Hc; simpl; [now rewrite Hc | reflexivity].
Qed.

Lemma status_id_digits (s id : string) :
  XFetch.status_id s = Some id ->
  XFetch.all_digits id = true /\ Py.nonempty id = true.
Proof.
  induction s as [|c r IH]; [discriminate|].
  cbn [XFetch.status_id].
  destruct (Py.startswith "/status/" (String c r)
            && Py.nonempty (XFetch.digits_prefix (Py.drop 8 (String c r)))) eqn:H.
  - intros [= <-]. apply andb_true_iff in H. split; [apply digits_prefix_all | apply H].
  - exact IH.
Qed.

Lemma parse_item_spec username it p :
  XFetch.parse_item username it = Some p ->
  XBot.x_username p = username
  /\ XFetch.all_digits (XBot.x_post_id p) = true
  /\ Py.nonempty (XBot.x_post_id p) = true
  /\ forallb (Py.contains "/pic/") (XBot.x_images p) = true.
Proof.
  unfold XFetch.parse_item. destruct it as [|i]; [discriminate|].
  destruct (XFetch.tweet_link i) as [url|]; [|discriminate].
  destruct (XFetch.status_id url) as [id|] eqn:Hid; [|discriminate].
  intros [= <-]. cbn [XBot.x_username XBot.x_post_id XBot.x_images].
  destruct (status_id_digits _ _ Hid) as [H1 H2].
  repeat split; try assumption.
  apply forallb_forall. intros src Hsrc. apply filter_In in Hsrc.
  destruct Hsrc as [_ Hsrc]. now apply andb_true_iff in Hsrc.
Qed.

Lemma parse_items_spec username items :
  (List.length (XFetch.parse_items username items) <= List.length items)%nat
  /\ Forall (fun p => XBot.x_username p = username
                      /\ XFetch.all_digits (XBot.x_post_id p) = true
                      /\ Py.nonempty (XBot.x_post_id p) = true
                      /\ forallb (Py.contains "/pic/") (XBot.x_images p) = true)
            (XFetch.parse_items username items).
Proof.
  induction items as [|it items [IH1 IH2]]; simpl; [split; [lia | constructor]|].
  destruct (XFetch.parse_item username it) as [p|] eqn:Hp.
  - split; [simpl; lia|]. constructor; [now apply (parse_item_spec username it) | exact IH2].
  - split; [lia | exact IH2].
Qed.

Lemma slice_to_length {A : Type} (n : Z) (l : list A) :
  0 <= n -> (List.length (XFetch.slice_to n l) <= Z.to_nat n)%nat.
Proof.
  intros Hn. unfold XFetch.slice_to.
  assert (H : (0 <=? n) = true) by now apply Z.leb_le.
  rewrite H. rewrite length_firstn. lia.
Qed.

Lemma nitter_cons cfg username pg pages :
  XFetch.fetch_x_posts_nitter cfg username (pg :: pages)
  = match XFetch.fetch_x_posts_nitter cfg username [pg] with
    | [] => XFetch.fetch_x_posts_nitter cfg username pages
    | posts => posts
    end.
Proof.
  destruct pg as [|status items]; simpl; [reflexivity|].
  destruct (negb (status =? 200)); [reflexivity|].
  destruct (XFetch.parse_items username _); reflexivity.
Qed.

Lemma nitter_single cfg username pg p posts :
  XFetch.fetch_x_posts_nitter cfg username [pg] = p :: posts ->
  exists items,
    pg = XFetch.Got 200 items
    /\ p :: posts = XFetch.parse_items username
                      (XFetch.slice_to (XBot.MAX_POSTS_PER_CYCLE cfg) items).
Proof.
  destruct pg as [|status items]; simpl; [discriminate|].
  destruct (negb (status =? 200)) eqn:Hst; [discriminate|].
  apply negb_false_iff, Z.eqb_eq in Hst. subst status.
  destruct (XFetch.parse_items username _) eqn:Hp; [discriminate|].
  intros [= <- <-]. exists items. split; [reflexivity | now rewrite Hp].
Qed.

(** X18. With [MAX_POSTS_PER_CYCLE] not negative, [fetch_x_posts_nitter]
    returns at most that many posts; each has the user name asked for, a
    post id made of one or more digits, and only images whose address
    holds [/pic/]; and the posts are those parsed from the first instance
    that answers 200 with a post among its first items, the instances
    before it having given none. *)
Theorem nitter_posts_spec (cfg : XBot.Config) (username : string)
  (pages : list XFetch.Page)
  (Hmax : 0 <= XBot.MAX_POSTS_PER_CYCLE cfg) :
  (List.length (XFetch.fetch_x_posts_nitter cfg username pages)
   <= Z.to_nat (XBot.MAX_POSTS_PER_CYCLE cfg))%nat
  /\ Forall (fun p => XBot.x_username p = username
                      /\ XFetch.all_digits (XBot.x_post_id p) = true
                      /\ Py.nonempty (XBot.x_post_id p) = true
                      /\ forallb (Py.contains "/pic/") (XBot.x_images p) = true)
            (XFetch.fetch_x_posts_nitter cfg username pages)
  /\ (XFetch.fetch_x_posts_nitter cfg username pages = [] \/
      exists before items after,
        pages = before ++ XFetch.Got 200 items :: after
        /\ XFetch.fetch_x_posts_nitter cfg username pages
           = XFetch.parse_items username
               (XFetch.slice_to (XBot.MAX_POSTS_PER_CYCLE cfg) items)
        /\ XFetch.fetch_x_posts_nitter cfg username before = []).
Proof.
  induction pages as [|pg pages (IH1 & IH2 & IH3)].
  - simpl. split; [lia|]. split; [constructor | now left].
  - rewrite nitter_cons.
    destruct (XFetch.fetch_x_posts_nitter cfg username [pg]) as [|p posts] eqn:Hpg.
    + split; [exact IH1|]. split; [exact IH2|].
      destruct IH3 as [H | (before & items & after & Hp & Hr & Hb)]; [now left | right].
      exists (pg :: before), items, after.
      split; [simpl; now rewrite Hp|]. split; [exact Hr|].
      rewrite nitter_cons, Hpg. exact Hb.
    + destruct (nitter_single _ _ _ _ _ Hpg) as (items & -> & Hparse).
      destruct (parse_items_spec username
                  (XFetch.slice_to (XBot.MAX_POSTS_PER_CYCLE cfg) items)) as [Hl Hf].
      rewrite <- Hparse in Hl, Hf.
      pose proof (slice_to_length (XBot.MAX_POSTS_PER_CYCLE cfg) items Hmax).
      split; [lia|]. split; [exact Hf|]. right.
      exists [], items, pages. split; [reflexivity|]. split; [exact Hparse | reflexivity].
Qed.

Lemma nitter_posts_spec_witness :
  0 <= XBot.MAX_POSTS_PER_CYCLE Demo.xcfg
  /\ (List.length (XFetch.fetch_x_posts_nitter Demo.xcfg "wildmetaHQ" Demo2.pages)
      <= Z.to_nat (XBot.MAX_POSTS_PER_CYCLE Demo.xcfg))%nat
  /\ map XBot.x_post_id (XFetch.fetch_x_posts_nitter Demo.xcfg "wildmetaHQ" Demo2.pages)
     = ["123"].
Proof.
  assert (H : 0 <= XBot.MAX_POSTS_PER_CYCLE Demo.xcfg) by (vm_compute; discriminate).
  split; [exact H|]. split.
  - exact (proj1 (nitter_posts_spec Demo.xcfg "wildmetaHQ" Demo2.pages H)).
  - reflexivity.
Defined.

(* ------------------------------------------------------------------ *)
(** ** The log handler and the status snapshot *)



Lemma emit_all_snoc h log r :
  LogHandler.emit_all h (log ++ [r])
  = LogHandler.emit (fst r) (LogHandler.emit_all h log) (snd r).
Proof. unfold LogHandler.emit_all. now rewrite fold_left_app. Qed.



Lemma emit_rss_activity now h r :
  LogHandler.rss_last_activity (LogHandler.emit now h r)
  = if Obs.is_rss_cycle r then Some now else LogHandler.rss_last_activity h.
Proof.
  unfold LogHandler.emit, Obs.is_rss_cycle. cbv zeta.
  destruct (LogHandler.ERROR <=? LogHandler.levelno r);
    destruct (Py.contains "macro-crypto-bot" (LogHandler.name r));
    destruct (Py.contains "wildmeta-x-bot" (LogHandler.name r));
    destruct (Py.contains "cycle_done" (LogHandler.getMessage r)
              || Py.contains "cycle_complete" (LogHandler.getMessage r));
    reflexivity.
Qed.


(** An example: of twelve errors the handler keeps the last ten. *)
Example busy_log_keeps_ten :
  map LogHandler.time
      (LogHandler.rss_errors (LogHandler.emit_all LogHandler.init Demo2.busy_log))
  = map inject_Z [3; 4; 5; 6; 7; 8; 9; 10; 11; 12].
Proof. reflexivity. Qed.

(** X20. After any log, the last activity of the feed bot is the time of
    the latest record with the name of the bot whose message holds
    [cycle_done] or [cycle_complete], and [None] when there is none. *)
Theorem last_activity_is_latest_cycle (log : list (Q * LogHandler.LogRecord)) :
  LogHandler.rss_last_activity (LogHandler.emit_all LogHandler.init log)
  = last (map (fun r => Some (fst r)) (filter (fun r => Obs.is_rss_cycle (snd r)) log)) None.
Proof.
  induction log as [|r log IH] using rev_ind; [reflexivity|].
  rewrite emit_all_snoc, emit_rss_activity, filter_app, map_app. cbn [filter].
  destruct (Obs.is_rss_cycle (snd r)).
  - cbn [map]. now rewrite last_last.
  - cbn [map]. now rewrite app_nil_r.
Qed.

(* ------------------------------------------------------------------ *)
(** ** The manager, beyond the claims *)

Lemma check_keeps_none b en t t' l :
  check b en t = Some (t', l) -> (t' = None <-> t = None).
Proof.
  unfold check. destruct t as [t|]; [|intros [= <- _]; tauto].
  destruct (en && done t).
  - destruct (exception t) as [[e|]|]; [| |discriminate];
      intros [= <- _]; split; discriminate.
  - intros [= <- _]. tauto.
Qed.

Lemma cancel_keeps_none t : cancel t = None <-> t = None.
Proof. destruct t as [[| | |]|]; simpl; split; congruence. Qed.

Lemma reachable_tasks m :
  reachable m ->
  (rss_task m = None <-> rss_enabled m = false)
  /\ (x_task m = None <-> x_enabled m = false)
  /\ rss_enabled m || x_enabled m = true.
Proof.
  induction 1 as [ro xo | m l m' Hr (IH1 & IH2 & IH3) Hstep].
  - unfold start. destruct ro, xo; simpl; repeat split; congruence.
  - destruct Hstep as [m t' He | m t' He | m Ha | m | m r x Hs Hr' Hx']; simpl.
    + split; [|auto]. rewrite <- IH1. destruct He as [He [-> | [e ->]]]; rewrite He;
        split; discriminate.
    + split; [exact IH1|]. split; [|exact IH3].
      rewrite <- IH2. destruct He as [He [-> | [e ->]]]; rewrite He; split; discriminate.
    + unfold sweep.
      destruct (check RssBot (rss_enabled m) (rss_task m)) as [[r' l1]|] eqn:Hc1;
        [|simpl; auto].
      pose proof (check_keeps_none _ _ _ _ _ Hc1) as Hk1.
      destruct (check XFeedBot (x_enabled m) (x_task m)) as [[x' l2]|] eqn:Hc2; simpl.
      * pose proof (check_keeps_none _ _ _ _ _ Hc2) as Hk2.
        split; [now rewrite Hk1|]. split; [now rewrite Hk2 | exact IH3].
      * split; [now rewrite Hk1 | auto].
    + auto.
    + split; [|split; [|exact IH3]].
      * destruct Hr' as [-> | ->]; [rewrite cancel_keeps_none|]; exact IH1.
      * destruct Hx' as [-> | ->]; [rewrite cancel_keeps_none|]; exact IH2.
Qed.

(** X21. In every state the manager reaches, a bot has a task exactly when
    it is enabled, at least one of the two bots is enabled, and the status
    snapshot reports a bot as running exactly when its task is not done,
    which only happens for an enabled bot. *)
Theorem status_is_consistent (m : BotManager) (h : LogHandler.BotLogHandler) (b : Bot)
  (Hr : reachable m) :
  (LogHandler.st_running (LogHandler.get_status m h b) = true ->
   LogHandler.st_enabled (LogHandler.get_status m h b) = true)
  /\ (LogHandler.st_running (LogHandler.get_status m h b) = true <->
      task_of b m = Some Running)
  /\ (task_of b m = None <-> enabled_of b m = false)
  /\ rss_enabled m || x_enabled m = true.
Proof.
  destruct (reachable_tasks m Hr) as (H1 & H2 & H3).
  assert (Hrun : forall t, LogHandler.running t = true <-> t = Some Running).
  { intros [[| | |]|]; simpl; split; congruence. }
  destruct b; cbn [LogHandler.get_status LogHandler.st_running LogHandler.st_enabled
                   task_of enabled_of].
  - split; [|split; [apply Hrun | split; [exact H1 | exact H3]]].
    intros Ht. apply Hrun in Ht. destruct (rss_enabled m); [reflexivity|].
    destruct H1 as [_ H1]. rewrite H1 in Ht by reflexivity. discriminate.
  - split; [|split; [apply Hrun | split; [exact H2 | exact H3]]].
    intros Ht. apply Hrun in Ht. destruct (x_enabled m); [reflexivity|].
    destruct H2 as [_ H2]. rewrite H2 in Ht by reflexivity. discriminate.
Qed.

Lemma status_is_consistent_witness :
  reachable Demo.manager_after_crash
  /\ LogHandler.st_running
       (LogHandler.get_status Demo.manager_after_crash LogHandler.init XFeedBot) = true
  /\ LogHandler.st_enabled
       (LogHandler.get_status Demo.manager_after_crash LogHandler.init XFeedBot) = true.
Proof.
  assert (H1 : reachable Demo.manager_after_crash).
  { apply (reach_step (start false false) [] Demo.manager_after_crash
                      (reach_start false false)).
    apply (step_rss_ends (start false false) (Some (Failed "boom"))).
    split; [reflexivity | right; exists "boom"; reflexivity]. }
  split; [exact H1|]. split; [reflexivity|].
  exact (proj1 (status_is_consistent Demo.manager_after_crash LogHandler.init XFeedBot H1)
               eq_refl).
Defined.

Lemma check_outcome b en t t' l :
  check b en t = Some (t', l) ->
  (forall e, en = true -> t' <> Some (Failed e))
  /\ (en = false \/ t = Some Running \/ t = Some Returned \/ t = None -> t' = t /\ l = []).
Proof.
  unfold check. destruct t as [t|].
  - destruct en; simpl.
    + destruct t as [| |e|]; simpl; try discriminate;
        intros [= <- <-]; (split; [intros; discriminate|]);
        intros [H | [H | [H | H]]]; try discriminate; auto.
    + intros [= <- <-]. split; [intros; discriminate | auto].
  - intros [= <- <-]. split; [intros; discriminate | auto].
Qed.

(** X22. After a sweep of the monitor, in a state the manager reaches with
    the monitor alive, no enabled bot is left with a task that ended with
    an exception; a task that runs or that returned, and the task of a
    disabled bot, are untouched; the enabled flags do not change; and at
    most two restarts are logged. *)
Theorem sweep_leaves_no_failed_task (m : BotManager)
  (Hr : reachable m) (Ha : monitor_alive m = true) :
  (forall b e, enabled_of b m = true -> task_of b (fst (sweep m)) <> Some (Failed e))
  /\ (forall b, enabled_of b m = false \/ task_of b m = Some Running
                \/ task_of b m = Some Returned ->
                task_of b (fst (sweep m)) = task_of b m)
  /\ rss_enabled (fst (sweep m)) = rss_enabled m
  /\ x_enabled (fst (sweep m)) = x_enabled m
  /\ (List.length (filter (fun l => match l with LRestart _ => true | _ => false end)
                          (snd (sweep m))) <= 2)%nat.
Proof.
  destruct (reachable_calm m Hr Ha) as [H1 H2].
  destruct (check_calm RssBot (rss_enabled m) _ H1) as (r' & l1 & Hc1 & _).
  destruct (check_calm XFeedBot (x_enabled m) _ H2) as (x' & l2 & Hc2 & _).
  unfold sweep. rewrite Hc1, Hc2. cbn [fst snd rss_enabled x_enabled].
  destruct (check_outcome _ _ _ _ _ Hc1) as [Hf1 Hs1].
  destruct (check_outcome _ _ _ _ _ Hc2) as [Hf2 Hs2].
  split; [|split; [|split; [reflexivity|split; [reflexivity|]]]].
  - intros b e Hen. destruct b; cbn [task_of rss_task x_task enabled_of] in *; auto.
  - intros b Hb. destruct b; cbn [task_of rss_task x_task enabled_of] in *.
    + apply Hs1. tauto.
    + apply Hs2. tauto.
  - assert (Hl : forall b en t t' l, check b en t = Some (t', l) ->
                   (List.length (filter (fun l => match l with LRestart _ => true
                                                          | _ => false end) l) <= 1)%nat).
    { intros b en t t' l. unfold check. destruct t as [t|]; [|intros [= _ <-]; simpl; lia].
      destruct (en && done t); [|intros [= _ <-]; simpl; lia].
      destruct (exception t) as [[e|]|]; [| |discriminate]; intros [= _ <-]; simpl; lia. }
    cbn [filter]. rewrite filter_app, length_app.
    pose proof (Hl _ _ _ _ _ Hc1). pose proof (Hl _ _ _ _ _ Hc2). lia.
Qed.

Lemma sweep_leaves_no_failed_task_witness :
  reachable Demo.manager_after_crash
  /\ monitor_alive Demo.manager_after_crash = true
  /\ task_of RssBot (fst (sweep Demo.manager_after_crash)) <> Some (Failed "boom")
  /\ task_of XFeedBot (fst (sweep Demo.manager_after_crash)) = Some Running.
Proof.
  assert (H1 : reachable Demo.manager_after_crash).
  { apply (reach_step (start false false) [] Demo.manager_after_crash
                      (reach_start false false)).
    apply (step_rss_ends (start false false) (Some (Failed "boom"))).
    split; [reflexivity | right; exists "boom"; reflexivity]. }
  assert (H2 : monitor_alive Demo.manager_after_crash = true) by reflexivity.
  split; [exact H1|]. split; [exact H2|].
  destruct (sweep_leaves_no_failed_task Demo.manager_after_crash H1 H2) as (Hf & Hs & _).
  split; [apply Hf; reflexivity|].
  apply (Hs XFeedBot). right; left. reflexivity.
Defined.

(* ------------------------------------------------------------------ *)
(** ** Escaping *)

Lemma escape_clean (s : string) :
  Py.contains "&" s = false -> Py.contains "<" s = false -> Py.contains ">" s = false ->
  Py.html_escape_noquote s = s.
Proof.
  induction s as [|c r IH]; [reflexivity|].
  rewrite !contains_char_cons, !orb_false_iff.
  intros [Ha Hra] [Hl Hrl] [Hg Hrg]. cbn [Py.html_escape_noquote].
  rewrite (Ascii.eqb_sym c "&"%char), Ha, (Ascii.eqb_sym c "<"%char), Hl,
          (Ascii.eqb_sym c ">"%char), Hg.
  simpl. now rewrite IH.
Qed.

Lemma escape_length (s : string) :
  (String.length s <= String.length (Py.html_escape_noquote s))%nat.
Proof.
  induction s as [|c r IH]; [simpl; lia|].
  cbn [Py.html_escape_noquote].
  destruct (Ascii.eqb c "&"); [simpl; lia|].
  destruct (Ascii.eqb c "<"); [simpl; lia|].
  destruct (Ascii.eqb c ">"); simpl; lia.
Qed.

(** X23. The text [h] returns, in the feed bot and in the X bot, holds
    neither [<] nor [>]; a text without [&], [<] and [>] is returned as it
    is; and the result is never shorter than the text. *)
Theorem escaped_text_is_inert (s : string) :
  Py.contains "<" (Rss.h s) = false
  /\ Py.contains ">" (Rss.h s) = false
  /\ XBot.h s = Rss.h s
  /\ (Py.contains "&" s = false -> Py.contains "<" s = false ->
      Py.contains ">" s = false -> Rss.h s = s)
  /\ (String.length s <= String.length (Rss.h s))%nat.
Proof.
  destruct (h_no_angle s) as [H1 H2].
  split; [exact H1|]. split; [exact H2|]. split; [reflexivity|].
  split; [apply escape_clean | apply escape_length].
Qed.
